(** * SystemPerformance: anomaly detection and root-cause reconstruction

    A shallow embedding of [src/analyzer.py], [src/root_cause.py], the
    helpers of [src/utils.py] they call and the [baselines] table of
    [src/storage.py], followed by the properties of the specification
    proved (or refuted) on that embedding.

    Conventions of the embedding.
    - Python numbers (floats and ints alike) are exact rationals [Q]:
      rounding of binary64 arithmetic is not modelled.  A division by zero
      raises, as in Python.
    - A naive [datetime] is the number of microseconds since
      1970-01-01T00:00:00 (a [Z]); a [timedelta] is a number of microseconds.
      Every call of [datetime.now()] is an explicit argument.
    - A Python [dict] read with [.get] is a record whose fields are
      [Py.field]s (missing key / [None] / value), or a [gmap] when the key
      set is open.
    - Code that can raise returns a [Py.result]; [try]/[except Exception]
      is a match on it.
    - Number formatting ([f"{x:.1f}"]) and [numpy]'s square root are taken
      as interfaces ([FloatText], [Numpy]). *)

From Stdlib Require Import ZArith QArith Qabs Lia Lqa String Ascii List.
From stdpp Require Import base option list sorting gmap strings pretty.

Local Open Scope string_scope.
Local Open Scope list_scope.
Local Open Scope Z_scope.

(** ** Python runtime *)

Module Py.

(** The outcome of code that may raise: a value, or the text of the
    exception ([str(e)]). *)
Inductive result (A : Type) : Type :=
| Ok (a : A)
| Raise (exc : string).
Arguments Ok {A} a.
Arguments Raise {A} exc.

Definition bind {A B} (r : result A) (k : A -> result B) : result B :=
  match r with
  | Ok a => k a
  | Raise e => Raise e
  end.

(** A key of a dict: absent, present with [None], or present with a value. *)
Inductive field (A : Type) : Type :=
| Missing
| Null
| Val (a : A).
Arguments Missing {A}.
Arguments Null {A}.
Arguments Val {A} a.

(** [d.get(key)]: [None] when the key is missing or holds [None]. *)
Definition get {A} (f : field A) : option A :=
  match f with
  | Val a => Some a
  | _ => None
  end.

(** [d.get(key, default)]: the default only replaces a missing key. *)
Definition get_default {A} (f : field A) (d : A) : option A :=
  match f with
  | Missing => Some d
  | Null => None
  | Val a => Some a
  end.

(** [x or 0] on an optional number: [None] and zero are falsy. *)
Definition or_zero (o : option Q) : Q :=
  match o with
  | Some v => if Qeq_bool v 0 then 0%Q else v
  | None => 0%Q
  end.

(** Comparisons of numbers as Python evaluates them. *)
Definition lt (x y : Q) : bool := negb (Qle_bool y x).
Definition gt (x y : Q) : bool := lt y x.
Definition ge (x y : Q) : bool := Qle_bool y x.

(** [needle in haystack] on strings. *)
Definition contains (needle haystack : string) : bool :=
  match String.index 0 needle haystack with
  | Some _ => true
  | None => false
  end.

(** [sep.join(parts)]. *)
Fixpoint join (sep : string) (parts : list string) : string :=
  match parts with
  | [] => ""
  | [p] => p
  | p :: rest => p +:+ sep +:+ join sep rest
  end.

Definition upper_ascii (c : ascii) : ascii :=
  let n := nat_of_ascii c in
  if ((97 <=? n) && (n <=? 122))%nat then ascii_of_nat (n - 32) else c.

Definition lower_ascii (c : ascii) : ascii :=
  let n := nat_of_ascii c in
  if ((65 <=? n) && (n <=? 90))%nat then ascii_of_nat (n + 32) else c.

Definition is_alpha (c : ascii) : bool :=
  let n := nat_of_ascii c in
  (((65 <=? n) && (n <=? 90)) || ((97 <=? n) && (n <=? 122)))%nat.

Fixpoint map_string (f : ascii -> ascii) (s : string) : string :=
  match s with
  | EmptyString => EmptyString
  | String c s' => String (f c) (map_string f s')
  end.

(** [s.upper()] and [s.lower()] (ASCII letters). *)
Definition upper : string -> string := map_string upper_ascii.
Definition lower : string -> string := map_string lower_ascii.

(** [s.replace('_', ' ')]. *)
Definition underscores_to_spaces : string -> string :=
  map_string (fun c => if Ascii.eqb c "_" then " "%char else c).

(** [s.title()]: a letter that follows a non-letter is upper-cased, every
    other letter lower-cased. *)
Fixpoint title_from (after_letter : bool) (s : string) : string :=
  match s with
  | EmptyString => EmptyString
  | String c s' =>
      String (if after_letter then lower_ascii c else upper_ascii c)
             (title_from (is_alpha c) s')
  end.
Definition title : string -> string := title_from false.

(** [str(x)] of an optional integer and of an optional string. *)
Definition str_int (o : option Z) : string :=
  match o with
  | Some z => pretty z
  | None => "None"
  end.
Definition str_opt (o : option string) : string :=
  match o with
  | Some s => s
  | None => "None"
  end.

End Py.

#[global] Instance result_ret : MRet Py.result := fun A a => Py.Ok a.
#[global] Instance result_bind : MBind Py.result := fun A B k r => Py.bind r k.

(** Formatting of a number with a fixed count of decimals, [f"{x:.Nf}"]. *)
Class FloatText := { fmt_fixed : nat -> Q -> string }.

(** [numpy]'s square root, the one operation of [np.std] that leaves the
    rationals. *)
Class Numpy := { np_sqrt : Q -> Q }.

(** ** [numpy] reductions *)

Module Np.

Definition sum (l : list Q) : Q := foldl Qplus 0%Q l.

(** [np.mean(arr)]. *)
Definition mean (l : list Q) : Q := (sum l / inject_Z (Z.of_nat (length l)))%Q.

(** [np.std(arr)]: the population standard deviation. *)
Definition std `{Numpy} (l : list Q) : Q :=
  let m := mean l in
  np_sqrt (mean (map (fun x => Qabs (x - m) * Qabs (x - m))%Q l)).

(** [np.min(arr)] and [np.max(arr)] on a non-empty array. *)
Definition min (l : list Q) : Q :=
  match l with
  | [] => 0%Q
  | x :: l' => foldl (fun m y => if Py.lt y m then y else m) x l'
  end.
Definition max (l : list Q) : Q :=
  match l with
  | [] => 0%Q
  | x :: l' => foldl (fun m y => if Py.lt m y then y else m) x l'
  end.

End Np.

(** ** [src/utils.py] *)

Module Utils.

Definition us_per_second : Z := 1000000.
Definition us_per_hour : Z := 3600 * us_per_second.
Definition us_per_day : Z := 86400 * us_per_second.

(** [timedelta(...)] in microseconds. *)
Definition seconds (n : Z) : Z := n * us_per_second.
Definition minutes (n : Z) : Z := n * 60 * us_per_second.
Definition hours (n : Z) : Z := n * us_per_hour.

(** [dt.weekday()]: 0 is Monday; 1970-01-01 was a Thursday. *)
Definition weekday (dt : Z) : Z := (dt / us_per_day + 3) mod 7.

(** [dt.hour]. *)
Definition hour (dt : Z) : Z := (dt mod us_per_day) / us_per_hour.

Definition get_time_context (dt : Z) : string :=
  let day_of_week := weekday dt in
  let hour := hour dt in
  if day_of_week <? 5 then
    if (6 <=? hour) && (hour <=? 11) then "weekday_morning"
    else if (12 <=? hour) && (hour <=? 17) then "weekday_afternoon"
    else if (18 <=? hour) && (hour <=? 22) then "weekday_evening"
    else "weekday_night"
  else
    if (8 <=? hour) && (hour <=? 20) then "weekend_day"
    else "weekend_night".

Definition units : list string := ["B"; "KB"; "MB"; "GB"; "TB"].

Fixpoint format_bytes_loop `{FloatText} (us : list string) (byte_count : Q) : string :=
  match us with
  | [] => fmt_fixed 1 byte_count +:+ " PB"
  | unit :: us' =>
      if Py.lt (Qabs byte_count) 1024
      then fmt_fixed 1 byte_count +:+ " " +:+ unit
      else format_bytes_loop us' (byte_count / 1024)%Q
  end.

(** [format_bytes(byte_count)]; [None] gives "N/A". *)
Definition format_bytes `{FloatText} (byte_count : option Q) : string :=
  match byte_count with
  | None => "N/A"
  | Some b => format_bytes_loop units b
  end.

End Utils.

(** ** Data model *)

(** One process record of a snapshot (a dict of the collector, or a row of
    the [process_metrics] table). *)
Module Process.
Record t : Type := {
  pid : Py.field Z;
  name : Py.field string;
  cpu_percent : Py.field Q;
  memory_rss : Py.field Q;
  ppid : Py.field Z;
  io_read_bytes : Py.field Q;
  io_write_bytes : Py.field Q;
  io_read_count : Py.field Q;
  io_write_count : Py.field Q;
}.
End Process.

(** The field a contribution ranking reads. *)
Inductive SortKey : Type := KeyCpuPercent | KeyMemoryRss.

Definition sort_key_field (k : SortKey) (p : Process.t) : Py.field Q :=
  match k with
  | KeyCpuPercent => Process.cpu_percent p
  | KeyMemoryRss => Process.memory_rss p
  end.

Inductive Severity : Type := Normal | Low | Medium | High | Critical.

Definition severity_name (s : Severity) : string :=
  match s with
  | Normal => "normal"
  | Low => "low"
  | Medium => "medium"
  | High => "high"
  | Critical => "critical"
  end.

Module Contributor.
Record t : Type := {
  pid : option Z;
  name : option string;
  current_value : Q;
  previous_value : Q;
  delta : Q;
  is_new_process : bool;
  metric : SortKey;
  display : string;
}.
End Contributor.

Module TreeNode.
Record t : Type := {
  pid : Z;
  name : option string;
  cpu_percent : option Q;
  memory_rss : option Q;
}.
End TreeNode.

Module IoProc.
Record t : Type := {
  pid : option Z;
  name : option string;
  io_read_bytes : Q;
  io_write_bytes : Q;
  io_read_count : option Q;
  io_write_count : option Q;
  total_io : Q;
}.
End IoProc.

Module Pattern.
Record t : Type := {
  pid : option Z;
  name : option string;
  avg_read_size : Q;
  classification : string;
  likely_issue : option string;
}.
End Pattern.

Module IoAnalysis.
Record t : Type := {
  top_io_processes : list IoProc.t;
  patterns : list Pattern.t;
}.
End IoAnalysis.

Module TimelinePoint.
Record t : Type := {
  timestamp : option string;
  value : Q;
}.
End TimelinePoint.

Module RootCause.
Record t : Type := {
  timeline : option (list TimelinePoint.t);
  top_contributors : list Contributor.t;
  process_tree : option (list TreeNode.t);
  io_analysis : option IoAnalysis.t;
  summary : string;
}.
End RootCause.

Module Anomaly.
Record t : Type := {
  timestamp : Z;
  anomaly_type : string;
  severity : Severity;
  metric_name : string;
  metric_value : Q;
  baseline_mean : Q;
  baseline_stddev : Q;
  z_score : Q;
  description : string;
  root_cause : option RootCause.t;
}.
End Anomaly.

(** A learned baseline, as the cache holds it. *)
Module Baseline.
Record t : Type := {
  mean : Q;
  std_dev : Q;
  min : Q;
  max : Q;
  count : Z;
}.
End Baseline.

(** A row of the [baselines] table. *)
Module BaselineRow.
Record t : Type := {
  metric_name : string;
  context : string;
  mean_value : Q;
  std_dev : Q;
  min_value : Q;
  max_value : Q;
  sample_count : Z;
}.
End BaselineRow.

(** A row of the [system_metrics] table: its timestamp text and its numeric
    columns (a column that is NULL is absent from the map). *)
Module MetricRow.
Record t : Type := {
  timestamp : option string;
  columns : gmap string Q;
}.
End MetricRow.

(** The database manager, as the two engines call it.  Each query may
    raise. *)
Module Db.
Record t : Type := {
  get_all_baselines : Py.result (list BaselineRow.t);
  get_metric_values_for_context : string -> string -> Z -> Py.result (list Q);
  update_baseline : string -> string -> Baseline.t -> Py.result ();
  get_system_metrics : Z -> Z -> Py.result (list MetricRow.t);
  get_process_metrics_at : Z -> Py.result (list Process.t);
}.
End Db.

(** ** [src/storage.py]: the [baselines] table *)

Module Storage.

(** The rows of the table in rowid order; the unique index [idx_baseline]
    allows one row per (metric_name, context). *)
Definition table : Type := list BaselineRow.t.

(** The table as [_create_tables] makes it in a new database. *)
Definition created : table := [].

(** The row [update_baseline] binds to its statement. *)
Definition row (metric_name context : string) (stats : Baseline.t) : BaselineRow.t :=
  {| BaselineRow.metric_name := metric_name;
     BaselineRow.context := context;
     BaselineRow.mean_value := Baseline.mean stats;
     BaselineRow.std_dev := Baseline.std_dev stats;
     BaselineRow.min_value := Baseline.min stats;
     BaselineRow.max_value := Baseline.max stats;
     BaselineRow.sample_count := Baseline.count stats |}.

(** [update_baseline(metric_name, context, stats)] when the statement runs:
    [INSERT ... ON CONFLICT(metric_name, context) DO UPDATE] overwrites the
    row of the pair where it stands, and adds a row for a new pair. *)
Fixpoint update_baseline (t : table) (metric_name context : string)
    (stats : Baseline.t) : table :=
  match t with
  | [] => [row metric_name context stats]
  | r :: rest =>
      if String.eqb (BaselineRow.metric_name r) metric_name
         && String.eqb (BaselineRow.context r) context
      then row metric_name context stats :: rest
      else r :: update_baseline rest metric_name context stats
  end.

(** The database an analyzer talks to when the table holds [t]: the history
    queries are those of [queries]; [get_all_baselines] returns every row of
    [t], unless the query itself fails (as [queries] tells);
    [update_baseline] always returns, since it logs and swallows its own
    exceptions. *)
Definition connect (t : table) (queries : Db.t) : Db.t :=
  {| Db.get_all_baselines :=
       match Db.get_all_baselines queries with
       | Py.Ok _ => Py.Ok t
       | Py.Raise e => Py.Raise e
       end;
     Db.get_metric_values_for_context := Db.get_metric_values_for_context queries;
     Db.update_baseline := fun _ _ _ => Py.Ok ();
     Db.get_system_metrics := Db.get_system_metrics queries;
     Db.get_process_metrics_at := Db.get_process_metrics_at queries |}.

End Storage.

(** ** [src/analyzer.py] *)

Module Analyzer.

(** The [analysis] section of the configuration; [None] is a missing key. *)
Record Config : Type := {
  cfg_baseline_history_days : option Z;
  cfg_anomaly_severity_levels : option (gmap string Q);
}.

Definition default_severity_levels : gmap string Q :=
  <["low" := 1.5%Q]> (<["medium" := 2.0%Q]> (<["high" := 2.5%Q]>
    (<["critical" := 3.0%Q]> ∅))).

Definition MONITORED_METRICS : list string :=
  ["cpu_percent"; "memory_percent"; "swap_percent"].

(** The attributes of an [Analyzer] object. *)
Record t : Type := {
  baseline_history_days : Z;
  severity_levels : gmap string Q;
  baselines_cache : gmap (string * string) Baseline.t;
  last_baseline_update : option Z;
  baseline_update_interval : Z;
  memory_history : list (Z * Q);
  memory_history_max_age : Z;
  swap_history : list (Z * Q);
  swap_history_max_age : Z;
}.

Definition set_baselines (a : t) (cache : gmap (string * string) Baseline.t)
    (updated_at : option Z) : t :=
  {| baseline_history_days := baseline_history_days a;
     severity_levels := severity_levels a;
     baselines_cache := cache;
     last_baseline_update := updated_at;
     baseline_update_interval := baseline_update_interval a;
     memory_history := memory_history a;
     memory_history_max_age := memory_history_max_age a;
     swap_history := swap_history a;
     swap_history_max_age := swap_history_max_age a |}.

Definition set_histories (a : t) (mem swp : list (Z * Q)) : t :=
  {| baseline_history_days := baseline_history_days a;
     severity_levels := severity_levels a;
     baselines_cache := baselines_cache a;
     last_baseline_update := last_baseline_update a;
     baseline_update_interval := baseline_update_interval a;
     memory_history := mem;
     memory_history_max_age := memory_history_max_age a;
     swap_history := swp;
     swap_history_max_age := swap_history_max_age a |}.

(** The loop of [_load_baselines_from_db]: each row is copied into the
    cache under [(metric_name, context)]. *)
Definition load_row (cache : gmap (string * string) Baseline.t)
    (b : BaselineRow.t) : gmap (string * string) Baseline.t :=
  <[(BaselineRow.metric_name b, BaselineRow.context b) :=
      {| Baseline.mean := BaselineRow.mean_value b;
         Baseline.std_dev := BaselineRow.std_dev b;
         Baseline.min := BaselineRow.min_value b;
         Baseline.max := BaselineRow.max_value b;
         Baseline.count := BaselineRow.sample_count b |}]> cache.

Definition _load_baselines_from_db (db : Db.t) (a : t) : t :=
  match Db.get_all_baselines db with
  | Py.Ok baselines =>
      set_baselines a (foldl load_row (baselines_cache a) baselines)
                    (last_baseline_update a)
  | Py.Raise _ => a
  end.

(** [Analyzer.__init__]. *)
Definition init (config : Config) (db : Db.t) : t :=
  _load_baselines_from_db db
    {| baseline_history_days := default 7 (cfg_baseline_history_days config);
       severity_levels :=
         default default_severity_levels (cfg_anomaly_severity_levels config);
       baselines_cache := ∅;
       last_baseline_update := None;
       baseline_update_interval := Utils.hours 1;
       memory_history := [];
       memory_history_max_age := Utils.hours 2;
       swap_history := [];
       swap_history_max_age := Utils.minutes 30 |}.

(** *** Baseline calculation *)

Definition contexts : list string :=
  ["weekday_morning"; "weekday_afternoon"; "weekday_evening";
   "weekday_night"; "weekend_day"; "weekend_night"].

(** The [stats] dict of [update_baselines], with the floor on [std_dev]. *)
Definition compute_stats `{Numpy} (values : list Q) : Baseline.t :=
  let std_dev := Np.std values in
  {| Baseline.mean := Np.mean values;
     Baseline.std_dev := if Py.lt std_dev 0.01 then 0.01%Q else std_dev;
     Baseline.min := Np.min values;
     Baseline.max := Np.max values;
     Baseline.count := Z.of_nat (length values) |}.

(** The body of the inner loop of [update_baselines] for one
    (metric, context) pair; any exception leaves the pair as it was. *)
Definition refresh_pair `{Numpy} (db : Db.t) (days : Z) (metric context : string)
    (acc : gmap (string * string) Baseline.t * Z)
    : gmap (string * string) Baseline.t * Z :=
  let '(cache, updated) := acc in
  match Db.get_metric_values_for_context db metric context days with
  | Py.Raise _ => acc
  | Py.Ok values =>
      if Z.of_nat (length values) <? 10 then acc
      else
        let stats := compute_stats values in
        match Db.update_baseline db metric context stats with
        | Py.Raise _ => acc
        | Py.Ok _ => (<[(metric, context) := stats]> cache, updated + 1)
        end
  end.

(** The two nested loops of [update_baselines]. *)
Definition refresh_all `{Numpy} (db : Db.t) (days : Z)
    (cache : gmap (string * string) Baseline.t)
    : gmap (string * string) Baseline.t * Z :=
  foldl (fun acc metric =>
           foldl (fun acc context => refresh_pair db days metric context acc)
                 acc contexts)
        (cache, 0) MONITORED_METRICS.

(** The guard at the head of [update_baselines]: an un-forced call less
    than one interval after the last update returns at once. *)
Definition too_soon (now : Z) (force : bool) (a : t) : bool :=
  negb force &&
  match last_baseline_update a with
  | Some last => now - last <? baseline_update_interval a
  | None => false
  end.

Definition update_baselines `{Numpy} (now : Z) (force : bool) (db : Db.t) (a : t) : t :=
  if too_soon now force a then a
  else
    let '(cache, _) :=
      refresh_all db (baseline_history_days a) (baselines_cache a) in
    set_baselines a cache (Some now).

(** The table side of [update_baselines].  For each pair the loop hands
    [stats] to [db.update_baseline]; [kept metric context] tells whether the
    statement ran or failed (the failure is logged inside [update_baseline]
    and the table keeps its rows). *)
Definition store_pair `{Numpy} (queries : Db.t) (days : Z)
    (kept : string -> string -> bool) (metric context : string)
    (rows : Storage.table) : Storage.table :=
  match Db.get_metric_values_for_context queries metric context days with
  | Py.Raise _ => rows
  | Py.Ok values =>
      if Z.of_nat (length values) <? 10 then rows
      else
        let stats := compute_stats values in
        if kept metric context
        then Storage.update_baseline rows metric context stats
        else rows
  end.

Definition store_all `{Numpy} (queries : Db.t) (days : Z)
    (kept : string -> string -> bool) (rows : Storage.table) : Storage.table :=
  foldl (fun rows metric =>
           foldl (fun rows context =>
                    store_pair queries days kept metric context rows)
                 rows contexts)
        rows MONITORED_METRICS.

(** The table after [update_baselines(force)] at time [now]. *)
Definition table_after_update `{Numpy} (now : Z) (force : bool) (queries : Db.t)
    (kept : string -> string -> bool) (a : t) (rows : Storage.table)
    : Storage.table :=
  if too_soon now force a then rows
  else store_all queries (baseline_history_days a) kept rows.

(** [get_baseline(metric_name, context)] with an explicit context. *)
Definition get_baseline (a : t) (metric_name context : string) : option Baseline.t :=
  baselines_cache a !! (metric_name, context).

(** *** Anomaly detection *)

Definition _classify_severity (a : t) (abs_z_score : Q) : Severity :=
  let critical := default 3.0%Q (severity_levels a !! "critical") in
  let high := default 2.5%Q (severity_levels a !! "high") in
  let medium := default 2.0%Q (severity_levels a !! "medium") in
  let low := default 1.5%Q (severity_levels a !! "low") in
  if Py.ge abs_z_score critical then Critical
  else if Py.ge abs_z_score high then High
  else if Py.ge abs_z_score medium then Medium
  else if Py.ge abs_z_score low then Low
  else Normal.

Definition _get_anomaly_type (metric_name : string) (z_score : Q) : string :=
  if String.eqb metric_name "cpu_percent" then
    if Py.gt z_score 0 then "cpu_spike" else "cpu_drop"
  else if String.eqb metric_name "memory_percent" then
    if Py.gt z_score 0 then "memory_pressure" else "memory_drop"
  else if String.eqb metric_name "swap_percent" then
    if Py.gt z_score 0 then "swap_pressure" else "swap_drop"
  else "unknown_anomaly".

Definition zscore_description `{FloatText} (metric_name : string) (value z_score : Q)
    (context : string) (mean std_dev : Q) : string :=
  Py.title (Py.underscores_to_spaces metric_name) +:+ " at " +:+
  fmt_fixed 1 value +:+ "% is " +:+ fmt_fixed 1 (Qabs z_score) +:+
  " std devs " +:+ (if Py.gt z_score 0 then "above" else "below") +:+
  " normal for " +:+ Py.underscores_to_spaces context +:+
  " (typical: " +:+ fmt_fixed 1 mean +:+ "% ± " +:+ fmt_fixed 1 std_dev +:+ "%)".

(** [_check_zscore]: the division raises on a zero [std_dev]. *)
Definition _check_zscore `{FloatText} (a : t) (timestamp : Z) (metric_name : string)
    (value : Q) (baseline : Baseline.t) (context : string)
    : Py.result (option Anomaly.t) :=
  let mean := Baseline.mean baseline in
  let std_dev := Baseline.std_dev baseline in
  if Qeq_bool std_dev 0 then Py.Raise "float division by zero"
  else
    let z_score := ((value - mean) / std_dev)%Q in
    let severity := _classify_severity a (Qabs z_score) in
    match severity with
    | Normal | Low => Py.Ok None
    | _ =>
        Py.Ok (Some
          {| Anomaly.timestamp := timestamp;
             Anomaly.anomaly_type := _get_anomaly_type metric_name z_score;
             Anomaly.severity := severity;
             Anomaly.metric_name := metric_name;
             Anomaly.metric_value := value;
             Anomaly.baseline_mean := mean;
             Anomaly.baseline_stddev := std_dev;
             Anomaly.z_score := z_score;
             Anomaly.description :=
               zscore_description metric_name value z_score context mean std_dev;
             Anomaly.root_cause := None |})
    end.

(** The z-score loop of [analyze] over a list of metrics; an exception of
    [_check_zscore] propagates. *)
Fixpoint zscore_anomalies `{FloatText} (a : t) (timestamp : Z)
    (system_metrics : gmap string Q) (context : string) (metrics : list string)
    : Py.result (list Anomaly.t) :=
  match metrics with
  | [] => Py.Ok []
  | metric :: rest =>
      match system_metrics !! metric with
      | None => zscore_anomalies a timestamp system_metrics context rest
      | Some value =>
          match get_baseline a metric context with
          | None => zscore_anomalies a timestamp system_metrics context rest
          | Some baseline =>
              anomaly ← _check_zscore a timestamp metric value baseline context;
              others ← zscore_anomalies a timestamp system_metrics context rest;
              Py.Ok (match anomaly with
                     | Some an => an :: others
                     | None => others
                     end)
          end
      end
  end.

(** *** Trend detection *)

(** The [while] loop of [_trim_history]: entries older than the cutoff are
    popped from the front. *)
Fixpoint pop_older (cutoff : Z) (history : list (Z * Q)) : list (Z * Q) :=
  match history with
  | [] => []
  | (ts, val) :: rest =>
      if ts <? cutoff then pop_older cutoff rest else history
  end.

Definition _trim_history (now : Z) (history : list (Z * Q)) (max_age : Z)
    : list (Z * Q) :=
  match history with
  | [] => []
  | _ => pop_older (now - max_age) history
  end.

Definition bucket_count : Z := 12.
Definition bucket_duration : Z := Utils.minutes 10.

(** The body of the bucketing loop of [_detect_memory_leak]; [int()]
    truncates toward zero. *)
Definition place (now : Z) (buckets : list (list Q)) (entry : Z * Q)
    : list (list Q) :=
  let '(ts, val) := entry in
  let age := now - ts in
  let bucket_idx := Z.min (bucket_count - 1) (Z.quot age bucket_duration) in
  let bucket_idx := bucket_count - 1 - bucket_idx in
  if (0 <=? bucket_idx) && (bucket_idx <? bucket_count)
  then alter (fun bucket => bucket ++ [val]) (Z.to_nat bucket_idx) buckets
  else buckets.

Definition fill_buckets (now : Z) (history : list (Z * Q)) : list (list Q) :=
  foldl (place now) (replicate (Z.to_nat bucket_count) []) history.

(** The averages of the non-empty buckets, oldest first. *)
Definition bucket_averages (buckets : list (list Q)) : list Q :=
  flat_map (fun bucket => match bucket with
                          | [] => []
                          | _ => [Np.mean bucket]
                          end) buckets.

(** The count of indices [i] with [averages[i + 1] > averages[i]]. *)
Fixpoint count_growth (averages : list Q) : Z :=
  match averages with
  | x :: (y :: _) as rest =>
      (if Py.gt y x then 1 else 0) + count_growth rest
  | _ => 0
  end.

Definition growth_mb_per_hour (averages : list Q) : Q :=
  let growth_bytes := (List.last averages 0 - hd 0 averages)%Q in
  let growth_per_hour :=
    (growth_bytes *
     (3600 / (inject_Z (Z.of_nat (length averages)) * 600)))%Q in
  (growth_per_hour / (1024 * 1024))%Q.

Definition leak_description `{FloatText} (growth : Q) (averages : list Q)
    (growth_count total_comparisons : Z) : string :=
  "Potential memory leak detected: memory growing at " +:+
  fmt_fixed 0 growth +:+ " MB/hour over the last " +:+
  pretty (Z.of_nat (length averages) * 10) +:+ " minutes (" +:+
  pretty growth_count +:+ "/" +:+ pretty total_comparisons +:+
  " intervals show growth)".

Definition _detect_memory_leak `{FloatText} (now : Z) (a : t) (timestamp : Z)
    : option Anomaly.t :=
  if Z.of_nat (length (memory_history a)) <? 60 then None
  else
    let averages := bucket_averages (fill_buckets now (memory_history a)) in
    if Z.of_nat (length averages) <? 6 then None
    else
      let growth_count := count_growth averages in
      let total_comparisons := Z.of_nat (length averages) - 1 in
      if total_comparisons <? 5 then None
      else
        let growth_ratio :=
          (inject_Z growth_count / inject_Z total_comparisons)%Q in
        if Py.ge growth_ratio 0.75 then
          let growth := growth_mb_per_hour averages in
          if Py.gt growth 50 then
            Some {| Anomaly.timestamp := timestamp;
                    Anomaly.anomaly_type := "memory_leak";
                    Anomaly.severity := if Py.gt growth 100 then High else Medium;
                    Anomaly.metric_name := "memory_used";
                    Anomaly.metric_value := List.last averages 0%Q;
                    Anomaly.baseline_mean := hd 0%Q averages;
                    Anomaly.baseline_stddev := 0;
                    Anomaly.z_score := 0;
                    Anomaly.description :=
                      leak_description growth averages growth_count
                                       total_comparisons;
                    Anomaly.root_cause := None |}
          else None
        else None.

Definition swap_threshold : Q := 100 * 1024 * 1024.

(** The count of indices [i >= 1] whose sample differs from the one before
    by more than the threshold. *)
Fixpoint count_swap_changes (history : list (Z * Q)) : Z :=
  match history with
  | (_, prev) :: ((_, cur) :: _) as rest =>
      (if Py.gt (Qabs (cur - prev)) swap_threshold then 1 else 0)
      + count_swap_changes rest
  | _ => 0
  end.

Definition thrash_description (swap_changes total_samples : Z) : string :=
  "Swap thrashing detected: " +:+ pretty swap_changes +:+
  " large swap changes (>100 MB) in " +:+ pretty total_samples +:+
  " samples over the last 30 minutes. System performance severely degraded.".

Definition _detect_swap_thrashing (a : t) (timestamp : Z) : option Anomaly.t :=
  if Z.of_nat (length (swap_history a)) <? 20 then None
  else
    let swap_changes := count_swap_changes (swap_history a) in
    let total_samples := Z.of_nat (length (swap_history a)) - 1 in
    if total_samples <? 10 then None
    else
      let change_ratio := (inject_Z swap_changes / inject_Z total_samples)%Q in
      if Py.gt change_ratio 0.15 then
        Some {| Anomaly.timestamp := timestamp;
                Anomaly.anomaly_type := "swap_thrashing";
                Anomaly.severity := Critical;
                Anomaly.metric_name := "swap_used";
                Anomaly.metric_value := snd (List.last (swap_history a) (0, 0%Q));
                Anomaly.baseline_mean := 0;
                Anomaly.baseline_stddev := 0;
                Anomaly.z_score := 0;
                Anomaly.description :=
                  thrash_description swap_changes total_samples;
                Anomaly.root_cause := None |}
      else None.

(** The readings of [datetime.now()] during one [_detect_trends] call, in
    the order they are taken. *)
Record Clock : Type := {
  now_memory_trim : Z;
  now_swap_trim : Z;
  now_leak : Z;
}.

Definition _detect_trends `{FloatText} (clock : Clock) (a : t) (timestamp : Z)
    (system_metrics : gmap string Q) : list Anomaly.t * t :=
  let mem :=
    match system_metrics !! "memory_used" with
    | Some memory_used =>
        _trim_history (now_memory_trim clock)
          (memory_history a ++ [(timestamp, memory_used)])
          (memory_history_max_age a)
    | None => memory_history a
    end in
  let swp :=
    match system_metrics !! "swap_used" with
    | Some swap_used =>
        _trim_history (now_swap_trim clock)
          (swap_history a ++ [(timestamp, swap_used)])
          (swap_history_max_age a)
    | None => swap_history a
    end in
  let a' := set_histories a mem swp in
  (option_list (_detect_memory_leak (now_leak clock) a' timestamp)
     ++ option_list (_detect_swap_thrashing a' timestamp),
   a').

(** [analyze(timestamp, system_metrics)]: z-score anomalies in the order
    of [MONITORED_METRICS], then trend anomalies. *)
Definition analyze `{FloatText} (clock : Clock) (a : t) (timestamp : Z)
    (system_metrics : gmap string Q) : Py.result (list Anomaly.t * t) :=
  let context := Utils.get_time_context timestamp in
  anomalies ← zscore_anomalies a timestamp system_metrics context
                MONITORED_METRICS;
  let '(trend_anomalies, a') := _detect_trends clock a timestamp system_metrics in
  Py.Ok (anomalies ++ trend_anomalies, a').

End Analyzer.

(** ** [list.sort(key=..., reverse=True)] *)

(** Python's sort is stable, also with [reverse=True]: records with equal
    keys keep their order.  [insert_desc key x l] puts [x], which stood
    before every element of [l], in front of the first element whose key is
    not greater than its own. *)
Fixpoint insert_desc {A} (key : A -> Q) (x : A) (l : list A) : list A :=
  match l with
  | [] => [x]
  | y :: l' =>
      if Py.lt (key x) (key y) then y :: insert_desc key x l' else x :: l
  end.

Definition sort_desc {A} (key : A -> Q) (l : list A) : list A :=
  foldr (insert_desc key) [] l.

(** ** [src/root_cause.py] *)

Module RootCauseAnalyzer.

Definition nl : string := String "010"%char EmptyString.

Definition _reconstruct_timeline (db : Db.t) (timestamp : Z) (metric_name : string)
    : option (list TimelinePoint.t) :=
  if String.eqb metric_name "" then None
  else
    let start := timestamp - Utils.seconds 30 in
    let end_ := timestamp + Utils.seconds 30 in
    match Db.get_system_metrics db start end_ with
    | Py.Raise _ => None
    | Py.Ok [] => None
    | Py.Ok metrics =>
        Some (flat_map
                (fun m =>
                   match MetricRow.columns m !! metric_name with
                   | Some val =>
                       [{| TimelinePoint.timestamp := MetricRow.timestamp m;
                           TimelinePoint.value := val |}]
                   | None => []
                   end) metrics)
    end.

Definition choose_sort_key (anomaly_type : string) : SortKey :=
  if Py.contains "cpu" anomaly_type then KeyCpuPercent
  else if Py.contains "memory" anomaly_type then KeyMemoryRss
  else if Py.contains "io" anomaly_type || Py.contains "swap" anomaly_type
  then KeyMemoryRss
  else KeyCpuPercent.

(** [proc_map[p.get("pid")] = p] over a snapshot: a later record of the
    same pid replaces an earlier one. *)
Definition index_by_pid (processes : list Process.t) : gmap (option Z) Process.t :=
  foldl (fun m p => <[Py.get (Process.pid p) := p]> m) ∅ processes.

(** [rec.get(sort_key, 0) or 0]. *)
Definition value_of (sort_key : SortKey) (p : Process.t) : Q :=
  Py.or_zero (Py.get_default (sort_key_field sort_key p) 0%Q).

Definition contributor_display `{FloatText} (sort_key : SortKey)
    (name : option string) (pid : option Z) (current_val delta : Q)
    (is_new : bool) : string :=
  match sort_key with
  | KeyCpuPercent =>
      Py.str_opt name +:+ " (PID " +:+ Py.str_int pid +:+ "): " +:+
      fmt_fixed 1 current_val +:+ "% CPU" +:+
      (if is_new then " (new process)"
       else if Py.gt delta 1 then " (+" +:+ fmt_fixed 1 delta +:+ "%)"
       else "")
  | KeyMemoryRss =>
      Py.str_opt name +:+ " (PID " +:+ Py.str_int pid +:+ "): " +:+
      Utils.format_bytes (Some current_val) +:+ " memory" +:+
      (if is_new then " (new process)"
       else if Py.gt delta (1024 * 1024)
            then " (+" +:+ Utils.format_bytes (Some delta) +:+ ")"
       else "")
  end.

(** The body of the contribution loop for one process. *)
Definition contribution `{FloatText} (sort_key : SortKey)
    (prev_map : gmap (option Z) Process.t) (proc : Process.t) : Contributor.t :=
  let pid := Py.get (Process.pid proc) in
  let name := Py.get_default (Process.name proc) "unknown" in
  let current_val := value_of sort_key proc in
  let prev_val :=
    match prev_map !! pid with
    | Some prev_proc => value_of sort_key prev_proc
    | None => 0%Q
    end in
  let delta := (current_val - prev_val)%Q in
  let is_new := bool_decide (prev_map !! pid = None) in
  {| Contributor.pid := pid;
     Contributor.name := name;
     Contributor.current_value := current_val;
     Contributor.previous_value := prev_val;
     Contributor.delta := delta;
     Contributor.is_new_process := is_new;
     Contributor.metric := sort_key;
     Contributor.display :=
       contributor_display sort_key name pid current_val delta is_new |}.

Definition contributor_key (c : Contributor.t) : Q :=
  Qabs (Contributor.current_value c).

Definition _analyze_process_contributions `{FloatText} (db : Db.t)
    (anomaly_type : string) (timestamp : Z) (current_processes : list Process.t)
    : Py.result (list Contributor.t) :=
  let sort_key := choose_sort_key anomaly_type in
  let prev_timestamp := timestamp - Utils.seconds 30 in
  prev_processes ← Db.get_process_metrics_at db prev_timestamp;
  let prev_map := index_by_pid prev_processes in
  let contributors :=
    contribution sort_key prev_map <$> take 20 current_processes in
  Py.Ok (take 10 (sort_desc contributor_key contributors)).

Definition tree_node (current_pid : Z) (proc : Process.t) : TreeNode.t :=
  {| TreeNode.pid := current_pid;
     TreeNode.name := Py.get_default (Process.name proc) "unknown";
     TreeNode.cpu_percent := Py.get_default (Process.cpu_percent proc) 0%Q;
     TreeNode.memory_rss := Py.get_default (Process.memory_rss proc) 0%Q |}.

(** A pid is truthy when it is neither [None] nor 0. *)
Definition truthy_pid (pid : option Z) : bool :=
  match pid with
  | Some n => negb (n =? 0)
  | None => false
  end.

(** The [while] loop of [_build_process_tree], one iteration per unit of
    fuel.  The test that guards [break] is the source's:
    [current_pid == 0 or current_pid == current_pid]. *)
Fixpoint walk (fuel : nat) (proc_map : gmap (option Z) Process.t)
    (tree : list TreeNode.t) (visited : gset Z) (current_pid : option Z)
    : list TreeNode.t :=
  match fuel, current_pid with
  | S fuel', Some pid =>
      if truthy_pid current_pid && bool_decide (pid ∉ visited) then
        let visited := {[pid]} ∪ visited in
        match proc_map !! Some pid with
        | Some proc =>
            let tree := tree ++ [tree_node pid proc] in
            let current_pid := Py.get (Process.ppid proc) in
            if bool_decide (current_pid = Some 0)
               || bool_decide (current_pid = current_pid)
            then tree
            else walk fuel' proc_map tree visited current_pid
        | None => tree
        end
      else tree
  | _, _ => tree
  end.

(** Each iteration that does not leave the loop adds a pid of the index to
    [visited], so one more iteration than the index has entries is enough. *)
Definition _build_process_tree (target_pid : Z) (current_processes : list Process.t)
    : list TreeNode.t :=
  let proc_map := index_by_pid current_processes in
  rev (walk (S (length current_processes)) proc_map [] ∅ (Some target_pid)).

(** The collection loop of [_analyze_io]: processes whose read and write
    byte counters are both present. *)
Definition io_procs_of (current_processes : list Process.t) : list IoProc.t :=
  flat_map
    (fun p =>
       match Py.get (Process.io_read_bytes p), Py.get (Process.io_write_bytes p) with
       | Some read_bytes, Some write_bytes =>
           [{| IoProc.pid := Py.get (Process.pid p);
               IoProc.name := Py.get (Process.name p);
               IoProc.io_read_bytes := read_bytes;
               IoProc.io_write_bytes := write_bytes;
               IoProc.io_read_count := Py.get_default (Process.io_read_count p) 0%Q;
               IoProc.io_write_count := Py.get_default (Process.io_write_count p) 0%Q;
               IoProc.total_io :=
                 (Py.or_zero (Some read_bytes) + Py.or_zero (Some write_bytes))%Q |}]
       | _, _ => []
       end) current_processes.

Definition any_in (needles : list string) (name : string) : bool :=
  existsb (fun needle => Py.contains needle name) needles.

(** The classification of one of the top I/O processes; [None] when its
    read count is not positive.  [name.lower()] raises on a [None] name. *)
Definition classify_io (proc : IoProc.t) : Py.result (option Pattern.t) :=
  let read_count := Py.or_zero (IoProc.io_read_count proc) in
  let read_bytes := Py.or_zero (Some (IoProc.io_read_bytes proc)) in
  if Py.gt read_count 0 then
    let avg_read_size := (read_bytes / read_count)%Q in
    match IoProc.name proc with
    | None => Py.Raise "'NoneType' object has no attribute 'lower'"
    | Some raw_name =>
        let name := Py.lower raw_name in
        let '(classification, likely_issue) :=
          if Py.lt avg_read_size (32 * 1024) then
            ("small random reads (inefficient)",
             if any_in ["postgres"; "mysql"; "mongod"; "mariadb"] name
             then Some "Missing database index (table scan)"
             else if any_in ["chrome"; "firefox"; "edge"] name
             then Some "Browser cache thrashing"
             else Some "Fragmented I/O pattern")
          else if Py.gt avg_read_size (1024 * 1024) then
            ("large sequential reads (efficient)", None)
          else ("mixed I/O pattern", None) in
        Py.Ok (Some {| Pattern.pid := IoProc.pid proc;
                       Pattern.name := IoProc.name proc;
                       Pattern.avg_read_size := avg_read_size;
                       Pattern.classification := classification;
                       Pattern.likely_issue := likely_issue |})
    end
  else Py.Ok None.

Fixpoint classify_all (procs : list IoProc.t) : Py.result (list Pattern.t) :=
  match procs with
  | [] => Py.Ok []
  | proc :: rest =>
      pattern ← classify_io proc;
      patterns ← classify_all rest;
      Py.Ok (option_list pattern ++ patterns)
  end.

Definition _analyze_io (timestamp : Z) (current_processes : list Process.t)
    : Py.result (option IoAnalysis.t) :=
  match current_processes with
  | [] => Py.Ok None
  | _ =>
      let io_procs := sort_desc IoProc.total_io (io_procs_of current_processes) in
      patterns ← classify_all (take 5 io_procs);
      Py.Ok (Some {| IoAnalysis.top_io_processes := take 10 io_procs;
                     IoAnalysis.patterns := patterns |})
  end.

Definition starts_from {A} (start : Z) (l : list A) : list (Z * A) :=
  imap (fun i x => (start + Z.of_nat i, x)) l.

Definition top3_total (contributors : list Contributor.t) : Q :=
  foldl Qplus 0%Q (Contributor.current_value <$> take 3 contributors).

Definition _generate_summary `{FloatText} (anomaly : Anomaly.t)
    (root_cause : RootCause.t) : string :=
  let anomaly_type := Anomaly.anomaly_type anomaly in
  let head :=
    ["[" +:+ Py.upper (severity_name (Anomaly.severity anomaly)) +:+ "] " +:+
     Anomaly.description anomaly] in
  let contributors := RootCause.top_contributors root_cause in
  let contributor_parts :=
    match contributors with
    | [] => []
    | _ =>
        [nl +:+ "Top contributors:"] ++
        ((fun ic : Z * Contributor.t =>
            "  " +:+ pretty (fst ic) +:+ ". " +:+ Contributor.display (snd ic))
           <$> starts_from 1 (take 5 contributors)) ++
        (if Py.contains "cpu" anomaly_type then
           [nl +:+ "  Top 3 processes account for " +:+
            fmt_fixed 1 (top3_total contributors) +:+ "% CPU"]
         else if Py.contains "memory" anomaly_type then
           [nl +:+ "  Top 3 processes use " +:+
            Utils.format_bytes (Some (top3_total contributors)) +:+ " memory"]
         else [])
    end in
  let tree_parts :=
    match RootCause.process_tree root_cause with
    | Some tree =>
        if (1 <? length tree)%nat then
          [nl +:+ "Process chain: " +:+
           Py.join " → "
             ((fun n => Py.str_opt (TreeNode.name n) +:+ "(" +:+
                        pretty (TreeNode.pid n) +:+ ")") <$> tree)]
        else []
    | None => []
    end in
  let io_parts :=
    match RootCause.io_analysis root_cause with
    | Some io_info =>
        flat_map
          (fun p =>
             match Pattern.likely_issue p with
             | Some issue =>
                 if String.eqb issue "" then []
                 else [nl +:+ "I/O issue: " +:+ Py.str_opt (Pattern.name p) +:+
                       " - " +:+ issue +:+ " (" +:+ Pattern.classification p +:+ ")"]
             | None => []
             end) (IoAnalysis.patterns io_info)
    | None => []
    end in
  Py.join nl (head ++ contributor_parts ++ tree_parts ++ io_parts).

Definition with_timeline (rc : RootCause.t) (v : option (list TimelinePoint.t)) :=
  {| RootCause.timeline := v;
     RootCause.top_contributors := RootCause.top_contributors rc;
     RootCause.process_tree := RootCause.process_tree rc;
     RootCause.io_analysis := RootCause.io_analysis rc;
     RootCause.summary := RootCause.summary rc |}.

Definition with_top_contributors (rc : RootCause.t) (v : list Contributor.t) :=
  {| RootCause.timeline := RootCause.timeline rc;
     RootCause.top_contributors := v;
     RootCause.process_tree := RootCause.process_tree rc;
     RootCause.io_analysis := RootCause.io_analysis rc;
     RootCause.summary := RootCause.summary rc |}.

Definition with_process_tree (rc : RootCause.t) (v : option (list TreeNode.t)) :=
  {| RootCause.timeline := RootCause.timeline rc;
     RootCause.top_contributors := RootCause.top_contributors rc;
     RootCause.process_tree := v;
     RootCause.io_analysis := RootCause.io_analysis rc;
     RootCause.summary := RootCause.summary rc |}.

Definition with_io_analysis (rc : RootCause.t) (v : option IoAnalysis.t) :=
  {| RootCause.timeline := RootCause.timeline rc;
     RootCause.top_contributors := RootCause.top_contributors rc;
     RootCause.process_tree := RootCause.process_tree rc;
     RootCause.io_analysis := v;
     RootCause.summary := RootCause.summary rc |}.

Definition with_summary (rc : RootCause.t) (v : string) :=
  {| RootCause.timeline := RootCause.timeline rc;
     RootCause.top_contributors := RootCause.top_contributors rc;
     RootCause.process_tree := RootCause.process_tree rc;
     RootCause.io_analysis := RootCause.io_analysis rc;
     RootCause.summary := v |}.

(** The [root_cause] dict [analyze] starts from. *)
Definition empty_root_cause : RootCause.t :=
  {| RootCause.timeline := None;
     RootCause.top_contributors := [];
     RootCause.process_tree := None;
     RootCause.io_analysis := None;
     RootCause.summary := "" |}.

(** Steps 2 and 3 of [analyze]: the dict as it stands when the steps end,
    and the exception that ended them, if any. *)
Definition contribution_steps `{FloatText} (db : Db.t) (anomaly : Anomaly.t)
    (current_processes : list Process.t) (root_cause : RootCause.t)
    : RootCause.t * option string :=
  match current_processes with
  | [] => (root_cause, None)
  | _ =>
      match _analyze_process_contributions db (Anomaly.anomaly_type anomaly)
              (Anomaly.timestamp anomaly) current_processes with
      | Py.Raise e => (root_cause, Some e)
      | Py.Ok contributors =>
          let root_cause := with_top_contributors root_cause contributors in
          match contributors with
          | top :: _ =>
              match Contributor.pid top with
              | Some top_pid =>
                  if truthy_pid (Some top_pid) then
                    (with_process_tree root_cause
                       (Some (_build_process_tree top_pid current_processes)),
                     None)
                  else (root_cause, None)
              | None => (root_cause, None)
              end
          | [] => (root_cause, None)
          end
      end
  end.

(** The body of the [try] block of [analyze]. *)
Definition try_body `{FloatText} (db : Db.t) (anomaly : Anomaly.t)
    (current_processes : list Process.t) (root_cause : RootCause.t)
    : RootCause.t * option string :=
  let anomaly_type := Anomaly.anomaly_type anomaly in
  let timestamp := Anomaly.timestamp anomaly in
  let root_cause :=
    with_timeline root_cause
      (_reconstruct_timeline db timestamp (Anomaly.metric_name anomaly)) in
  match contribution_steps db anomaly current_processes root_cause with
  | (root_cause, Some e) => (root_cause, Some e)
  | (root_cause, None) =>
      let io_step :=
        if String.eqb anomaly_type "io_bottleneck"
           || String.eqb anomaly_type "swap_thrashing"
        then _analyze_io timestamp current_processes
        else Py.Ok (RootCause.io_analysis root_cause) in
      match io_step with
      | Py.Raise e => (root_cause, Some e)
      | Py.Ok io =>
          let root_cause := with_io_analysis root_cause io in
          (with_summary root_cause (_generate_summary anomaly root_cause), None)
      end
  end.

Definition with_root_cause (anomaly : Anomaly.t) (rc : RootCause.t) : Anomaly.t :=
  {| Anomaly.timestamp := Anomaly.timestamp anomaly;
     Anomaly.anomaly_type := Anomaly.anomaly_type anomaly;
     Anomaly.severity := Anomaly.severity anomaly;
     Anomaly.metric_name := Anomaly.metric_name anomaly;
     Anomaly.metric_value := Anomaly.metric_value anomaly;
     Anomaly.baseline_mean := Anomaly.baseline_mean anomaly;
     Anomaly.baseline_stddev := Anomaly.baseline_stddev anomaly;
     Anomaly.z_score := Anomaly.z_score anomaly;
     Anomaly.description := Anomaly.description anomaly;
     Anomaly.root_cause := Some rc |}.

(** [analyze(anomaly, current_processes)]; a [None] snapshot behaves as the
    empty one.  [except Exception] keeps the dict as the failing step left
    it and overwrites its summary. *)
Definition analyze `{FloatText} (db : Db.t) (anomaly : Anomaly.t)
    (current_processes : list Process.t) : Anomaly.t :=
  let '(root_cause, exc) :=
    try_body db anomaly current_processes empty_root_cause in
  let root_cause :=
    match exc with
    | Some e => with_summary root_cause ("Root cause analysis failed: " +:+ e)
    | None => root_cause
    end in
  with_root_cause anomaly root_cause.

End RootCauseAnalyzer.

(** ** Instances used by the examples *)

(** [f"{x:.Nf}"] on an exact rational: the value is scaled by [10^N], rounded
    to the nearest integer (ties to even) and printed with [N] decimals. *)
Module Decimal.

Definition round_half_even (q : Q) : Z :=
  let n := Qnum q in
  let d := Z.pos (Qden q) in
  let f := n / d in
  let r2 := 2 * (n mod d) in
  if r2 <? d then f
  else if d <? r2 then f + 1
  else if Z.even f then f else f + 1.

Fixpoint pad_left (width : nat) (s : string) : string :=
  if (String.length s <? width)%nat
  then match width with
       | O => s
       | S w => "0" +:+ pad_left w s
       end
  else s.

Definition fixed (decimals : nat) (q : Q) : string :=
  let scale := 10 ^ Z.of_nat decimals in
  let r := round_half_even (Qabs q * inject_Z scale)%Q in
  (if Py.lt q 0 then "-" else "") +:+ pretty (r / scale) +:+
  match decimals with
  | O => ""
  | _ => "." +:+ pad_left decimals (pretty (r mod scale))
  end.

End Decimal.

Definition decimal_text : FloatText := {| fmt_fixed := Decimal.fixed |}.

(** A square root on the rationals, exact to six decimals from below. *)
Definition sqrt_6_decimals : Numpy :=
  {| np_sqrt := fun q =>
       (inject_Z (Z.sqrt (Qnum q * 10 ^ 12 / Z.pos (Qden q))) / inject_Z (10 ^ 6))%Q |}.

(** ** Vocabulary of the statements *)

(** The configured cutoffs, with the defaults of [_classify_severity]. *)
Definition low_cutoff (a : Analyzer.t) : Q :=
  default 1.5%Q (Analyzer.severity_levels a !! "low").
Definition medium_cutoff (a : Analyzer.t) : Q :=
  default 2.0%Q (Analyzer.severity_levels a !! "medium").
Definition high_cutoff (a : Analyzer.t) : Q :=
  default 2.5%Q (Analyzer.severity_levels a !! "high").
Definition critical_cutoff (a : Analyzer.t) : Q :=
  default 3.0%Q (Analyzer.severity_levels a !! "critical").

(** The cutoff of a tier; [Normal] has none. *)
Definition cutoff (a : Analyzer.t) (s : Severity) : option Q :=
  match s with
  | Normal => None
  | Low => Some (low_cutoff a)
  | Medium => Some (medium_cutoff a)
  | High => Some (high_cutoff a)
  | Critical => Some (critical_cutoff a)
  end.

(** The order of the tiers: normal < low < medium < high < critical. *)
Definition rank (s : Severity) : nat :=
  match s with
  | Normal => 0
  | Low => 1
  | Medium => 2
  | High => 3
  | Critical => 4
  end.

(** Tier [s] is reached by [x]: its cutoff is at most [x]. *)
Definition reached (a : Analyzer.t) (x : Q) (s : Severity) : Prop :=
  match cutoff a s with
  | Some c => (c <= x)%Q
  | None => False
  end.

(** [s] is the highest tier [x] reaches, or [Normal] when it reaches none. *)
Definition highest_tier (a : Analyzer.t) (x : Q) (s : Severity) : Prop :=
  (s <> Normal -> reached a x s) /\
  (forall s', reached a x s' -> (rank s' <= rank s)%nat).

(** The cutoffs are ordered as the data model requires. *)
Definition ordered_cutoffs (a : Analyzer.t) : Prop :=
  (low_cutoff a < medium_cutoff a)%Q /\
  (medium_cutoff a < high_cutoff a)%Q /\
  (high_cutoff a < critical_cutoff a)%Q.

(** The anomaly [_check_zscore] builds for a severity that is reported. *)
Definition zscore_anomaly (a : Analyzer.t) (timestamp : Z) (metric_name : string)
    (value : Q) (baseline : Baseline.t) (context : string) (an : Anomaly.t) : Prop :=
  let mean := Baseline.mean baseline in
  let std_dev := Baseline.std_dev baseline in
  let z := ((value - mean) / std_dev)%Q in
  Anomaly.z_score an = z /\
  Anomaly.severity an = Analyzer._classify_severity a (Qabs z) /\
  Anomaly.timestamp an = timestamp /\
  Anomaly.metric_name an = metric_name /\
  Anomaly.metric_value an = value /\
  Anomaly.baseline_mean an = mean /\
  Anomaly.baseline_stddev an = std_dev /\
  Anomaly.anomaly_type an = Analyzer._get_anomaly_type metric_name z /\
  Anomaly.root_cause an = None.

(** What one refresh writes for a (metric, context) pair: the statistics of
    its history, when the history query succeeds with at least 10 values and
    the database accepts the write. *)
Definition refreshed `{Numpy} (db : Db.t) (days : Z) (metric context : string)
    : option Baseline.t :=
  match Db.get_metric_values_for_context db metric context days with
  | Py.Ok values =>
      if Z.of_nat (length values) <? 10 then None
      else
        match Db.update_baseline db metric context (Analyzer.compute_stats values) with
        | Py.Ok _ => Some (Analyzer.compute_stats values)
        | Py.Raise _ => None
        end
  | Py.Raise _ => None
  end.

(** Every cached baseline has a [std_dev] of at least 0.01. *)
Definition floor_ok (cache : gmap (string * string) Baseline.t) : Prop :=
  forall key b, cache !! key = Some b -> (0.01 <= Baseline.std_dev b)%Q.

(** Every row of the table has a [std_dev] of at least 0.01. *)
Definition floored_table (t : Storage.table) : Prop :=
  Forall (fun row => (0.01 <= BaselineRow.std_dev row)%Q) t.

(** The states the program reaches, as the table and the analyzer that
    works on it.  The table starts as [_create_tables] makes it; an analyzer
    is built over the table as it stands (at the first start and at every
    restart); a refresh writes the table through [update_baseline] and the
    cache; a sample leaves the table alone.  History, clock, configuration
    and the failures of the database are arbitrary. *)
Inductive runs `{Numpy} `{FloatText} : Storage.table -> Analyzer.t -> Prop :=
| run_start (config : Analyzer.Config) (queries : Db.t) :
    runs Storage.created
         (Analyzer.init config (Storage.connect Storage.created queries))
| run_restart (t : Storage.table) (a : Analyzer.t)
    (config : Analyzer.Config) (queries : Db.t) :
    runs t a -> runs t (Analyzer.init config (Storage.connect t queries))
| run_refresh (t : Storage.table) (a : Analyzer.t) (now : Z) (force : bool)
    (queries : Db.t) (kept : string -> string -> bool) :
    runs t a ->
    runs (Analyzer.table_after_update now force queries kept a t)
         (Analyzer.update_baselines now force (Storage.connect t queries) a)
| run_analyze (t : Storage.table) (a : Analyzer.t) (clock : Analyzer.Clock)
    (timestamp : Z) (system_metrics : gmap string Q)
    (out : list Anomaly.t) (a' : Analyzer.t) :
    runs t a ->
    Analyzer.analyze clock a timestamp system_metrics = Py.Ok (out, a') ->
    runs t a'.

(** A refresh is due when it is forced, or is the first, or comes at least
    one update interval after the last one. *)
Definition refresh_due (now : Z) (force : bool) (a : Analyzer.t) : Prop :=
  force = true \/
  match Analyzer.last_baseline_update a with
  | Some last => Analyzer.baseline_update_interval a <= now - last
  | None => True
  end.



(** The bucket an entry of age [now - ts] falls in, when it falls in one:
    bucket 11 holds the last ten minutes, bucket 0 everything that is 110
    minutes old or older. *)
Definition bucket_of (now ts : Z) : option nat :=
  let idx :=
    Analyzer.bucket_count - 1
    - Z.min (Analyzer.bucket_count - 1) (Z.quot (now - ts) Analyzer.bucket_duration) in
  if (0 <=? idx) && (idx <? Analyzer.bucket_count) then Some (Z.to_nat idx) else None.



(** The adjacent pairs of a list, each as (earlier, later). *)
Definition consecutive {A} (l : list A) : list (A * A) := zip l (tail l).

(** [x] is greater than [y]. *)
Definition exceeds (x y : Q) : bool := negb (Qle_bool x y).


(** The share of consecutive swap samples whose absolute difference is more
    than 100 MB. *)
Definition swap_change_fraction (history : list (Z * Q)) : Q :=
  (inject_Z (Z.of_nat (length (List.filter
                                 (fun pair : Q * Q =>
                                    exceeds (Qabs (pair.2 - pair.1))
                                            (100 * 1024 * 1024))
                                 (consecutive (snd <$> history)))))
   / inject_Z (Z.of_nat (length history) - 1))%Q.

(** [x] may stand before [y] in a list ranked by [key], largest first. *)
Definition ranked_before {A} (key : A -> Q) (x y : A) : Prop :=
  (key y <= key x)%Q.

(** The record a snapshot holds for a pid: the last one listed with it. *)
Definition held_by (snapshot : list Process.t) (pid : option Z) : option Process.t :=
  last (filter (fun q => Py.get (Process.pid q) = pid) snapshot).

(** [c] is the contribution record of process [p] against the earlier
    snapshot [prev], for the sort key [key]. *)
Definition ranks_process (key : SortKey) (prev : list Process.t)
    (p : Process.t) (c : Contributor.t) : Prop :=
  let pid := Py.get (Process.pid p) in
  Contributor.pid c = pid /\
  Contributor.metric c = key /\
  Contributor.current_value c = RootCauseAnalyzer.value_of key p /\
  Contributor.previous_value c =
    from_option (RootCauseAnalyzer.value_of key) 0%Q (held_by prev pid) /\
  Contributor.delta c =
    (Contributor.current_value c - Contributor.previous_value c)%Q /\
  (Contributor.is_new_process c = true <->
   Forall (fun q => Py.get (Process.pid q) <> pid) prev) /\
  (Contributor.is_new_process c = true -> Contributor.previous_value c = 0%Q).

(** The reading of the sort-key field of a process record: the number the
    field holds, and 0 when the field is missing or [None]. *)
Definition sort_key_reading (key : SortKey) (p : Process.t) : Q :=
  match sort_key_field key p with
  | Py.Val v => v
  | _ => 0%Q
  end.

(** [|current_value|], the magnitude the records are ranked by. *)
Definition magnitude (c : Contributor.t) : Q := Qabs (Contributor.current_value c).

(** [c] is the record the ranking makes of process [p]: the reading of [p]
    as the current value, the reading of the record the earlier snapshot
    [prev] holds for the same pid as the previous value (0, and the process
    flagged new, exactly when it holds none), their difference as delta. *)
Definition ranking_record (key : SortKey) (prev : list Process.t)
    (p : Process.t) (c : Contributor.t) : Prop :=
  let pid := Py.get (Process.pid p) in
  Contributor.pid c = pid /\
  Contributor.metric c = key /\
  (Contributor.current_value c == sort_key_reading key p)%Q /\
  (Contributor.previous_value c ==
     from_option (sort_key_reading key) 0 (held_by prev pid))%Q /\
  Contributor.delta c =
    (Contributor.current_value c - Contributor.previous_value c)%Q /\
  (Contributor.is_new_process c = true <->
   Forall (fun q => Py.get (Process.pid q) <> pid) prev) /\
  (Contributor.is_new_process c = true -> Contributor.previous_value c = 0%Q).

(** The ancestor chain as the specification words it: from [pid], follow
    the [ppid] links through the pid index, a node per process met; stop at
    a pid that is 0, absent from the index or met before. *)
Fixpoint chain_by_spec (fuel : nat) (proc_map : gmap (option Z) Process.t)
    (visited : gset Z) (pid : option Z) : list TreeNode.t :=
  match fuel, pid with
  | S fuel', Some n =>
      if RootCauseAnalyzer.truthy_pid pid && bool_decide (n ∉ visited) then
        match proc_map !! Some n with
        | Some proc =>
            RootCauseAnalyzer.tree_node n proc
            :: chain_by_spec fuel' proc_map ({[n]} ∪ visited)
                 (Py.get (Process.ppid proc))
        | None => []
        end
      else []
  | _, _ => []
  end.

(** The chain, root first. *)
Definition process_tree_by_spec (target_pid : Z) (current_processes : list Process.t)
    : list TreeNode.t :=
  rev (chain_by_spec (S (length current_processes))
         (RootCauseAnalyzer.index_by_pid current_processes) ∅ (Some target_pid)).

(** The exception, if any, that ends the [try] block of [analyze]. *)
Definition explain_failure `{FloatText} (db : Db.t) (anomaly : Anomaly.t)
    (current_processes : list Process.t) : option string :=
  (RootCauseAnalyzer.try_body db anomaly current_processes
     RootCauseAnalyzer.empty_root_cause).2.


(** ** Data of the examples *)

Module Example.

Definition default_config : Analyzer.Config :=
  {| Analyzer.cfg_baseline_history_days := None;
     Analyzer.cfg_anomaly_severity_levels := None |}.

(** A database with no rows whose queries all succeed. *)
Definition empty_db : Db.t :=
  {| Db.get_all_baselines := Py.Ok [];
     Db.get_metric_values_for_context := fun _ _ _ => Py.Ok [];
     Db.update_baseline := fun _ _ _ => Py.Ok ();
     Db.get_system_metrics := fun _ _ => Py.Ok [];
     Db.get_process_metrics_at := fun _ => Py.Ok [] |}.

Definition fresh_analyzer : Analyzer.t := Analyzer.init default_config empty_db.

(** Monday 1970-01-05, 09:00: a weekday morning. *)
Definition monday_9am : Z := 4 * Utils.us_per_day + Utils.hours 9.

(** A clock that reads the same time throughout a call. *)
Definition clock_at (now : Z) : Analyzer.Clock :=
  {| Analyzer.now_memory_trim := now;
     Analyzer.now_swap_trim := now;
     Analyzer.now_leak := now |}.

(** The baseline of the specification's example: mean 50, std_dev 10. *)
Definition cpu_baseline : Baseline.t :=
  {| Baseline.mean := 50;
     Baseline.std_dev := 10;
     Baseline.min := 20;
     Baseline.max := 90;
     Baseline.count := 100 |}.

(** A database whose only history is [values], recorded for cpu_percent on
    weekday mornings, and whose [baselines] table holds [rows]. *)
Definition cpu_morning_db (rows : list BaselineRow.t) (values : list Q) : Db.t :=
  {| Db.get_all_baselines := Py.Ok rows;
     Db.get_metric_values_for_context := fun metric context _ =>
       if String.eqb metric "cpu_percent" && String.eqb context "weekday_morning"
       then Py.Ok values else Py.Ok [];
     Db.update_baseline := fun _ _ _ => Py.Ok ();
     Db.get_system_metrics := fun _ _ => Py.Ok [];
     Db.get_process_metrics_at := fun _ => Py.Ok [] |}.

Definition cpu_morning_row (std_dev : Q) : BaselineRow.t :=
  {| BaselineRow.metric_name := "cpu_percent";
     BaselineRow.context := "weekday_morning";
     BaselineRow.mean_value := 50;
     BaselineRow.std_dev := std_dev;
     BaselineRow.min_value := 20;
     BaselineRow.max_value := 90;
     BaselineRow.sample_count := 100 |}.

(** A learned baseline, and nine fresh samples: too few for a refresh. *)
Definition short_history_db : Db.t :=
  cpu_morning_db [cpu_morning_row 10] (replicate 9 40%Q).

(** Ten samples around 50, and later ten samples around 80. *)
Definition old_history_db : Db.t :=
  cpu_morning_db [] [48; 52; 49; 51; 50; 50; 47; 53; 50; 50]%Q.

(** The analyzer after a forced refresh at time 0 over the old history. *)
Definition learned_analyzer : Analyzer.t :=
  Analyzer.update_baselines (H := sqrt_6_decimals) 0 true old_history_db
    fresh_analyzer.

(** A [baselines] table with a row whose [std_dev] is 0. *)
Definition zero_std_dev_db : Db.t := cpu_morning_db [cpu_morning_row 0] [].

(** Sixty memory samples over two hours, five per ten-minute slice, that
    start at 1000 MB and gain [step_mb] MB from one slice to the next; the
    clock reads [Utils.hours 2] when the detector runs. *)
Definition memory_series (step_mb : Z) : list (Z * Q) :=
  flat_map
    (fun i =>
       (fun j =>
          (Utils.hours 2 - Utils.seconds ((11 - i) * 600 + j * 100),
           inject_Z ((1000 + step_mb * i) * 1048576)))
       <$> [4; 3; 2; 1; 0])
    [0; 1; 2; 3; 4; 5; 6; 7; 8; 9; 10; 11].

(** Twenty swap samples, one a minute, that alternate between [low_mb] and
    [high_mb] MB. *)
Definition swap_series (low_mb high_mb : Z) : list (Z * Q) :=
  (fun i =>
     (Utils.minutes i,
      inject_Z ((if Z.even i then low_mb else high_mb) * 1048576)))
  <$> [0; 1; 2; 3; 4; 5; 6; 7; 8; 9; 10; 11; 12; 13; 14; 15; 16; 17; 18; 19].

Definition with_buffers (mem swp : list (Z * Q)) : Analyzer.t :=
  Analyzer.set_histories fresh_analyzer mem swp.

Definition process (pid : Z) (name : string) (cpu : Py.field Q) (rss : Q) (ppid : Z)
    : Process.t :=
  {| Process.pid := Py.Val pid;
     Process.name := Py.Val name;
     Process.cpu_percent := cpu;
     Process.memory_rss := Py.Val rss;
     Process.ppid := Py.Val ppid;
     Process.io_read_bytes := Py.Null;
     Process.io_write_bytes := Py.Null;
     Process.io_read_count := Py.Null;
     Process.io_write_count := Py.Null |}.

(** A snapshot: systemd (1) -> bash (100) -> python (200), and a process
    whose CPU reading is [None]. *)
Definition systemd : Process.t := process 1 "systemd" (Py.Val 0.5%Q) 10485760 0.
Definition bash : Process.t := process 100 "bash" (Py.Val 1%Q) 5242880 1.
Definition python : Process.t := process 200 "python" (Py.Val 95%Q) 524288000 100.
Definition denied : Process.t := process 300 "kworker" Py.Null 0 1.

Definition snapshot : list Process.t := [python; bash; systemd; denied].

(** The snapshot of 30 seconds earlier: python (200) had not started. *)
Definition earlier_snapshot : list Process.t :=
  [process 100 "bash" (Py.Val 0.25%Q) 5242880 1; systemd].

Definition cpu_row (stamp : string) (cpu : Q) : MetricRow.t :=
  {| MetricRow.timestamp := Some stamp;
     MetricRow.columns := <["cpu_percent" := cpu]> ∅ |}.

(** A database that answers both history queries. *)
Definition history_db : Db.t :=
  {| Db.get_all_baselines := Py.Ok [];
     Db.get_metric_values_for_context := fun _ _ _ => Py.Ok [];
     Db.update_baseline := fun _ _ _ => Py.Ok ();
     Db.get_system_metrics := fun _ _ =>
       Py.Ok [cpu_row "2026-02-10 09:00:00" 40; cpu_row "2026-02-10 09:00:05" 97];
     Db.get_process_metrics_at := fun _ => Py.Ok earlier_snapshot |}.


(** A critical CPU spike, as [_check_zscore] reports it. *)
Definition cpu_spike : Anomaly.t :=
  {| Anomaly.timestamp := 0;
     Anomaly.anomaly_type := "cpu_spike";
     Anomaly.severity := Critical;
     Anomaly.metric_name := "cpu_percent";
     Anomaly.metric_value := 97;
     Anomaly.baseline_mean := 50;
     Anomaly.baseline_stddev := 10;
     Anomaly.z_score := 4.7;
     Anomaly.description := "Cpu Percent at 97.0% is 4.7 std devs above normal";
     Anomaly.root_cause := None |}.

(** A swap-thrashing anomaly, and a process with I/O counters whose name
    could not be read. *)
Definition swap_alarm : Anomaly.t :=
  {| Anomaly.timestamp := 0;
     Anomaly.anomaly_type := "swap_thrashing";
     Anomaly.severity := Critical;
     Anomaly.metric_name := "swap_used";
     Anomaly.metric_value := 2147483648;
     Anomaly.baseline_mean := 0;
     Anomaly.baseline_stddev := 0;
     Anomaly.z_score := 0;
     Anomaly.description := "Swap thrashing detected";
     Anomaly.root_cause := None |}.

Definition nameless_reader : Process.t :=
  {| Process.pid := Py.Val 400;
     Process.name := Py.Null;
     Process.cpu_percent := Py.Val 3%Q;
     Process.memory_rss := Py.Val 1048576%Q;
     Process.ppid := Py.Val 1;
     Process.io_read_bytes := Py.Val 4096%Q;
     Process.io_write_bytes := Py.Val 0%Q;
     Process.io_read_count := Py.Val 4%Q;
     Process.io_write_count := Py.Val 0%Q |}.

End Example.

(** The keys of a pid index that a walk has not met yet. *)
Definition unvisited (proc_map : gmap (option Z) Process.t) (visited : gset Z)
    : gset (option Z) :=
  dom proc_map ∖ set_map Some visited.

(** ** Vocabulary of the further properties *)

(** The anomaly types of a monitored metric: above and below its baseline. *)
Definition direction_types : list (string * (string * string)) :=
  [("cpu_percent", ("cpu_spike", "cpu_drop"));
   ("memory_percent", ("memory_pressure", "memory_drop"));
   ("swap_percent", ("swap_pressure", "swap_drop"))].

(** The entries of a buffer are in the order of their timestamps. *)
Definition chronological (history : list (Z * Q)) : Prop :=
  StronglySorted (fun e1 e2 : Z * Q => e1.1 <= e2.1) history.

(** A buffer after one call is what remains of [before], with the new
    sample appended, once entries have been popped from its front. *)
Definition fed_and_trimmed (before after : list (Z * Q)) (sample : Z * Q) : Prop :=
  after `suffix_of` (before ++ [sample]).

(** Further data for the examples. *)
Module Cases.

(** Three memory samples, an hour apart. *)
Definition hourly_buffer : list (Z * Q) :=
  [(0, 100%Q); (Utils.hours 1, 200%Q); (Utils.hours 2, 300%Q)].

(** The ten CPU samples of [Example.old_history_db]. *)
Definition old_values : list Q := [48; 52; 49; 51; 50; 50; 47; 53; 50; 50]%Q.

(** An analyzer that starts with the baseline of mean 50 and std_dev 10 for
    cpu_percent on weekday mornings. *)
Definition seeded_analyzer : Analyzer.t :=
  Analyzer.init Example.default_config Example.short_history_db.

(** Sixty memory samples, one every 40 seconds, the last at two hours: a
    buffer that spans 40 minutes and grows by 100 MB per sample. *)
Definition recent_memory : list (Z * Q) :=
  (fun i => (Utils.hours 2 - Utils.seconds ((59 - i) * 40),
             inject_Z ((1000 + 100 * i) * 1048576)))
  <$> seqZ 0 60.

(** A database server that reads in small pieces, and a backup that reads
    in large ones. *)
Definition reader (pid : Z) (name : string) (read_bytes read_count : Q)
    : Process.t :=
  {| Process.pid := Py.Val pid;
     Process.name := Py.Val name;
     Process.cpu_percent := Py.Val 1%Q;
     Process.memory_rss := Py.Val 1048576%Q;
     Process.ppid := Py.Val 1;
     Process.io_read_bytes := Py.Val read_bytes;
     Process.io_write_bytes := Py.Val 0%Q;
     Process.io_read_count := Py.Val read_count;
     Process.io_write_count := Py.Val 0%Q |}.

Definition io_snapshot : list Process.t :=
  [reader 500 "postgres" 40960 10; Example.python; reader 501 "rsync" 10485760 2].

(** Ten CPU samples of 50 on weekday mornings; the table after a forced
    refresh over them on a new database, every write kept; and an analyzer
    started over that table. *)
Definition constant_db : Db.t := Example.cpu_morning_db [] (replicate 10 50%Q).

Definition constant_table : Storage.table :=
  Analyzer.table_after_update (H := sqrt_6_decimals) 0 true constant_db
    (fun _ _ => true)
    (Analyzer.init Example.default_config
       (Storage.connect Storage.created constant_db))
    Storage.created.

Definition restarted : Analyzer.t :=
  Analyzer.init Example.default_config
    (Storage.connect constant_table Example.empty_db).

(** A sample taken on a Monday morning with the CPU at 85%. *)
Definition busy_sample : gmap string Q := <["cpu_percent" := 85%Q]> ∅.

End Cases.

(** One of [metrics] has a value in the sample and, for the context of
    [timestamp], a cached baseline whose [std_dev] is zero. *)
Definition zero_std_dev_met (a : Analyzer.t) (timestamp : Z)
    (system_metrics : gmap string Q) (metrics : list string) : Prop :=
  exists metric value baseline,
    metric ∈ metrics /\
    system_metrics !! metric = Some value /\
    Analyzer.get_baseline a metric (Utils.get_time_context timestamp) = Some baseline /\
    (Baseline.std_dev baseline == 0)%Q.

(** The baseline a row of the [baselines] table stands for. *)
Definition row_baseline (b : BaselineRow.t) : Baseline.t :=
  {| Baseline.mean := BaselineRow.mean_value b;
     Baseline.std_dev := BaselineRow.std_dev b;
     Baseline.min := BaselineRow.min_value b;
     Baseline.max := BaselineRow.max_value b;
     Baseline.count := BaselineRow.sample_count b |}.

(** The row a table holds for a (metric, context) pair: the last one listed
    with it. *)
Definition row_for (rows : list BaselineRow.t) (metric context : string)
    : option BaselineRow.t :=
  last (filter (fun b => (BaselineRow.metric_name b, BaselineRow.context b)
                         = (metric, context)) rows).

(** The [baselines] table of a database has no row below the floor. *)
Definition floored_rows (db : Db.t) : Prop :=
  match Db.get_all_baselines db with
  | Py.Ok rows => Forall (fun row => (0.01 <= BaselineRow.std_dev row)%Q) rows
  | Py.Raise _ => True
  end.

(** Every swap sample lies between [lo] and [lo] plus 100 MB. *)
Definition within_band (lo : Q) (history : list (Z * Q)) : Prop :=
  Forall (fun e : Z * Q => (lo <= e.2 /\ e.2 <= lo + Analyzer.swap_threshold)%Q)
         history.

(** Every entry of the buffer is less than [age] old at the time [now]. *)
Definition younger_than (now age : Z) (history : list (Z * Q)) : Prop :=
  Forall (fun e : Z * Q => now - e.1 < age) history.

(** What the analyzer reports: a z-score anomaly of a monitored metric,
    typed by the direction of its z-score, or one of the two trends. *)
Definition detector_report (an : Anomaly.t) : Prop :=
  (Anomaly.metric_name an ∈ Analyzer.MONITORED_METRICS /\
   Anomaly.anomaly_type an =
     Analyzer._get_anomaly_type (Anomaly.metric_name an) (Anomaly.z_score an))
  \/ (Anomaly.metric_name an = "memory_used" /\
      Anomaly.anomaly_type an = "memory_leak")
  \/ (Anomaly.metric_name an = "swap_used" /\
      Anomaly.anomaly_type an = "swap_thrashing").

(** A process whose read and write byte counters are both present. *)
Definition has_io_counters (proc : Process.t) : Prop :=
  is_Some (Py.get (Process.io_read_bytes proc)) /\
  is_Some (Py.get (Process.io_write_bytes proc)).

#[local] Instance has_io_counters_dec (proc : Process.t) :
  Decision (has_io_counters proc) :=
  and_dec (is_Some_dec _) (is_Some_dec _).

(** [p] is the I/O record of the process [proc]: its counters, and their
    sum as the total. *)
Definition io_record (proc : Process.t) (p : IoProc.t) : Prop :=
  Py.get (Process.io_read_bytes proc) = Some (IoProc.io_read_bytes p) /\
  Py.get (Process.io_write_bytes proc) = Some (IoProc.io_write_bytes p) /\
  IoProc.pid p = Py.get (Process.pid proc) /\
  IoProc.name p = Py.get (Process.name proc) /\
  (IoProc.total_io p == IoProc.io_read_bytes p + IoProc.io_write_bytes p)%Q.

(** A record that has read something and whose name is [None]. *)
Definition unreadable_name (p : IoProc.t) : Prop :=
  (0 < Py.or_zero (IoProc.io_read_count p))%Q /\ IoProc.name p = None.

(** A pattern names an issue exactly when its reads average less than
    32 KB, and the issue it names is not the empty text. *)
Definition flags_small_reads (pat : Pattern.t) : Prop :=
  (is_Some (Pattern.likely_issue pat) <->
   (Pattern.avg_read_size pat < 32 * 1024)%Q) /\
  Pattern.likely_issue pat <> Some "".

(** [byte_count] after [k] divisions by 1024, and the [k]-th power of
    1024. *)
Definition scaled (byte_count : Q) (k : nat) : Q :=
  Nat.iter k (fun b => (b / 1024)%Q) byte_count.

Definition kilo_power (k : nat) : Q := inject_Z (1024 ^ Z.of_nat k).

(** The analyzers a run can reach: built over a database whose rows keep
    the floor, then refreshed and fed samples any number of times, over any
    databases and clocks. *)
Inductive reachable `{Numpy} `{FloatText} : Analyzer.t -> Prop :=
| reach_init (config : Analyzer.Config) (db : Db.t) :
    floored_rows db -> reachable (Analyzer.init config db)
| reach_refresh (now : Z) (force : bool) (db : Db.t) (a : Analyzer.t) :
    reachable a -> reachable (Analyzer.update_baselines now force db a)
| reach_analyze (clock : Analyzer.Clock) (timestamp : Z)
    (system_metrics : gmap string Q) (a : Analyzer.t)
    (out : list Anomaly.t) (a' : Analyzer.t) :
    reachable a ->
    Analyzer.analyze clock a timestamp system_metrics = Py.Ok (out, a') ->
    reachable a'.

(** A baseline is well formed: learned from at least 10 samples, with a
    floored [std_dev] and a minimum that is not above its maximum. *)
Definition well_formed (b : Baseline.t) : Prop :=
  10 <= Baseline.count b /\
  (0.01 <= Baseline.std_dev b)%Q /\
  (Baseline.min b <= Baseline.max b)%Q.

(** * Properties *)

(** ** Comparisons *)

Lemma lt_spec (x y : Q) : Py.lt x y = true <-> (x < y)%Q.
Proof.
  unfold Py.lt. rewrite negb_true_iff.
  destruct (Qle_bool y x) eqn:E.
  - apply Qle_bool_iff in E. split; [discriminate | intros; lra].
  - split; [intros _ | reflexivity].
    destruct (Qlt_le_dec x y) as [Hlt | Hle]; [exact Hlt |].
    apply Qle_bool_iff in Hle. congruence.
Qed.

Lemma gt_spec (x y : Q) : Py.gt x y = true <-> (y < x)%Q.
Proof. unfold Py.gt. apply lt_spec. Qed.

Lemma ge_spec (x y : Q) : Py.ge x y = true <-> (y <= x)%Q.
Proof. unfold Py.ge. apply Qle_bool_iff. Qed.

Lemma lt_false (x y : Q) : Py.lt x y = false <-> (y <= x)%Q.
Proof.
  rewrite <- not_true_iff_false, lt_spec. split; intros; lra.
Qed.

Lemma gt_false (x y : Q) : Py.gt x y = false <-> (x <= y)%Q.
Proof. unfold Py.gt. apply lt_false. Qed.

Lemma ge_false (x y : Q) : Py.ge x y = false <-> (x < y)%Q.
Proof.
  rewrite <- not_true_iff_false, ge_spec. split; intros; lra.
Qed.

(** ** Z-score classification *)

Section ZScore.
Context `{FloatText}.

Lemma classify_highest_tier (a : Analyzer.t) (x : Q) :
  highest_tier a x (Analyzer._classify_severity a x).
Proof.
  unfold highest_tier, Analyzer._classify_severity, reached.
  fold (critical_cutoff a) (high_cutoff a) (medium_cutoff a) (low_cutoff a).
  destruct (Py.ge x (critical_cutoff a)) eqn:Ec;
    [| destruct (Py.ge x (high_cutoff a)) eqn:Eh;
       [| destruct (Py.ge x (medium_cutoff a)) eqn:Em;
          [| destruct (Py.ge x (low_cutoff a)) eqn:El]]];
    rewrite ?ge_spec, ?ge_false in *;
    (split; [intros Hn; simpl; first [assumption | congruence]
            | intros [] Hs'; simpl in *; try lia; try lra; try contradiction]).
Qed.

Lemma classify_below_low (a : Analyzer.t) (x : Q) :
  ordered_cutoffs a ->
  (x < low_cutoff a)%Q ->
  Analyzer._classify_severity a x = Normal.
Proof.
  unfold ordered_cutoffs. intros (Hlm & Hmh & Hhc) Hlow.
  unfold Analyzer._classify_severity.
  fold (critical_cutoff a) (high_cutoff a) (medium_cutoff a) (low_cutoff a).
  repeat match goal with
         | |- context [Py.ge ?u ?v] =>
             let E := fresh "E" in
             destruct (Py.ge u v) eqn:E;
             [apply ge_spec in E; lra | clear E]
         end.
  reflexivity.
Qed.

(** C1.  For a baseline whose [std_dev] is at least 0.01, [_check_zscore]
    does not raise; with [z = (value - mean) / std_dev], the severity is
    the highest tier whose cutoff is at most [|z|] (a cutoff equal to [|z|]
    counts), it is normal when [|z|] is below the low cutoff of an ordered
    configuration, and an anomaly, carrying [z] and that severity, is
    returned exactly when the severity is medium, high or critical. *)
Theorem check_zscore_spec (a : Analyzer.t) (timestamp : Z) (metric_name : string)
    (value : Q) (baseline : Baseline.t) (context : string) :
  (0.01 <= Baseline.std_dev baseline)%Q ->
  let z := ((value - Baseline.mean baseline) / Baseline.std_dev baseline)%Q in
  let severity := Analyzer._classify_severity a (Qabs z) in
  highest_tier a (Qabs z) severity /\
  (ordered_cutoffs a -> (Qabs z < low_cutoff a)%Q -> severity = Normal) /\
  exists r : option Anomaly.t,
    Analyzer._check_zscore a timestamp metric_name value baseline context = Py.Ok r /\
    (is_Some r <-> severity = Medium \/ severity = High \/ severity = Critical) /\
    (forall an, r = Some an ->
       zscore_anomaly a timestamp metric_name value baseline context an).
Proof.
  intros Hstd z severity.
  split; [apply classify_highest_tier |].
  split; [apply classify_below_low |].
  unfold Analyzer._check_zscore, zscore_anomaly.
  destruct (Qeq_bool (Baseline.std_dev baseline) 0) eqn:E0.
  { apply Qeq_bool_iff in E0. lra. }
  fold z. fold severity. clearbody severity. clearbody z.
  destruct severity; eexists; (split; [reflexivity |]); split.
  all: try (split;
            [ intros [x Hx]; first [discriminate | auto]
            | intros [Hx | [Hx | Hx]]; first [discriminate | eauto] ]).
  all: intros an Han; inversion Han; subst; simpl; repeat split; reflexivity.
Qed.

(** The z-score loop of [analyze] only lets through what [_check_zscore]
    reports: no anomaly of severity normal or low. *)
Lemma zscore_anomalies_severity (a : Analyzer.t) (timestamp : Z)
    (system_metrics : gmap string Q) (context : string) (metrics : list string)
    (out : list Anomaly.t) :
  Analyzer.zscore_anomalies a timestamp system_metrics context metrics = Py.Ok out ->
  Forall (fun an => Anomaly.severity an <> Normal /\ Anomaly.severity an <> Low) out.
Proof.
  revert out. induction metrics as [| metric rest IH]; intros out; simpl.
  - intros [= <-]. constructor.
  - destruct (system_metrics !! metric) as [value |]; [| apply IH].
    destruct (Analyzer.get_baseline a metric context) as [baseline |]; [| apply IH].
    unfold mbind, result_bind. unfold Py.bind at 1.
    destruct (Analyzer._check_zscore a timestamp metric value baseline context)
      as [r | e] eqn:Ec; [| discriminate].
    unfold Py.bind.
    destruct (Analyzer.zscore_anomalies a timestamp system_metrics context rest)
      as [others | e]; [| discriminate].
    intros [= <-]. specialize (IH _ eq_refl).
    destruct r as [an |]; [| exact IH].
    constructor; [| exact IH].
    unfold Analyzer._check_zscore in Ec.
    destruct (Qeq_bool _ 0); [discriminate |].
    destruct (Analyzer._classify_severity a _) eqn:Es;
      inversion Ec; subst; simpl; rewrite ?Es; split; discriminate.
Qed.

End ZScore.

(** The specification's example: mean 50, std_dev 10 and value 85 give
    z = 3.5 and a critical anomaly. *)
Lemma check_zscore_spec_witness :
  (0.01 <= Baseline.std_dev Example.cpu_baseline)%Q /\
  exists an,
    Analyzer._check_zscore (H := decimal_text) Example.fresh_analyzer 0
      "cpu_percent" 85 Example.cpu_baseline "weekday_night" = Py.Ok (Some an) /\
    (Anomaly.z_score an == 3.5)%Q /\
    Anomaly.severity an = Critical.
Proof.
  assert (Hstd : (0.01 <= Baseline.std_dev Example.cpu_baseline)%Q)
    by (simpl; lra).
  split; [exact Hstd |].
  destruct (check_zscore_spec (H := decimal_text) Example.fresh_analyzer 0
              "cpu_percent" 85 Example.cpu_baseline "weekday_night" Hstd)
    as (_ & _ & r & Hr & Hsome & Hfields).
  destruct r as [an |].
  - exists an. split; [exact Hr |].
    destruct (Hfields an eq_refl) as (Hz & Hsev & _).
    rewrite Hz, Hsev. split; [vm_compute; reflexivity | vm_compute; reflexivity].
  - exfalso. destruct Hsome as [_ Hsome].
    destruct Hsome as [x Hx]; [| discriminate].
    right. right. vm_compute. reflexivity.
Defined.

(** ** Baseline store *)

Section Baselines.
Context `{Numpy}.

Implicit Types (cache : gmap (string * string) Baseline.t) (db : Db.t).

Lemma refresh_pair_cache db days metric context cache updated :
  (Analyzer.refresh_pair db days metric context (cache, updated)).1 =
  match refreshed db days metric context with
  | Some stats => <[(metric, context) := stats]> cache
  | None => cache
  end.
Proof.
  unfold Analyzer.refresh_pair, refreshed.
  destruct (Db.get_metric_values_for_context db metric context days)
    as [values | e]; [| reflexivity].
  destruct (Z.of_nat (length values) <? 10); [reflexivity |].
  destruct (Db.update_baseline db metric context _); reflexivity.
Qed.

(** The inner loop, over the contexts of one metric. *)
Lemma refresh_contexts_lookup db days metric (cs : list string) key :
  forall cache updated,
    (foldl (fun acc context => Analyzer.refresh_pair db days metric context acc)
           (cache, updated) cs).1 !! key =
    match refreshed db days key.1 key.2 with
    | Some stats =>
        if bool_decide (key.1 = metric /\ key.2 ∈ cs) then Some stats
        else cache !! key
    | None => cache !! key
    end.
Proof.
  induction cs as [| c cs IH]; intros cache updated; cbn [foldl fst].
  - destruct (refreshed db days key.1 key.2); [| reflexivity].
    rewrite bool_decide_eq_false_2; [reflexivity |].
    intros [_ Hin]. inversion Hin.
  - destruct (Analyzer.refresh_pair db days metric c (cache, updated))
      as [cache' updated'] eqn:Ep.
    rewrite IH.
    assert (Hc : cache' = (Analyzer.refresh_pair db days metric c (cache, updated)).1)
      by (rewrite Ep; reflexivity).
    rewrite refresh_pair_cache in Hc. subst cache'.
    destruct key as [km kc]. simpl.
    destruct (decide ((km, kc) = (metric, c))) as [Heq | Hne].
    + inversion Heq; subst km kc.
      destruct (refreshed db days metric c) as [stats |] eqn:Er; [| reflexivity].
      rewrite lookup_insert_eq.
      rewrite (bool_decide_eq_true_2 (metric = metric /\ c ∈ c :: cs));
        [| split; [reflexivity | left]].
      destruct (bool_decide _); reflexivity.
    + assert (Hlook : (match refreshed db days metric c with
                       | Some stats => <[(metric, c) := stats]> cache
                       | None => cache
                       end) !! (km, kc) = cache !! (km, kc)).
      { destruct (refreshed db days metric c); [| reflexivity].
        apply lookup_insert_ne. congruence. }
      rewrite Hlook.
      destruct (refreshed db days km kc) as [stats |]; [| reflexivity].
      destruct (decide (km = metric /\ kc ∈ cs)) as [Hin | Hout].
      * rewrite !bool_decide_eq_true_2; [reflexivity | | assumption].
        destruct Hin; split; [assumption | right; assumption].
      * rewrite !bool_decide_eq_false_2; [reflexivity | | assumption].
        intros [Hm Hin]. apply list_elem_of_In in Hin. destruct Hin as [Heq | Hin].
        -- apply Hne. congruence.
        -- apply Hout. split; [assumption | apply list_elem_of_In; assumption].
Qed.

(** Both loops, over any lists of metrics and contexts. *)
Lemma refresh_loops_lookup db days (ms cs : list string) key :
  forall cache updated,
    (foldl (fun acc metric =>
              foldl (fun acc context => Analyzer.refresh_pair db days metric context acc)
                    acc cs)
           (cache, updated) ms).1 !! key =
    match refreshed db days key.1 key.2 with
    | Some stats =>
        if bool_decide (key.1 ∈ ms /\ key.2 ∈ cs) then Some stats
        else cache !! key
    | None => cache !! key
    end.
Proof.
  induction ms as [| m ms IH]; intros cache updated; cbn [foldl fst].
  - destruct (refreshed db days key.1 key.2); [| reflexivity].
    rewrite bool_decide_eq_false_2; [reflexivity |].
    intros [Hin _]. inversion Hin.
  - destruct (foldl (fun acc context => Analyzer.refresh_pair db days m context acc)
                (cache, updated) cs) as [cache' updated'] eqn:Ec.
    rewrite IH.
    assert (Hc : cache' !! key =
                 (foldl (fun acc context => Analyzer.refresh_pair db days m context acc)
                    (cache, updated) cs).1 !! key) by (rewrite Ec; reflexivity).
    rewrite refresh_contexts_lookup in Hc. rewrite Hc.
    destruct (refreshed db days key.1 key.2) as [stats |]; [| reflexivity].
    destruct (decide (key.1 ∈ ms /\ key.2 ∈ cs)) as [Hin | Hout].
    + rewrite !bool_decide_eq_true_2; [reflexivity | | assumption].
      destruct Hin; split; [right |]; assumption.
    + rewrite (bool_decide_eq_false_2 (key.1 ∈ ms /\ key.2 ∈ cs)) by assumption.
      destruct (decide (key.1 = m /\ key.2 ∈ cs)) as [Hm | Hnm].
      * rewrite !bool_decide_eq_true_2; [reflexivity | | assumption].
        destruct Hm as [-> ?]; split; [left | assumption].
      * rewrite !bool_decide_eq_false_2; [reflexivity | | assumption].
        intros [Hin Hcs]. apply list_elem_of_In in Hin. destruct Hin as [Heq | Hin].
        -- apply Hnm. split; [symmetry |]; assumption.
        -- apply Hout. split; [apply list_elem_of_In |]; assumption.
Qed.

(** The cache after the two loops of [update_baselines]: a monitored pair
    holds what the refresh wrote for it, every other key what it held. *)
Lemma refresh_all_lookup db days cache key :
  (Analyzer.refresh_all db days cache).1 !! key =
  match refreshed db days key.1 key.2 with
  | Some stats =>
      if bool_decide (key.1 ∈ Analyzer.MONITORED_METRICS /\ key.2 ∈ Analyzer.contexts)
      then Some stats
      else cache !! key
  | None => cache !! key
  end.
Proof. unfold Analyzer.refresh_all. apply refresh_loops_lookup. Qed.

Lemma update_baselines_cache now force db (a : Analyzer.t) :
  Analyzer.baselines_cache (Analyzer.update_baselines now force db a) =
  if Analyzer.too_soon now force a then Analyzer.baselines_cache a
  else (Analyzer.refresh_all db (Analyzer.baseline_history_days a)
          (Analyzer.baselines_cache a)).1.
Proof.
  unfold Analyzer.update_baselines.
  destruct (Analyzer.too_soon now force a); [reflexivity |].
  destruct (Analyzer.refresh_all _ _ _); reflexivity.
Qed.

End Baselines.

Section BaselineClaims.
Context `{Numpy}.

Implicit Types (cache : gmap (string * string) Baseline.t) (db : Db.t).

(** C7.  When the history of a (metric, context) pair has fewer than 10
    values, a refresh (forced or not, whenever it runs) leaves the cached
    entry of that pair as it was, so that a [get_baseline] after the refresh
    returns what it returned before, in particular a baseline learned
    earlier. *)
Theorem refresh_keeps_baseline_on_short_history
    (now : Z) (force : bool) db (a : Analyzer.t) (metric context : string)
    (values : list Q) :
  Db.get_metric_values_for_context db metric context
    (Analyzer.baseline_history_days a) = Py.Ok values ->
  (length values < 10)%nat ->
  let a' := Analyzer.update_baselines now force db a in
  Analyzer.baselines_cache a' !! (metric, context) =
    Analyzer.baselines_cache a !! (metric, context) /\
  forall b, Analyzer.get_baseline a metric context = Some b ->
            Analyzer.get_baseline a' metric context = Some b.
Proof.
  intros Hq Hlen a'.
  assert (Hsame : Analyzer.baselines_cache a' !! (metric, context) =
                  Analyzer.baselines_cache a !! (metric, context)).
  { subst a'. rewrite update_baselines_cache.
    destruct (Analyzer.too_soon now force a); [reflexivity |].
    rewrite refresh_all_lookup. simpl.
    unfold refreshed. rewrite Hq.
    replace (Z.of_nat (length values) <? 10) with true; [reflexivity |].
    symmetry. apply Z.ltb_lt. lia. }
  split; [exact Hsame |].
  unfold Analyzer.get_baseline. intros b Hb. rewrite Hsame. exact Hb.
Qed.



Lemma too_soon_false (now : Z) (force : bool) (a : Analyzer.t) :
  Analyzer.too_soon now force a = false <-> refresh_due now force a.
Proof.
  unfold Analyzer.too_soon, refresh_due.
  destruct force; simpl; [split; auto |].
  destruct (Analyzer.last_baseline_update a) as [last |].
  - rewrite Z.ltb_ge. split; [intros Hle; right; exact Hle |].
    intros [Hf | Hle]; [discriminate | exact Hle].
  - split; auto.
Qed.

(** The interval of the guard is one hour from the start. *)
Lemma init_update_interval (config : Analyzer.Config) db :
  Analyzer.baseline_update_interval (Analyzer.init config db) = Utils.hours 1.
Proof.
  unfold Analyzer.init, Analyzer._load_baselines_from_db.
  destruct (Db.get_all_baselines db); reflexivity.
Qed.


(** *** The floor on [std_dev] *)

Lemma compute_stats_floor (values : list Q) :
  (0.01 <= Baseline.std_dev (Analyzer.compute_stats values))%Q.
Proof.
  unfold Analyzer.compute_stats. simpl.
  destruct (Py.lt (Np.std values) 0.01) eqn:E.
  - lra.
  - apply lt_false in E. exact E.
Qed.

Lemma refreshed_floor db days metric context stats :
  refreshed db days metric context = Some stats ->
  (0.01 <= Baseline.std_dev stats)%Q.
Proof.
  unfold refreshed.
  destruct (Db.get_metric_values_for_context db metric context days)
    as [values | e]; [| discriminate].
  destruct (Z.of_nat (length values) <? 10); [discriminate |].
  destruct (Db.update_baseline db metric context _); [| discriminate].
  intros [= <-]. apply compute_stats_floor.
Qed.

(** A refresh keeps the floor: what it writes is floored, what it leaves was
    floored before. *)
Lemma update_baselines_floor now force db (a : Analyzer.t) :
  floor_ok (Analyzer.baselines_cache a) ->
  floor_ok (Analyzer.baselines_cache (Analyzer.update_baselines now force db a)).
Proof.
  intros Hok key b. rewrite update_baselines_cache.
  destruct (Analyzer.too_soon now force a); [apply Hok |].
  rewrite refresh_all_lookup.
  destruct (refreshed db (Analyzer.baseline_history_days a) key.1 key.2)
    as [stats |] eqn:Er; [| apply Hok].
  destruct (bool_decide _); [| apply Hok].
  intros [= <-]. eapply refreshed_floor, Er.
Qed.

End BaselineClaims.

(** The load from the database keeps the floor only as far as the rows
    have it: each row is copied as it is. *)
Lemma load_rows_floor (rows : list BaselineRow.t) :
  forall cache : gmap (string * string) Baseline.t,
    floor_ok cache ->
    Forall (fun row => (0.01 <= BaselineRow.std_dev row)%Q) rows ->
    floor_ok (foldl Analyzer.load_row cache rows).
Proof.
  induction rows as [| row rows IH]; intros cache Hok Hrows; simpl; [exact Hok |].
  inversion Hrows as [| ? ? Hrow Hrest]; subst.
  apply IH; [| exact Hrest].
  intros key b. unfold Analyzer.load_row.
  destruct (decide ((BaselineRow.metric_name row, BaselineRow.context row) = key))
    as [<- | Hne].
  - rewrite lookup_insert_eq. intros [= <-]. exact Hrow.
  - rewrite lookup_insert_ne by exact Hne. apply Hok.
Qed.

(** A learned baseline (mean 50, std_dev 10) survives a forced refresh that
    finds nine samples. *)
Lemma refresh_keeps_baseline_on_short_history_witness :
  Db.get_metric_values_for_context Example.short_history_db
    "cpu_percent" "weekday_morning" 7 = Py.Ok (replicate 9 40%Q) /\
  (length (replicate 9 40%Q) < 10)%nat /\
  Analyzer.get_baseline
    (Analyzer.update_baselines (H := sqrt_6_decimals) 0 true Example.short_history_db
       (Analyzer.init Example.default_config Example.short_history_db))
    "cpu_percent" "weekday_morning" = Some Example.cpu_baseline.
Proof.
  split; [reflexivity |]. split; [simpl; lia |].
  refine (proj2 (refresh_keeps_baseline_on_short_history (H := sqrt_6_decimals)
                   0 true Example.short_history_db
                   (Analyzer.init Example.default_config Example.short_history_db)
                   "cpu_percent" "weekday_morning" (replicate 9 40%Q) _ _)
                Example.cpu_baseline _).
  - reflexivity.
  - simpl. lia.
  - vm_compute. reflexivity.
Defined.



(** *** The floor over the table and the cache *)

Section StoreFloor.
Context `{Numpy} `{FloatText}.

Lemma analyze_keeps_cache (clock : Analyzer.Clock) (a : Analyzer.t) (timestamp : Z)
    (system_metrics : gmap string Q) (out : list Anomaly.t) (a' : Analyzer.t) :
  Analyzer.analyze clock a timestamp system_metrics = Py.Ok (out, a') ->
  Analyzer.baselines_cache a' = Analyzer.baselines_cache a.
Proof.
  unfold Analyzer.analyze, mbind, result_bind, Py.bind.
  destruct (Analyzer.zscore_anomalies _ _ _ _ _); [| discriminate].
  unfold Analyzer._detect_trends. intros [= _ <-]. reflexivity.
Qed.

Lemma update_baseline_floored (t : Storage.table) (metric context : string)
    (stats : Baseline.t) :
  floored_table t -> (0.01 <= Baseline.std_dev stats)%Q ->
  floored_table (Storage.update_baseline t metric context stats).
Proof.
  unfold floored_table. intros Ht Hstats.
  induction Ht as [| r rest Hr Hrest IH]; cbn [Storage.update_baseline].
  - apply List.Forall_cons; [exact Hstats | apply List.Forall_nil].
  - destruct (_ && _).
    + apply List.Forall_cons; [exact Hstats | exact Hrest].
    + apply List.Forall_cons; [exact Hr | exact IH].
Qed.

Lemma store_pair_floored (queries : Db.t) (days : Z)
    (kept : string -> string -> bool) (metric context : string)
    (t : Storage.table) :
  floored_table t ->
  floored_table (Analyzer.store_pair queries days kept metric context t).
Proof.
  intros Ht. unfold Analyzer.store_pair.
  destruct (Db.get_metric_values_for_context queries metric context days)
    as [values | e]; [| exact Ht].
  destruct (_ <? 10); [exact Ht |].
  destruct (kept metric context); [| exact Ht].
  apply update_baseline_floored; [exact Ht | apply compute_stats_floor].
Qed.

Lemma store_all_floored (queries : Db.t) (days : Z)
    (kept : string -> string -> bool) (t : Storage.table) :
  floored_table t -> floored_table (Analyzer.store_all queries days kept t).
Proof.
  unfold Analyzer.store_all.
  generalize Analyzer.MONITORED_METRICS as metrics.
  generalize Analyzer.contexts as contexts.
  intros contexts metrics. revert t.
  induction metrics as [| metric metrics IHm]; intros t Ht; [exact Ht |].
  cbn [foldl]. apply IHm. clear IHm. revert t Ht.
  induction contexts as [| context contexts IHc]; intros t Ht; [exact Ht |].
  cbn [foldl]. apply IHc, store_pair_floored, Ht.
Qed.

Lemma init_floor (config : Analyzer.Config) (t : Storage.table) (queries : Db.t) :
  floored_table t ->
  floor_ok (Analyzer.baselines_cache
              (Analyzer.init config (Storage.connect t queries))).
Proof.
  intros Ht. unfold Analyzer.init, Analyzer._load_baselines_from_db.
  cbn [Db.get_all_baselines Storage.connect].
  assert (Hempty : floor_ok (∅ : gmap (string * string) Baseline.t))
    by (intros key b Hb; rewrite lookup_empty in Hb; discriminate).
  destruct (Db.get_all_baselines queries) as [rows | e];
    cbn [Analyzer.baselines_cache Analyzer.set_baselines].
  - apply load_rows_floor; [exact Hempty | exact Ht].
  - exact Hempty.
Qed.

(** C2.  The floor holds in every state the program reaches.  The table of
    a new database is empty, [update_baseline] is its only writer and is
    handed floored statistics, and the cache is filled from the table or by
    the refresh: so after the initial load, after a refresh and after a
    sample, every row of the table and every entry of the cache has a
    [std_dev] of at least 0.01, and so has every baseline that a lookup
    returns for the z-score division. *)
Theorem store_keeps_floor (t : Storage.table) (a : Analyzer.t) :
  runs t a ->
  floored_table t /\
  floor_ok (Analyzer.baselines_cache a) /\
  forall metric context b,
    Analyzer.get_baseline a metric context = Some b ->
    (0.01 <= Baseline.std_dev b)%Q.
Proof.
  intros Hrun.
  assert (Hboth : floored_table t /\ floor_ok (Analyzer.baselines_cache a)).
  { induction Hrun as [config queries
                      | t a config queries _ [IHt _]
                      | t a now force queries kept _ [IHt IHa]
                      | t a clock timestamp system_metrics out a' _ [IHt IHa] Han].
    - split; [apply List.Forall_nil | apply init_floor, List.Forall_nil].
    - split; [exact IHt | apply init_floor, IHt].
    - split.
      + unfold Analyzer.table_after_update.
        destruct (Analyzer.too_soon now force a); [exact IHt |].
        apply store_all_floored, IHt.
      + apply update_baselines_floor, IHa.
    - split; [exact IHt |].
      rewrite (analyze_keeps_cache _ _ _ _ _ _ Han). exact IHa. }
  destruct Hboth as [Ht Ha]. split; [exact Ht |]. split; [exact Ha |].
  intros metric context b Hb. exact (Ha (metric, context) b Hb).
Qed.

End StoreFloor.

(** Ten samples of 50 have a standard deviation of 0: the refresh stores
    0.01 for them, and an analyzer started afterwards over the table reads
    0.01 back. *)
Lemma store_keeps_floor_witness :
  exists b,
    Analyzer.get_baseline Cases.restarted "cpu_percent" "weekday_morning" = Some b /\
    Baseline.std_dev b = 0.01%Q /\
    (0.01 <= Baseline.std_dev b)%Q.
Proof.
  assert (Hrun : runs (H := sqrt_6_decimals) (H0 := decimal_text)
                   Cases.constant_table Cases.restarted).
  { apply run_restart with (a := Analyzer.update_baselines (H := sqrt_6_decimals)
                                   0 true
                                   (Storage.connect Storage.created Cases.constant_db)
                                   (Analyzer.init Example.default_config
                                      (Storage.connect Storage.created
                                         Cases.constant_db))).
    apply (run_refresh (H := sqrt_6_decimals) (H0 := decimal_text)).
    apply run_start. }
  destruct (Analyzer.get_baseline Cases.restarted "cpu_percent" "weekday_morning")
    as [b |] eqn:Eb; [| vm_compute in Eb; discriminate Eb].
  exists b. split; [reflexivity |].
  split.
  - vm_compute in Eb. injection Eb as <-. reflexivity.
  - exact (proj2 (proj2 (store_keeps_floor (H := sqrt_6_decimals)
                           (H0 := decimal_text) _ _ Hrun)) _ _ _ Eb).
Defined.

(** Outside those states.  [_load_baselines_from_db] copies each row of the
    [baselines] table as it is and does not floor it: were a row with a
    [std_dev] of 0 put in the table by other means than the program, it
    would enter the cache with that value and the z-score division on it
    would raise, out of [analyze]. *)
Theorem load_copies_zero_std_dev :
  exists b,
    Analyzer.get_baseline
      (Analyzer.init Example.default_config Example.zero_std_dev_db)
      "cpu_percent" "weekday_morning" = Some b /\
    Baseline.std_dev b = 0%Q /\
    ~ floor_ok (Analyzer.baselines_cache
                  (Analyzer.init Example.default_config Example.zero_std_dev_db)) /\
    Analyzer._check_zscore (H := decimal_text)
      (Analyzer.init Example.default_config Example.zero_std_dev_db)
      Example.monday_9am "cpu_percent" 85 b "weekday_morning"
      = Py.Raise "float division by zero" /\
    Analyzer.analyze (H := decimal_text) (Example.clock_at Example.monday_9am)
      (Analyzer.init Example.default_config Example.zero_std_dev_db)
      Example.monday_9am (<["cpu_percent" := 85%Q]> ∅)
      = Py.Raise "float division by zero".
Proof.
  eexists. split; [vm_compute; reflexivity |].
  split; [reflexivity |].
  split; [| split; [reflexivity | vm_compute; reflexivity]].
  intros Hok.
  specialize (Hok ("cpu_percent", "weekday_morning") _ eq_refl).
  simpl in Hok. lra.
Qed.

(** ** Trend detectors *)


Lemma last_default_Some {A} (l : list A) (d : A) :
  l <> [] -> last l = Some (List.last l d).
Proof.
  induction l as [| x [| y l] IH]; intros Hne; [congruence | reflexivity |].
  change (last (y :: l) = Some (List.last (y :: l) d)).
  apply IH. discriminate.
Qed.


Lemma fill_buckets_length (now : Z) (history : list (Z * Q)) :
  length (Analyzer.fill_buckets now history) = 12%nat.
Proof.
  unfold Analyzer.fill_buckets.
  induction history as [| e history IH] using rev_ind; [reflexivity |].
  rewrite foldl_app. simpl. unfold Analyzer.place at 1. destruct e as [ts val].
  destruct (_ && _); [| exact IH].
  rewrite length_alter. exact IH.
Qed.

(** Bucket [i] holds, in the order of the buffer, the values of the entries
    whose age puts them in slice [i]: the buckets partition the buffer. *)
Lemma fill_buckets_lookup (now : Z) (history : list (Z * Q)) (i : nat) :
  (i < 12)%nat ->
  Analyzer.fill_buckets now history !! i =
  Some (snd <$> filter (fun e => bucket_of now e.1 = Some i) history).
Proof.
  intros Hi. unfold Analyzer.fill_buckets.
  induction history as [| e history IH] using rev_ind.
  - change (replicate (Z.to_nat Analyzer.bucket_count) ([] : list Q) !! i = Some []).
    apply lookup_replicate_2. exact Hi.
  - rewrite foldl_app, filter_app, fmap_app. cbn [foldl].
    destruct e as [ts val]. unfold Analyzer.place at 1. cbv zeta.
    rewrite filter_cons, filter_nil. cbn [fst].
    set (idx := Analyzer.bucket_count - 1
                - Z.min (Analyzer.bucket_count - 1)
                    (Z.quot (now - ts) Analyzer.bucket_duration)).
    assert (Hb : bucket_of now ts =
                 if (0 <=? idx) && (idx <? Analyzer.bucket_count)
                 then Some (Z.to_nat idx) else None) by reflexivity.
    rewrite Hb.
    destruct ((0 <=? idx) && (idx <? Analyzer.bucket_count)).
    + destruct (decide (Z.to_nat idx = i)) as [Heq | Hne].
      * rewrite Heq, list_lookup_alter_eq, IH.
        rewrite decide_True by reflexivity. reflexivity.
      * rewrite list_lookup_alter_ne by exact Hne. rewrite IH.
        rewrite decide_False by congruence.
        simpl. rewrite app_nil_r. reflexivity.
    + rewrite IH. rewrite decide_False by discriminate.
      simpl. rewrite app_nil_r. reflexivity.
Qed.





(** The loop over [range(1, len(history))] counts the consecutive samples
    that differ by more than 100 MB. *)
Lemma count_swap_changes_pairs (history : list (Z * Q)) :
  Analyzer.count_swap_changes history
  = Z.of_nat (length (List.filter
                        (fun pair : Q * Q =>
                           exceeds (Qabs (pair.2 - pair.1)) (100 * 1024 * 1024))
                        (consecutive (snd <$> history)))).
Proof.
  induction history as [| [t1 prev] rest IH]; [reflexivity |].
  destruct rest as [| [t2 cur] rest']; [reflexivity |].
  change (Analyzer.count_swap_changes ((t1, prev) :: (t2, cur) :: rest'))
    with ((if Py.gt (Qabs (cur - prev)) Analyzer.swap_threshold then 1 else 0)
          + Analyzer.count_swap_changes ((t2, cur) :: rest')).
  rewrite IH.
  change (consecutive (snd <$> (t1, prev) :: (t2, cur) :: rest'))
    with ((prev, cur) :: consecutive (snd <$> (t2, cur) :: rest')).
  cbn [List.filter snd fst].
  change (exceeds (Qabs (cur - prev)) (100 * 1024 * 1024))
    with (Py.gt (Qabs (cur - prev)) Analyzer.swap_threshold).
  destruct (Py.gt _ _); [| reflexivity].
  rewrite length_cons. lia.
Qed.

Section Trends.
Context `{FloatText}.


End Trends.


(** C4.  [_detect_swap_thrashing] returns an anomaly exactly when the swap
    buffer holds at least 20 points (hence at least 10 comparisons of
    consecutive samples) and more than 0.15 of those comparisons show a
    change above 100 MB.  The anomaly is a critical [swap_thrashing] on
    [swap_used] with z-score 0 and baseline mean 0, its value the latest
    sample. *)
Theorem detect_swap_thrashing_spec (a : Analyzer.t) (timestamp : Z) :
  let history := Analyzer.swap_history a in
  (is_Some (Analyzer._detect_swap_thrashing a timestamp) <->
     (20 <= length history)%nat /\
     10 <= Z.of_nat (length history) - 1 /\
     (0.15 < swap_change_fraction history)%Q) /\
  (forall an, Analyzer._detect_swap_thrashing a timestamp = Some an ->
     Anomaly.severity an = Critical /\
     Anomaly.anomaly_type an = "swap_thrashing" /\
     Anomaly.metric_name an = "swap_used" /\
     Anomaly.timestamp an = timestamp /\
     Anomaly.z_score an = 0%Q /\
     Anomaly.baseline_mean an = 0%Q /\
     snd <$> last history = Some (Anomaly.metric_value an)).
Proof.
  intros history.
  unfold Analyzer._detect_swap_thrashing.
  fold history. rewrite count_swap_changes_pairs.
  fold (swap_change_fraction history).
  destruct (Z.of_nat (length history) <? 20) eqn:E20.
  { apply Z.ltb_lt in E20.
    split; [| intros an [=]].
    split; [intros [? [=]] | intros (Hlen & _); lia]. }
  apply Z.ltb_ge in E20.
  destruct (Z.of_nat (length history) - 1 <? 10) eqn:E10.
  { apply Z.ltb_lt in E10. lia. }
  apply Z.ltb_ge in E10.
  destruct (Py.gt (swap_change_fraction history) 0.15) eqn:Er.
  2: { apply gt_false in Er.
       split; [| intros an [=]].
       split; [intros [? [=]] | intros (_ & _ & Hr); lra]. }
  apply gt_spec in Er.
  split.
  - split; [intros _ | intros _; eexists; reflexivity].
    repeat split; try assumption; lia.
  - intros an [= <-]. simpl. repeat split.
    rewrite (last_default_Some history (0, 0%Q)); [reflexivity |].
    destruct history; [simpl in E20; lia | discriminate].
Qed.

(** Twenty samples that alternate between 0 and 200 MB: all nineteen
    consecutive pairs differ by more than 100 MB. *)
Lemma detect_swap_thrashing_spec_witness :
  (0.15 < swap_change_fraction (Example.swap_series 0 200))%Q /\
  is_Some (Analyzer._detect_swap_thrashing
             (Example.with_buffers [] (Example.swap_series 0 200)) 0).
Proof.
  assert (Hfraction : (0.15 < swap_change_fraction (Example.swap_series 0 200))%Q)
    by (vm_compute; reflexivity).
  split; [exact Hfraction |].
  apply (proj1 (detect_swap_thrashing_spec
                  (Example.with_buffers [] (Example.swap_series 0 200)) 0)).
  split_and!.
  - vm_compute. lia.
  - vm_compute. discriminate.
  - exact Hfraction.
Defined.

(** *** The buckets of the leak detector *)

(** *** The slices of the leak detector *)

(** For an entry that is not in the future, the slice is the age in whole
    ten-minute units, counted back from slice 11 and clamped at slice 0. *)
Lemma bucket_of_past (now ts : Z) :
  0 <= now - ts ->
  bucket_of now ts =
  Some (Z.to_nat (11 - Z.min 11 ((now - ts) / Analyzer.bucket_duration))).
Proof.
  intros Hage. unfold bucket_of.
  assert (Hd : 0 < Analyzer.bucket_duration) by reflexivity.
  rewrite Z.quot_div_nonneg by lia.
  pose proof (Z.div_pos (now - ts) Analyzer.bucket_duration Hage Hd) as Hq.
  change (Analyzer.bucket_count - 1) with 11.
  change Analyzer.bucket_count with 12.
  replace ((0 <=? 11 - Z.min 11 ((now - ts) / Analyzer.bucket_duration))
           && (11 - Z.min 11 ((now - ts) / Analyzer.bucket_duration) <? 12))
    with true; [reflexivity |].
  symmetry. apply andb_true_iff. split; [apply Z.leb_le | apply Z.ltb_lt]; lia.
Qed.

(** *** The detectors on the series of the specification *)

(** Ten more MB in each ten-minute slice: 110 MB over twelve slices, that
    is 55 MB per hour, a medium leak. *)
Example rising_memory_is_a_medium_leak :
  Anomaly.severity <$>
    Analyzer._detect_memory_leak (H := decimal_text) (Utils.hours 2)
      (Example.with_buffers (Example.memory_series 10) []) (Utils.hours 2)
  = Some Medium.
Proof. vm_compute. reflexivity. Qed.

Example steep_memory_is_a_high_leak :
  Anomaly.severity <$>
    Analyzer._detect_memory_leak (H := decimal_text) (Utils.hours 2)
      (Example.with_buffers (Example.memory_series 25) []) (Utils.hours 2)
  = Some High.
Proof. vm_compute. reflexivity. Qed.

Example flat_memory_is_no_leak :
  Analyzer._detect_memory_leak (H := decimal_text) (Utils.hours 2)
    (Example.with_buffers (Example.memory_series 0) []) (Utils.hours 2)
  = None.
Proof. vm_compute. reflexivity. Qed.

Example rising_memory_description :
  Anomaly.description <$>
    Analyzer._detect_memory_leak (H := decimal_text) (Utils.hours 2)
      (Example.with_buffers (Example.memory_series 10) []) (Utils.hours 2)
  = Some ("Potential memory leak detected: memory growing at 55 MB/hour " +:+
          "over the last 120 minutes (11/11 intervals show growth)").
Proof. vm_compute. reflexivity. Qed.

Example swinging_swap_is_thrashing :
  Anomaly.severity <$>
    Analyzer._detect_swap_thrashing
      (Example.with_buffers [] (Example.swap_series 0 200)) (Utils.minutes 19)
  = Some Critical.
Proof. vm_compute. reflexivity. Qed.

Example stable_swap_is_not_thrashing :
  Analyzer._detect_swap_thrashing
    (Example.with_buffers [] (Example.swap_series 512 512)) (Utils.minutes 19)
  = None.
Proof. vm_compute. reflexivity. Qed.

(** ** Descending stable sort *)

Section SortDesc.
Context {A : Type} (key : A -> Q).

Lemma insert_desc_perm (x : A) (l : list A) : insert_desc key x l ≡ₚ x :: l.
Proof.
  induction l as [| y l IH]; simpl; [reflexivity |].
  destruct (Py.lt (key x) (key y)); [| reflexivity].
  rewrite IH. apply Permutation_swap.
Qed.

Lemma sort_desc_perm (l : list A) : sort_desc key l ≡ₚ l.
Proof.
  unfold sort_desc. induction l as [| x l IH]; simpl; [reflexivity |].
  rewrite insert_desc_perm, IH. reflexivity.
Qed.

Lemma sort_desc_length (l : list A) : length (sort_desc key l) = length l.
Proof. apply Permutation_length, sort_desc_perm. Qed.

Lemma insert_desc_sorted (x : A) (l : list A) :
  StronglySorted (ranked_before key) l ->
  StronglySorted (ranked_before key) (insert_desc key x l).
Proof.
  induction l as [| y l IH]; intros Hs; simpl.
  - repeat constructor.
  - inversion Hs as [| ? ? Hl Hy]; subst.
    destruct (Py.lt (key x) (key y)) eqn:E.
    + apply lt_spec in E.
      constructor; [apply IH, Hl |].
      rewrite insert_desc_perm. constructor; [| exact Hy].
      unfold ranked_before. lra.
    + apply lt_false in E.
      constructor; [exact Hs |].
      constructor; [exact E |].
      eapply Forall_impl; [exact Hy |].
      unfold ranked_before. intros z Hz. lra.
Qed.

Lemma sort_desc_sorted (l : list A) :
  StronglySorted (ranked_before key) (sort_desc key l).
Proof.
  unfold sort_desc. induction l as [| x l IH]; simpl; [constructor |].
  apply insert_desc_sorted, IH.
Qed.

(** In a ranked list, nothing behind the first [n] entries outranks one of
    them. *)
Lemma ranked_take_drop (n : nat) (l : list A) :
  StronglySorted (ranked_before key) l ->
  Forall (fun r => Forall (fun o => ranked_before key o r) (take n l)) (drop n l).
Proof.
  intros Hs. rewrite <- (take_drop n l) in Hs.
  apply Forall_forall. intros r Hr. apply Forall_forall. intros o Ho.
  exact (StronglySorted_app_1_elem_of _ _ _ o r Hs Ho Hr).
Qed.

(** Records with equal keys keep their order: the sort is stable. *)
Lemma insert_desc_same_key (k : Q) (x : A) (l : list A) :
  List.filter (fun y => Qeq_bool (key y) k) (insert_desc key x l) =
  List.filter (fun y => Qeq_bool (key y) k) (x :: l).
Proof.
  induction l as [| y l IH]; [reflexivity |].
  cbn [insert_desc].
  destruct (Py.lt (key x) (key y)) eqn:E; [| reflexivity].
  apply lt_spec in E.
  cbn [List.filter] in *. rewrite IH.
  destruct (Qeq_bool (key x) k) eqn:Ex, (Qeq_bool (key y) k) eqn:Ey;
    try reflexivity.
  apply Qeq_bool_iff in Ex. apply Qeq_bool_iff in Ey. lra.
Qed.

Lemma sort_desc_stable (k : Q) (l : list A) :
  List.filter (fun y => Qeq_bool (key y) k) (sort_desc key l) =
  List.filter (fun y => Qeq_bool (key y) k) l.
Proof.
  unfold sort_desc. induction l as [| x l IH]; [reflexivity |].
  cbn [foldr]. rewrite insert_desc_same_key.
  cbn [List.filter]. rewrite IH. reflexivity.
Qed.

End SortDesc.

(** ** Contribution ranking *)

Lemma index_by_pid_snoc (l : list Process.t) (p : Process.t) :
  RootCauseAnalyzer.index_by_pid (l ++ [p]) =
  <[Py.get (Process.pid p) := p]> (RootCauseAnalyzer.index_by_pid l).
Proof. unfold RootCauseAnalyzer.index_by_pid. rewrite foldl_app. reflexivity. Qed.

(** The pid index of a snapshot holds, for each pid, the last record listed
    with it. *)
Lemma index_by_pid_lookup (l : list Process.t) (pid : option Z) :
  RootCauseAnalyzer.index_by_pid l !! pid = held_by l pid.
Proof.
  unfold held_by.
  induction l as [| p l IH] using rev_ind; [reflexivity |].
  rewrite index_by_pid_snoc, filter_app, filter_cons, filter_nil.
  destruct (decide (Py.get (Process.pid p) = pid)) as [Heq | Hne].
  - rewrite Heq, lookup_insert_eq, last_snoc. reflexivity.
  - rewrite lookup_insert_ne by exact Hne. rewrite app_nil_r. exact IH.
Qed.

Lemma held_by_None (l : list Process.t) (pid : option Z) :
  held_by l pid = None <-> Forall (fun q => Py.get (Process.pid q) <> pid) l.
Proof.
  unfold held_by. rewrite last_None. split.
  - intros Hnil. apply Forall_forall. intros q Hq Heq.
    exact (filter_nil_not_elem_of _ _ q Hnil Heq Hq).
  - intros Hall. induction Hall as [| q l Hq _ IH]; [reflexivity |].
    rewrite filter_cons, decide_False by exact Hq. exact IH.
Qed.

Section Contributions.
Context `{FloatText}.

Lemma contribution_ranks (key : SortKey) (prev : list Process.t) (p : Process.t) :
  ranks_process key prev p
    (RootCauseAnalyzer.contribution key (RootCauseAnalyzer.index_by_pid prev) p).
Proof.
  unfold ranks_process, RootCauseAnalyzer.contribution. simpl.
  rewrite index_by_pid_lookup.
  split_and!; try reflexivity.
  - split.
    + intros Hnew. apply bool_decide_eq_true in Hnew. apply held_by_None, Hnew.
    + intros Hall. apply bool_decide_eq_true, held_by_None, Hall.
  - intros Hnew. apply bool_decide_eq_true in Hnew. rewrite Hnew. reflexivity.
Qed.

Lemma value_of_reading (key : SortKey) (p : Process.t) :
  (RootCauseAnalyzer.value_of key p == sort_key_reading key p)%Q.
Proof.
  unfold RootCauseAnalyzer.value_of, sort_key_reading, Py.or_zero, Py.get_default.
  destruct (sort_key_field key p) as [| | v]; try reflexivity.
  destruct (Qeq_bool v 0) eqn:E; [| reflexivity].
  apply Qeq_bool_iff in E. rewrite E. reflexivity.
Qed.

Lemma contribution_ranking_record (key : SortKey) (prev : list Process.t)
    (p : Process.t) :
  ranking_record key prev p
    (RootCauseAnalyzer.contribution key (RootCauseAnalyzer.index_by_pid prev) p).
Proof.
  destruct (contribution_ranks key prev p)
    as (Hpid & Hmetric & Hcur & Hprev & Hdelta & Hnew & Hzero).
  unfold ranking_record. split_and!; try assumption.
  - rewrite Hcur. apply value_of_reading.
  - rewrite Hprev. destruct (held_by prev _) as [q |]; cbn [from_option].
    + apply value_of_reading.
    + reflexivity.
Qed.

(** C8.  When the earlier snapshot can be read, the ranking considers the
    first 20 processes of the current snapshot; each gets a record with
    [delta = current - previous], where [previous] is the value the earlier
    snapshot holds for the same pid, and 0 with [is_new_process] set exactly
    when that snapshot has no record of the pid; the records are ordered by
    [|current_value|], largest first, and the first 10 of them, at most,
    are returned. *)
Theorem contribution_ranking_spec (db : Db.t) (anomaly_type : string)
    (timestamp : Z) (current_processes prev : list Process.t) :
  Db.get_process_metrics_at db (timestamp - Utils.seconds 30) = Py.Ok prev ->
  let key := RootCauseAnalyzer.choose_sort_key anomaly_type in
  exists out recs rest,
    RootCauseAnalyzer._analyze_process_contributions db anomaly_type timestamp
      current_processes = Py.Ok out /\
    Forall2 (ranking_record key prev) (take 20 current_processes) recs /\
    recs ≡ₚ out ++ rest /\
    StronglySorted (ranked_before magnitude) out /\
    Forall (fun r => Forall (fun o => ranked_before magnitude o r) out) rest /\
    length out = Nat.min 10 (Nat.min 20 (length current_processes)).
Proof.
  intros Hprev key.
  set (recs := RootCauseAnalyzer.contribution key (RootCauseAnalyzer.index_by_pid prev)
                 <$> take 20 current_processes).
  set (ranked := sort_desc RootCauseAnalyzer.contributor_key recs).
  exists (take 10 ranked), recs, (drop 10 ranked).
  split.
  { unfold RootCauseAnalyzer._analyze_process_contributions.
    rewrite Hprev. reflexivity. }
  split.
  { subst recs. apply Forall2_fmap_r, Forall_Forall2_diag, Forall_forall.
    intros p _. apply contribution_ranking_record. }
  split.
  { rewrite take_drop. subst ranked. symmetry. apply sort_desc_perm. }
  assert (Hsorted : StronglySorted (ranked_before magnitude) ranked)
    by exact (sort_desc_sorted RootCauseAnalyzer.contributor_key recs).
  split.
  { rewrite <- (take_drop 10 ranked) in Hsorted.
    exact (StronglySorted_app_1_l _ _ _ Hsorted). }
  split.
  { apply ranked_take_drop, Hsorted. }
  rewrite length_take. subst ranked. rewrite sort_desc_length.
  subst recs. rewrite length_fmap, length_take. reflexivity.
Qed.


End Contributions.

(** The specification's example: python (pid 200) is missing from the
    earlier snapshot, so its record is flagged new with a previous value of
    0; it also leads the ranking. *)
Lemma contribution_ranking_spec_witness :
  Db.get_process_metrics_at Example.history_db (0 - Utils.seconds 30)
    = Py.Ok Example.earlier_snapshot /\
  exists out c,
    RootCauseAnalyzer._analyze_process_contributions (H := decimal_text)
      Example.history_db "cpu_spike" 0 Example.snapshot = Py.Ok out /\
    head out = Some c /\
    Contributor.pid c = Some 200 /\
    Contributor.is_new_process c = true /\
    Contributor.previous_value c = 0%Q /\
    Contributor.display c = "python (PID 200): 95.0% CPU (new process)".
Proof.
  split; [reflexivity |].
  destruct (contribution_ranking_spec (H := decimal_text) Example.history_db
              "cpu_spike" 0 Example.snapshot Example.earlier_snapshot eq_refl)
    as (out & recs & rest & Hout & _).
  exists out. vm_compute in Hout. injection Hout as <-.
  eexists. split; [vm_compute; reflexivity |].
  split_and!; reflexivity.
Defined.


(** ** Process tree *)

(** The loop of [_build_process_tree] leaves at the end of its first
    iteration, whatever the fuel: the test [current_pid == current_pid]
    always holds. *)
Lemma walk_one_iteration (fuel : nat) (proc_map : gmap (option Z) Process.t)
    (tree : list TreeNode.t) (visited : gset Z) (current_pid : option Z) :
  RootCauseAnalyzer.walk (S fuel) proc_map tree visited current_pid =
  match current_pid with
  | Some pid =>
      if RootCauseAnalyzer.truthy_pid current_pid && bool_decide (pid ∉ visited) then
        match proc_map !! Some pid with
        | Some proc => tree ++ [RootCauseAnalyzer.tree_node pid proc]
        | None => tree
        end
      else tree
  | None => tree
  end.
Proof.
  simpl. destruct current_pid as [pid |]; [| reflexivity].
  destruct (_ && _); [| reflexivity].
  destruct (proc_map !! Some pid) as [proc |]; [| reflexivity].
  rewrite (bool_decide_eq_true_2 (Py.get (Process.ppid proc) = Py.get (Process.ppid proc)))
    by reflexivity.
  rewrite orb_true_r. reflexivity.
Qed.

(** Hence the tree never holds more than the starting process. *)
Lemma build_process_tree_at_most_one (target_pid : Z)
    (current_processes : list Process.t) :
  (length (RootCauseAnalyzer._build_process_tree target_pid current_processes) <= 1)%nat.
Proof.
  unfold RootCauseAnalyzer._build_process_tree.
  rewrite length_rev, walk_one_iteration.
  destruct (_ && _); [| simpl; lia].
  destruct (_ !! _); simpl; lia.
Qed.

(** C5 fails on the code.  For python (200), child of bash (100), child of
    systemd (1), all three in the snapshot, the chain of the specification
    is systemd, bash, python; [_build_process_tree] returns python alone. *)
Theorem process_tree_stops_at_first_node :
  (TreeNode.pid <$> process_tree_by_spec 200 Example.snapshot) = [1; 100; 200] /\
  (TreeNode.pid <$> RootCauseAnalyzer._build_process_tree 200 Example.snapshot) = [200] /\
  RootCauseAnalyzer._build_process_tree 200 Example.snapshot
    <> process_tree_by_spec 200 Example.snapshot.
Proof.
  split; [vm_compute; reflexivity |].
  split; [vm_compute; reflexivity |].
  intros Heq. apply (f_equal length) in Heq. vm_compute in Heq. discriminate.
Qed.

(** A ppid cycle (7 -> 8 -> 7): the chain of the specification ends after
    both processes; the code returns the first one. *)
Example process_tree_on_a_cycle :
  let cycle := [Example.process 7 "a" (Py.Val 1%Q) 0 8;
                Example.process 8 "b" (Py.Val 1%Q) 0 7] in
  (TreeNode.pid <$> process_tree_by_spec 7 cycle) = [8; 7] /\
  (TreeNode.pid <$> RootCauseAnalyzer._build_process_tree 7 cycle) = [7].
Proof. split; vm_compute; reflexivity. Qed.

(** The chain of the specification meets no pid twice. *)
Lemma chain_by_spec_fresh (fuel : nat) (proc_map : gmap (option Z) Process.t) :
  forall (visited : gset Z) (pid : option Z),
    NoDup (TreeNode.pid <$> chain_by_spec fuel proc_map visited pid) /\
    Forall (fun n => n ∉ visited)
           (TreeNode.pid <$> chain_by_spec fuel proc_map visited pid).
Proof.
  induction fuel as [| fuel IH]; intros visited pid; simpl.
  - destruct pid; split; constructor.
  - destruct pid as [n |]; [| split; constructor].
    destruct (RootCauseAnalyzer.truthy_pid (Some n) && bool_decide (n ∉ visited))
      eqn:Eguard; [| split; constructor].
    apply andb_true_iff in Eguard as [_ Hfresh].
    apply bool_decide_eq_true in Hfresh.
    destruct (proc_map !! Some n) as [proc |]; [| split; constructor].
    destruct (IH ({[n]} ∪ visited) (Py.get (Process.ppid proc))) as [Hnd Hout].
    simpl. split.
    + constructor; [| exact Hnd].
      intros Hin. rewrite Forall_forall in Hout.
      apply (Hout n Hin). apply elem_of_union_l, elem_of_singleton. reflexivity.
    + constructor; [exact Hfresh |].
      eapply Forall_impl; [exact Hout |].
      intros m Hm Hv. apply Hm, elem_of_union_r, Hv.
Qed.

(** *** The fuel of the specification's chain *)

Lemma unvisited_shrinks (proc_map : gmap (option Z) Process.t) (visited : gset Z)
    (n : Z) (proc : Process.t) :
  n ∉ visited ->
  proc_map !! Some n = Some proc ->
  (size (unvisited proc_map ({[n]} ∪ visited)) < size (unvisited proc_map visited))%nat.
Proof.
  intros Hfresh Hlook. apply subset_size. unfold unvisited.
  assert (Hin : Some n ∈ dom proc_map) by (apply elem_of_dom; eauto).
  split.
  - intros k Hk. apply elem_of_difference in Hk as [Hdom Hnot].
    apply elem_of_difference. split; [exact Hdom |].
    intros Hmap. apply Hnot. apply elem_of_map in Hmap as (m & -> & Hm).
    apply elem_of_map. exists m. split; [reflexivity |].
    apply elem_of_union_r, Hm.
  - intros Hsub. specialize (Hsub (Some n)).
    assert (Hold : Some n ∈ dom proc_map ∖ set_map (C := gset Z) Some visited).
    { apply elem_of_difference. split; [exact Hin |].
      intros Hmap. apply elem_of_map in Hmap as (m & [= <-] & Hm).
      exact (Hfresh Hm). }
    apply Hsub in Hold. apply elem_of_difference in Hold as [_ Hnot].
    apply Hnot, elem_of_map. exists n. split; [reflexivity |].
    apply elem_of_union_l, elem_of_singleton. reflexivity.
Qed.

(** Once the fuel exceeds the number of unvisited keys, more fuel does not
    change the chain: the walk has ended by itself. *)
Lemma chain_by_spec_fuel (proc_map : gmap (option Z) Process.t) (fuel : nat) :
  forall (fuel' : nat) (visited : gset Z) (pid : option Z),
    (size (unvisited proc_map visited) < fuel)%nat ->
    (fuel <= fuel')%nat ->
    chain_by_spec fuel proc_map visited pid = chain_by_spec fuel' proc_map visited pid.
Proof.
  induction fuel as [| fuel IH]; intros fuel' visited pid Hsize Hle; [lia |].
  destruct fuel' as [| fuel']; [lia |].
  cbn [chain_by_spec].
  destruct pid as [n |]; [| reflexivity].
  destruct (RootCauseAnalyzer.truthy_pid (Some n) && bool_decide (n ∉ visited))
    eqn:Eguard; [| reflexivity].
  apply andb_true_iff in Eguard as [_ Hfresh].
  apply bool_decide_eq_true in Hfresh.
  destruct (proc_map !! Some n) as [proc |] eqn:Hlook; [| reflexivity].
  f_equal. apply IH; [| lia].
  pose proof (unvisited_shrinks proc_map visited n proc Hfresh Hlook). lia.
Qed.

Lemma index_by_pid_size (l : list Process.t) :
  (size (dom (RootCauseAnalyzer.index_by_pid l)) <= length l)%nat.
Proof.
  induction l as [| p l IH] using rev_ind; [reflexivity |].
  rewrite index_by_pid_snoc, dom_insert_L, length_app. simpl.
  pose proof (size_union_alt (C := gset (option Z))
                {[Py.get (Process.pid p)]}
                (dom (RootCauseAnalyzer.index_by_pid l))) as Hu.
  rewrite size_singleton in Hu.
  pose proof (subseteq_size
                (dom (RootCauseAnalyzer.index_by_pid l)
                 ∖ {[Py.get (Process.pid p)]})
                (dom (RootCauseAnalyzer.index_by_pid l))) as Hd.
  assert (Hsub : dom (RootCauseAnalyzer.index_by_pid l) ∖ {[Py.get (Process.pid p)]}
                 ⊆ dom (RootCauseAnalyzer.index_by_pid l)).
  { intros k Hk. apply elem_of_difference in Hk as [Hk _]. exact Hk. }
  specialize (Hd Hsub). lia.
Qed.

(** The fuel [process_tree_by_spec] gives its walk is enough. *)
Lemma process_tree_by_spec_fuel (target_pid : Z) (current_processes : list Process.t)
    (extra : nat) :
  rev (chain_by_spec (S (length current_processes) + extra)
         (RootCauseAnalyzer.index_by_pid current_processes) ∅ (Some target_pid))
  = process_tree_by_spec target_pid current_processes.
Proof.
  unfold process_tree_by_spec. f_equal. symmetry.
  apply chain_by_spec_fuel; [| lia].
  pose proof (index_by_pid_size current_processes) as Hsize.
  pose proof (subseteq_size
                (unvisited (RootCauseAnalyzer.index_by_pid current_processes) ∅)
                (dom (RootCauseAnalyzer.index_by_pid current_processes))) as Hu.
  assert (Hsub : unvisited (RootCauseAnalyzer.index_by_pid current_processes) ∅
                 ⊆ dom (RootCauseAnalyzer.index_by_pid current_processes)).
  { intros k Hk. unfold unvisited in Hk.
    apply elem_of_difference in Hk as [Hk _]. exact Hk. }
  specialize (Hu Hsub). lia.
Qed.

(** ** Explain *)

Section Explain.
Context `{FloatText}.



End Explain.



(** When the failure comes later, in the I/O analysis (a process whose name
    is [None]), the ranking and the process tree stored before it stay. *)
Example failed_io_analysis_keeps_ranking :
  exists rc,
    Anomaly.root_cause
      (RootCauseAnalyzer.analyze (H := decimal_text) Example.history_db
         Example.swap_alarm [Example.nameless_reader]) = Some rc /\
    RootCause.summary rc =
      "Root cause analysis failed: 'NoneType' object has no attribute 'lower'" /\
    (Contributor.pid <$> RootCause.top_contributors rc) = [Some 400] /\
    (fmap (M := list) TreeNode.pid <$> RootCause.process_tree rc) = Some [400] /\
    RootCause.io_analysis rc = None.
Proof.
  eexists. split; [vm_compute; reflexivity |]. split_and!; reflexivity.
Qed.

(** A successful explanation of the CPU spike. *)
Example explain_cpu_spike :
  RootCause.summary <$>
    Anomaly.root_cause
      (RootCauseAnalyzer.analyze (H := decimal_text) Example.history_db
         Example.cpu_spike Example.snapshot)
  = Some (Py.join RootCauseAnalyzer.nl
            ["[CRITICAL] Cpu Percent at 97.0% is 4.7 std devs above normal";
             "";
             "Top contributors:";
             "  1. python (PID 200): 95.0% CPU (new process)";
             "  2. bash (PID 100): 1.0% CPU";
             "  3. systemd (PID 1): 0.5% CPU";
             "  4. kworker (PID 300): 0.0% CPU (new process)";
             "";
             "  Top 3 processes account for 96.5% CPU"]).
Proof. vm_compute. reflexivity. Qed.

(** * Further properties of the code *)

(** ** Time contexts *)

(** X1.  Whatever the datetime, [get_time_context] answers one of the six
    contexts for which [update_baselines] keeps baselines: a sample never
    looks up a context that no refresh maintains. *)
Theorem time_context_is_refreshed (dt : Z) :
  Utils.get_time_context dt ∈ Analyzer.contexts.
Proof.
  unfold Utils.get_time_context, Analyzer.contexts.
  apply list_elem_of_In.
  destruct (Utils.weekday dt <? 5).
  - destruct ((6 <=? Utils.hour dt) && (Utils.hour dt <=? 11)); [simpl; tauto |].
    destruct ((12 <=? Utils.hour dt) && (Utils.hour dt <=? 17)); [simpl; tauto |].
    destruct ((18 <=? Utils.hour dt) && (Utils.hour dt <=? 22)); simpl; tauto.
  - destruct ((8 <=? Utils.hour dt) && (Utils.hour dt <=? 20)); simpl; tauto.
Qed.

Lemma weekday_week_later (dt weeks : Z) :
  Utils.weekday (dt + weeks * (7 * Utils.us_per_day)) = Utils.weekday dt.
Proof.
  unfold Utils.weekday.
  replace (dt + weeks * (7 * Utils.us_per_day))
    with (dt + (weeks * 7) * Utils.us_per_day) by lia.
  rewrite Z.div_add by discriminate.
  replace (dt / Utils.us_per_day + weeks * 7 + 3)
    with (dt / Utils.us_per_day + 3 + weeks * 7) by lia.
  apply Z.mod_add. discriminate.
Qed.

Lemma hour_week_later (dt weeks : Z) :
  Utils.hour (dt + weeks * (7 * Utils.us_per_day)) = Utils.hour dt.
Proof.
  unfold Utils.hour.
  replace (dt + weeks * (7 * Utils.us_per_day))
    with (dt + (weeks * 7) * Utils.us_per_day) by lia.
  rewrite Z.mod_add by discriminate. reflexivity.
Qed.

(** X2.  The context repeats week after week: a datetime and the same
    datetime any whole number of weeks away fall in the same context, so a
    baseline learned over past weeks is the one a sample of this week is
    compared with. *)
Theorem time_context_weekly (dt weeks : Z) :
  Utils.get_time_context (dt + weeks * (7 * Utils.us_per_day))
  = Utils.get_time_context dt.
Proof.
  unfold Utils.get_time_context.
  rewrite weekday_week_later, hour_week_later. reflexivity.
Qed.

(** ** Severity *)

Lemma classify_proper (a : Analyzer.t) (x y : Q) :
  (x == y)%Q -> Analyzer._classify_severity a x = Analyzer._classify_severity a y.
Proof.
  intros Hxy. unfold Analyzer._classify_severity, Py.ge.
  rewrite !(Qleb_comp _ _ (Qeq_refl _) x y Hxy). reflexivity.
Qed.

(** X3.  Severity never decreases when the deviation grows: for any
    configured cutoffs, ordered or not, a larger [|z|] is classified at
    least as high. *)
Theorem severity_monotone (a : Analyzer.t) (x y : Q) :
  (x <= y)%Q ->
  (rank (Analyzer._classify_severity a x) <= rank (Analyzer._classify_severity a y))%nat.
Proof.
  intros Hxy.
  destruct (classify_highest_tier a x) as [Hreach _].
  destruct (classify_highest_tier a y) as [_ Hmax].
  destruct (Analyzer._classify_severity a x) eqn:Ex; [simpl; lia | | | |].
  all: apply Hmax; unfold reached in *;
    specialize (Hreach ltac:(discriminate)); simpl in *; lra.
Qed.

Lemma severity_monotone_witness :
  (2.2 <= 3.5)%Q /\
  (rank (Analyzer._classify_severity Example.fresh_analyzer 2.2)
   <= rank (Analyzer._classify_severity Example.fresh_analyzer 3.5))%nat.
Proof.
  assert (Hle : (2.2 <= 3.5)%Q) by lra.
  split; [exact Hle |].
  exact (severity_monotone Example.fresh_analyzer 2.2 3.5 Hle).
Defined.

Lemma zscore_positive (value mean std_dev : Q) :
  (0 < std_dev)%Q ->
  Py.gt ((value - mean) / std_dev) 0 = true <-> (mean < value)%Q.
Proof.
  intros Hs. rewrite gt_spec. split.
  - intros Hz.
    destruct (Qlt_le_dec mean value) as [Hlt | Hle]; [exact Hlt | exfalso].
    assert (Hnp : ((value - mean) / std_dev <= 0)%Q).
    { apply Qle_shift_div_r; [exact Hs | lra]. }
    lra.
  - intros Hlt. apply Qlt_shift_div_l; [exact Hs | lra].
Qed.

Section Direction.
Context `{FloatText}.

(** X4.  The type of a z-score anomaly follows the side of the baseline the
    value lies on: for each monitored metric, a value above the mean gives
    the spike or pressure type, a value at or below it the drop type. *)
Theorem zscore_type_follows_direction (a : Analyzer.t) (timestamp : Z)
    (metric up down : string) (value : Q) (baseline : Baseline.t)
    (context : string) (an : Anomaly.t) :
  (0 < Baseline.std_dev baseline)%Q ->
  (metric, (up, down)) ∈ direction_types ->
  Analyzer._check_zscore a timestamp metric value baseline context = Py.Ok (Some an) ->
  ((Baseline.mean baseline < value)%Q -> Anomaly.anomaly_type an = up) /\
  ((value <= Baseline.mean baseline)%Q -> Anomaly.anomaly_type an = down).
Proof.
  intros Hs Hin Hcheck.
  unfold Analyzer._check_zscore in Hcheck.
  destruct (Qeq_bool (Baseline.std_dev baseline) 0); [discriminate |].
  assert (Htype : Anomaly.anomaly_type an =
                  Analyzer._get_anomaly_type metric
                    ((value - Baseline.mean baseline) / Baseline.std_dev baseline)).
  { destruct (Analyzer._classify_severity a _); inversion Hcheck; reflexivity. }
  rewrite Htype. clear Hcheck Htype.
  unfold direction_types in Hin. apply list_elem_of_In in Hin. simpl in Hin.
  destruct (Py.gt ((value - Baseline.mean baseline) / Baseline.std_dev baseline) 0)
    eqn:Egt.
  - assert (Hlt : (Baseline.mean baseline < value)%Q)
      by (apply (zscore_positive _ _ _ Hs), Egt).
    split; [intros _ | intros Hle; lra].
    destruct Hin as [[= <- <- <-] | [[= <- <- <-] | [[= <- <- <-] | []]]];
      unfold Analyzer._get_anomaly_type; simpl; rewrite Egt; reflexivity.
  - assert (Hle : (value <= Baseline.mean baseline)%Q).
    { destruct (Qlt_le_dec (Baseline.mean baseline) value) as [Hlt | Hle];
        [| exact Hle].
      apply (zscore_positive _ _ _ Hs) in Hlt. congruence. }
    split; [intros Hlt; lra | intros _].
    destruct Hin as [[= <- <- <-] | [[= <- <- <-] | [[= <- <- <-] | []]]];
      unfold Analyzer._get_anomaly_type; simpl; rewrite Egt; reflexivity.
Qed.

(** X5.  Severity is symmetric around the mean: two values at the same
    distance from the baseline mean, one above and one below, are checked
    without error and get the same severity (reported or not alike). *)
Theorem zscore_severity_symmetric (a : Analyzer.t) (timestamp : Z) (metric : string)
    (value value' : Q) (baseline : Baseline.t) (context : string) :
  ~ (Baseline.std_dev baseline == 0)%Q ->
  (value - Baseline.mean baseline == Baseline.mean baseline - value')%Q ->
  exists r r',
    Analyzer._check_zscore a timestamp metric value baseline context = Py.Ok r /\
    Analyzer._check_zscore a timestamp metric value' baseline context = Py.Ok r' /\
    (Anomaly.severity <$> r) = (Anomaly.severity <$> r').
Proof.
  intros Hs Hsym.
  unfold Analyzer._check_zscore.
  destruct (Qeq_bool (Baseline.std_dev baseline) 0) eqn:E0.
  { apply Qeq_bool_iff in E0. contradiction. }
  assert (Habs : (Qabs ((value - Baseline.mean baseline) / Baseline.std_dev baseline)
                  == Qabs ((value' - Baseline.mean baseline) / Baseline.std_dev baseline))%Q).
  { rewrite <- (Qabs_opp ((value' - Baseline.mean baseline) / Baseline.std_dev baseline)).
    apply Qabs_wd. rewrite Hsym. field. exact Hs. }
  rewrite (classify_proper a _ _ Habs).
  destruct (Analyzer._classify_severity a _);
    eexists; eexists; (split; [reflexivity |]); (split; [reflexivity |]); reflexivity.
Qed.

End Direction.

(** 85 against a mean of 50 is a CPU spike. *)
Lemma zscore_type_follows_direction_witness :
  (0 < Baseline.std_dev Example.cpu_baseline)%Q /\
  ("cpu_percent", ("cpu_spike", "cpu_drop")) ∈ direction_types /\
  exists an,
    Analyzer._check_zscore (H := decimal_text) Example.fresh_analyzer 0
      "cpu_percent" 85 Example.cpu_baseline "weekday_night" = Py.Ok (Some an) /\
    Anomaly.anomaly_type an = "cpu_spike".
Proof.
  assert (Hs : (0 < Baseline.std_dev Example.cpu_baseline)%Q) by (simpl; lra).
  assert (Hin : ("cpu_percent", ("cpu_spike", "cpu_drop")) ∈ direction_types).
  { apply list_elem_of_In. simpl. auto. }
  split; [exact Hs |]. split; [exact Hin |].
  eexists. split; [vm_compute; reflexivity |].
  refine (proj1 (zscore_type_follows_direction (H := decimal_text)
                   Example.fresh_analyzer 0 "cpu_percent" "cpu_spike" "cpu_drop"
                   85 Example.cpu_baseline "weekday_night" _ Hs Hin _) _).
  - vm_compute. reflexivity.
  - simpl. lra.
Defined.

(** 85 and 15 lie 35 away from a mean of 50: both are critical. *)
Lemma zscore_severity_symmetric_witness :
  ~ (Baseline.std_dev Example.cpu_baseline == 0)%Q /\
  (85 - Baseline.mean Example.cpu_baseline
   == Baseline.mean Example.cpu_baseline - 15)%Q /\
  exists r r',
    Analyzer._check_zscore (H := decimal_text) Example.fresh_analyzer 0
      "cpu_percent" 85 Example.cpu_baseline "weekday_night" = Py.Ok r /\
    Analyzer._check_zscore (H := decimal_text) Example.fresh_analyzer 0
      "cpu_percent" 15 Example.cpu_baseline "weekday_night" = Py.Ok r' /\
    (Anomaly.severity <$> r) = (Anomaly.severity <$> r').
Proof.
  assert (Hs : ~ (Baseline.std_dev Example.cpu_baseline == 0)%Q)
    by (simpl; intros Hz; lra).
  assert (Hsym : (85 - Baseline.mean Example.cpu_baseline
                  == Baseline.mean Example.cpu_baseline - 15)%Q)
    by (simpl; lra).
  split; [exact Hs |]. split; [exact Hsym |].
  exact (zscore_severity_symmetric (H := decimal_text) Example.fresh_analyzer 0
           "cpu_percent" 85 15 Example.cpu_baseline "weekday_night" Hs Hsym).
Defined.

(** ** History buffers *)

Lemma pop_older_split (cutoff : Z) (history : list (Z * Q)) :
  exists old,
    history = old ++ Analyzer.pop_older cutoff history /\
    Forall (fun e : Z * Q => e.1 < cutoff) old /\
    match Analyzer.pop_older cutoff history with
    | [] => True
    | e :: _ => cutoff <= e.1
    end.
Proof.
  induction history as [| [ts val] history IH].
  - exists []. repeat split. constructor.
  - cbn [Analyzer.pop_older].
    destruct (ts <? cutoff) eqn:E.
    + apply Z.ltb_lt in E.
      destruct IH as (old & Heq & Hold & Hhead).
      exists ((ts, val) :: old). split; [simpl; congruence |].
      split; [constructor; assumption | exact Hhead].
    + apply Z.ltb_ge in E. exists []. repeat split; [constructor | exact E].
Qed.

(** X6.  [_trim_history] only pops from the front: what it returns is the
    buffer without a prefix of entries that are all older than
    [now - max_age], and the entry it stops at is not older than that.
    Entries behind that one are kept whatever their age. *)
Theorem trim_history_pops_front (now : Z) (history : list (Z * Q)) (max_age : Z) :
  exists old,
    history = old ++ Analyzer._trim_history now history max_age /\
    Forall (fun e : Z * Q => e.1 < now - max_age) old /\
    match Analyzer._trim_history now history max_age with
    | [] => True
    | e :: _ => now - max_age <= e.1
    end.
Proof.
  unfold Analyzer._trim_history.
  destruct history as [| e history].
  - exists []. repeat split. constructor.
  - apply pop_older_split.
Qed.

Lemma filter_all {A} (P : A -> Prop) `{forall x, Decision (P x)} (l : list A) :
  Forall P l -> filter P l = l.
Proof.
  induction 1 as [| x l Hx _ IH]; [reflexivity |].
  rewrite filter_cons_True by exact Hx. f_equal. exact IH.
Qed.

Lemma pop_older_chronological (cutoff : Z) (history : list (Z * Q)) :
  chronological history ->
  Analyzer.pop_older cutoff history
  = filter (fun e : Z * Q => cutoff <= e.1) history.
Proof.
  unfold chronological.
  induction history as [| [ts val] history IH]; intros Hs; [reflexivity |].
  apply StronglySorted_cons in Hs as [Hall Hs].
  cbn [Analyzer.pop_older]. rewrite filter_cons. cbn [fst].
  destruct (ts <? cutoff) eqn:E.
  - apply Z.ltb_lt in E. rewrite decide_False by lia. apply IH, Hs.
  - apply Z.ltb_ge in E. rewrite decide_True by exact E.
    f_equal. symmetry. apply filter_all.
    eapply Forall_impl; [exact Hall |]. simpl. intros e He. lia.
Qed.

(** X7.  On a buffer whose timestamps never decrease, [_trim_history] keeps
    exactly the entries that are at most [max_age] old: nothing stale stays
    and nothing fresh is lost. *)
Theorem trim_history_chronological (now : Z) (history : list (Z * Q)) (max_age : Z) :
  chronological history ->
  Analyzer._trim_history now history max_age
  = filter (fun e : Z * Q => now - max_age <= e.1) history.
Proof.
  intros Hs. unfold Analyzer._trim_history.
  destruct history as [| e history]; [reflexivity |].
  apply pop_older_chronological, Hs.
Qed.

(** Two and a half hours in, a two-hour window drops the first of three
    hourly samples. *)
Lemma trim_history_chronological_witness :
  chronological Cases.hourly_buffer /\
  Analyzer._trim_history (Utils.minutes 150) Cases.hourly_buffer (Utils.hours 2)
  = [(Utils.hours 1, 200%Q); (Utils.hours 2, 300%Q)].
Proof.
  assert (Hs : chronological Cases.hourly_buffer).
  { unfold chronological, Cases.hourly_buffer.
    repeat first [apply SSorted_nil | apply SSorted_cons
                 | apply List.Forall_nil | apply List.Forall_cons];
      cbn [fst]; unfold Utils.hours, Utils.us_per_hour, Utils.us_per_second; lia. }
  split; [exact Hs |].
  rewrite (trim_history_chronological (Utils.minutes 150) Cases.hourly_buffer
             (Utils.hours 2) Hs).
  reflexivity.
Defined.

Section Detection.
Context `{FloatText}.

Lemma memory_leak_shape (now : Z) (a : Analyzer.t) (timestamp : Z) (an : Anomaly.t) :
  Analyzer._detect_memory_leak now a timestamp = Some an ->
  Anomaly.anomaly_type an = "memory_leak" /\ Anomaly.timestamp an = timestamp.
Proof.
  unfold Analyzer._detect_memory_leak.
  repeat match goal with
         | |- context [if ?b then _ else _] => destruct b; try discriminate
         end.
  all: intros [= <-]; split; reflexivity.
Qed.

Lemma swap_thrashing_shape (a : Analyzer.t) (timestamp : Z) (an : Anomaly.t) :
  Analyzer._detect_swap_thrashing a timestamp = Some an ->
  Anomaly.anomaly_type an = "swap_thrashing" /\ Anomaly.timestamp an = timestamp.
Proof.
  unfold Analyzer._detect_swap_thrashing.
  repeat match goal with
         | |- context [if ?b then _ else _] => destruct b; try discriminate
         end.
  intros [= <-]; split; reflexivity.
Qed.

Lemma trim_history_suffix (now : Z) (history : list (Z * Q)) (max_age : Z) :
  Analyzer._trim_history now history max_age `suffix_of` history.
Proof.
  unfold Analyzer._trim_history.
  destruct history as [| e history]; [exists []; reflexivity |].
  destruct (pop_older_split (now - max_age) (e :: history)) as (old & Heq & _).
  exists old. exact Heq.
Qed.

(** X8.  [_detect_trends] touches nothing but the two buffers.  A sample
    without [memory_used] leaves the memory buffer exactly as it was (it is
    not even trimmed); a sample with it is appended and the buffer then
    loses entries from its front only.  The same holds for [swap_used] and
    the swap buffer. *)
Theorem detect_trends_buffers (clock : Analyzer.Clock) (a : Analyzer.t)
    (timestamp : Z) (system_metrics : gmap string Q) :
  let a' := (Analyzer._detect_trends clock a timestamp system_metrics).2 in
  Analyzer.baselines_cache a' = Analyzer.baselines_cache a /\
  Analyzer.last_baseline_update a' = Analyzer.last_baseline_update a /\
  Analyzer.severity_levels a' = Analyzer.severity_levels a /\
  match system_metrics !! "memory_used" with
  | None => Analyzer.memory_history a' = Analyzer.memory_history a
  | Some v =>
      fed_and_trimmed (Analyzer.memory_history a) (Analyzer.memory_history a')
        (timestamp, v)
  end /\
  match system_metrics !! "swap_used" with
  | None => Analyzer.swap_history a' = Analyzer.swap_history a
  | Some v =>
      fed_and_trimmed (Analyzer.swap_history a) (Analyzer.swap_history a')
        (timestamp, v)
  end.
Proof.
  intros a'. subst a'. unfold Analyzer._detect_trends, fed_and_trimmed. simpl.
  split_and!; try reflexivity.
  - destruct (system_metrics !! "memory_used"); [apply trim_history_suffix | reflexivity].
  - destruct (system_metrics !! "swap_used"); [apply trim_history_suffix | reflexivity].
Qed.

End Detection.

(** ** The detector as a whole *)

Section Analyze.
Context `{FloatText}.

Lemma check_zscore_reported (a : Analyzer.t) (timestamp : Z) (metric : string)
    (value : Q) (baseline : Baseline.t) (context : string) (an : Anomaly.t) :
  Analyzer._check_zscore a timestamp metric value baseline context = Py.Ok (Some an) ->
  Anomaly.metric_name an = metric /\ Anomaly.timestamp an = timestamp.
Proof.
  unfold Analyzer._check_zscore.
  destruct (Qeq_bool _ 0); [discriminate |].
  destruct (Analyzer._classify_severity a _); intros Heq; inversion Heq;
    split; reflexivity.
Qed.

Lemma check_zscore_outcome (a : Analyzer.t) (timestamp : Z) (metric : string)
    (value : Q) (baseline : Baseline.t) (context : string) :
  (exists r, Analyzer._check_zscore a timestamp metric value baseline context = Py.Ok r
             /\ ~ (Baseline.std_dev baseline == 0)%Q)
  \/ (Analyzer._check_zscore a timestamp metric value baseline context
        = Py.Raise "float division by zero"
      /\ (Baseline.std_dev baseline == 0)%Q).
Proof.
  unfold Analyzer._check_zscore.
  destruct (Qeq_bool (Baseline.std_dev baseline) 0) eqn:E.
  - right. split; [reflexivity | apply Qeq_bool_iff, E].
  - left. apply Qeq_bool_neq in E.
    destruct (Analyzer._classify_severity a _); eexists; split;
      first [reflexivity | exact E].
Qed.

Lemma zscore_anomalies_names (a : Analyzer.t) (timestamp : Z)
    (system_metrics : gmap string Q) (context : string) (metrics : list string) :
  forall out,
    Analyzer.zscore_anomalies a timestamp system_metrics context metrics = Py.Ok out ->
    (Anomaly.metric_name <$> out) `sublist_of` metrics /\
    Forall (fun an => Anomaly.timestamp an = timestamp) out.
Proof.
  induction metrics as [| metric rest IH]; intros out; cbn [Analyzer.zscore_anomalies].
  - intros [= <-]. split; constructor.
  - destruct (system_metrics !! metric) as [value |].
    2: { intros Hrest. destruct (IH _ Hrest) as [Hsub Hts].
         split; [apply sublist_cons, Hsub | exact Hts]. }
    destruct (Analyzer.get_baseline a metric context) as [baseline |].
    2: { intros Hrest. destruct (IH _ Hrest) as [Hsub Hts].
         split; [apply sublist_cons, Hsub | exact Hts]. }
    unfold mbind, result_bind. unfold Py.bind at 1.
    destruct (Analyzer._check_zscore a timestamp metric value baseline context)
      as [r | e] eqn:Ec; [| discriminate].
    unfold Py.bind.
    destruct (Analyzer.zscore_anomalies a timestamp system_metrics context rest)
      as [others | e]; [| discriminate].
    intros [= <-]. destruct (IH _ eq_refl) as [Hsub Hts].
    destruct r as [an |].
    + destruct (check_zscore_reported _ _ _ _ _ _ _ Ec) as [Hname Htime].
      split.
      * rewrite fmap_cons, Hname. apply sublist_skip, Hsub.
      * constructor; assumption.
    + split; [apply sublist_cons, Hsub | exact Hts].
Qed.

Lemma zscore_anomalies_outcome (a : Analyzer.t) (timestamp : Z)
    (system_metrics : gmap string Q) (metrics : list string) :
  let context := Utils.get_time_context timestamp in
  (exists out,
     Analyzer.zscore_anomalies a timestamp system_metrics context metrics = Py.Ok out
     /\ ~ zero_std_dev_met a timestamp system_metrics metrics)
  \/ (Analyzer.zscore_anomalies a timestamp system_metrics context metrics
        = Py.Raise "float division by zero"
      /\ zero_std_dev_met a timestamp system_metrics metrics).
Proof.
  intros context. unfold zero_std_dev_met. fold context.
  induction metrics as [| metric rest IH]; cbn [Analyzer.zscore_anomalies].
  - left. eexists. split; [reflexivity |].
    intros (m & v & b & Hin & _). inversion Hin.
  - assert (Hskip :
      (system_metrics !! metric = None \/
       Analyzer.get_baseline a metric context = None) ->
      (exists m v b, m ∈ metric :: rest /\ system_metrics !! m = Some v /\
                     Analyzer.get_baseline a m context = Some b /\
                     (Baseline.std_dev b == 0)%Q) ->
      exists m v b, m ∈ rest /\ system_metrics !! m = Some v /\
                    Analyzer.get_baseline a m context = Some b /\
                    (Baseline.std_dev b == 0)%Q).
    { intros Hnone (m & v & b & Hin & Hv & Hb & Hz).
      apply elem_of_cons in Hin as [-> | Hin].
      - destruct Hnone as [Hn | Hn]; congruence.
      - exists m, v, b. auto. }
    assert (Hlift :
      (exists m v b, m ∈ rest /\ system_metrics !! m = Some v /\
                     Analyzer.get_baseline a m context = Some b /\
                     (Baseline.std_dev b == 0)%Q) ->
      exists m v b, m ∈ metric :: rest /\ system_metrics !! m = Some v /\
                    Analyzer.get_baseline a m context = Some b /\
                    (Baseline.std_dev b == 0)%Q).
    { intros (m & v & b & Hin & Hrest). exists m, v, b.
      split; [right; exact Hin | exact Hrest]. }
    destruct (system_metrics !! metric) as [value |] eqn:Ev.
    2: { destruct IH as [(out & Hout & Hno) | (Hraise & Hyes)].
         - left. exists out. split; [exact Hout |].
           intros Hbad. apply Hno, Hskip; [left; reflexivity | exact Hbad].
         - right. split; [exact Hraise | apply Hlift, Hyes]. }
    destruct (Analyzer.get_baseline a metric context) as [baseline |] eqn:Eb.
    2: { destruct IH as [(out & Hout & Hno) | (Hraise & Hyes)].
         - left. exists out. split; [exact Hout |].
           intros Hbad. apply Hno, Hskip; [right; reflexivity | exact Hbad].
         - right. split; [exact Hraise | apply Hlift, Hyes]. }
    unfold mbind, result_bind. unfold Py.bind at 1.
    destruct (check_zscore_outcome a timestamp metric value baseline context)
      as [(r & Hr & Hnz) | (Hraise & Hz)].
    + rewrite Hr. unfold Py.bind.
      destruct IH as [(out & Hout & Hno) | (Hraise & Hyes)].
      * left. rewrite Hout. eexists. split; [reflexivity |].
        intros (m & v & b & Hin & Hv & Hb & Hzero).
        apply elem_of_cons in Hin as [-> | Hin].
        -- rewrite Eb in Hb. injection Hb as <-. contradiction.
        -- apply Hno. exists m, v, b. auto.
      * right. rewrite Hraise. split; [reflexivity | apply Hlift, Hyes].
    + right. rewrite Hraise. split; [reflexivity |].
      exists metric, value, baseline. split; [left | auto].
Qed.

(** X9.  What [analyze] returns is ordered: first the z-score anomalies, at
    most one per monitored metric and in the order of [MONITORED_METRICS],
    none of them normal or low; then the trend anomalies, a memory leak
    before a swap thrashing.  All carry the timestamp of the sample. *)
Theorem analyze_output_order (clock : Analyzer.Clock) (a : Analyzer.t)
    (timestamp : Z) (system_metrics : gmap string Q)
    (out : list Anomaly.t) (a' : Analyzer.t) :
  Analyzer.analyze clock a timestamp system_metrics = Py.Ok (out, a') ->
  exists zscores trends,
    out = zscores ++ trends /\
    (Anomaly.metric_name <$> zscores) `sublist_of` Analyzer.MONITORED_METRICS /\
    Forall (fun an => Anomaly.severity an <> Normal /\ Anomaly.severity an <> Low)
           zscores /\
    (Anomaly.anomaly_type <$> trends) `sublist_of` ["memory_leak"; "swap_thrashing"] /\
    Forall (fun an => Anomaly.timestamp an = timestamp) out.
Proof.
  unfold Analyzer.analyze, mbind, result_bind, Py.bind.
  destruct (Analyzer.zscore_anomalies a timestamp system_metrics
              (Utils.get_time_context timestamp) Analyzer.MONITORED_METRICS)
    as [zscores | e] eqn:Ez; [| discriminate].
  destruct (Analyzer._detect_trends clock a timestamp system_metrics)
    as [trends a''] eqn:Et.
  intros [= <- <-].
  destruct (zscore_anomalies_names _ _ _ _ _ _ Ez) as [Hnames Htimes].
  pose proof (zscore_anomalies_severity _ _ _ _ _ _ Ez) as Hsev.
  unfold Analyzer._detect_trends in Et. injection Et as <- _.
  exists zscores. eexists. split; [reflexivity |].
  split; [exact Hnames |]. split; [exact Hsev |].
  set (a1 := Analyzer.set_histories a _ _).
  destruct (Analyzer._detect_memory_leak (Analyzer.now_leak clock) a1 timestamp)
    as [leak |] eqn:El;
    destruct (Analyzer._detect_swap_thrashing a1 timestamp) as [thrash |] eqn:Es;
    simpl.
  all: try (apply memory_leak_shape in El as [Hlt Hls]).
  all: try (apply swap_thrashing_shape in Es as [Hst Hss]).
  all: split;
    [ rewrite ?Hlt, ?Hst;
      repeat first [apply sublist_nil | apply sublist_skip | apply sublist_cons]
    | apply Forall_app; split; [exact Htimes |];
      repeat constructor; assumption ].
Qed.

(** X10.  The only exception [analyze] lets out is the division by a zero
    [std_dev]: it raises exactly when a monitored metric that has a value in
    the sample has, for the context of the sample, a cached baseline whose
    [std_dev] is zero; otherwise it returns.  In particular it returns
    whenever every cached baseline keeps the floor of 0.01. *)
Theorem analyze_raises_on_zero_std_dev_only (clock : Analyzer.Clock) (a : Analyzer.t)
    (timestamp : Z) (system_metrics : gmap string Q) :
  ((exists e, Analyzer.analyze clock a timestamp system_metrics = Py.Raise e) <->
   zero_std_dev_met a timestamp system_metrics Analyzer.MONITORED_METRICS) /\
  (forall e, Analyzer.analyze clock a timestamp system_metrics = Py.Raise e ->
             e = "float division by zero") /\
  (floor_ok (Analyzer.baselines_cache a) ->
   exists out a', Analyzer.analyze clock a timestamp system_metrics = Py.Ok (out, a')).
Proof.
  unfold Analyzer.analyze, mbind, result_bind, Py.bind.
  destruct (zscore_anomalies_outcome a timestamp system_metrics
              Analyzer.MONITORED_METRICS) as [(zs & Hzs & Hno) | (Hraise & Hyes)].
  - rewrite Hzs.
    destruct (Analyzer._detect_trends clock a timestamp system_metrics)
      as [trends a'].
    split_and!.
    + split; [intros [e [=]] | intros Hbad; contradiction].
    + intros e [=].
    + intros _. eexists. eexists. reflexivity.
  - rewrite Hraise. split_and!.
    + split; [intros _; exact Hyes | intros _; eexists; reflexivity].
    + intros e [= <-]. reflexivity.
    + intros Hfloor. destruct Hyes as (m & v & b & _ & _ & Hb & Hz).
      specialize (Hfloor _ _ Hb). lra.
Qed.

End Analyze.

(** ** Baselines: reductions *)

Lemma fold_min_le (acc : Q) (l : list Q) :
  let m := foldl (fun m y => if Py.lt y m then y else m) acc l in
  (m <= acc)%Q /\ Forall (fun y => (m <= y)%Q) l.
Proof.
  revert acc. induction l as [| x l IH]; intros acc; simpl.
  - split; [lra | constructor].
  - destruct (Py.lt x acc) eqn:E.
    + apply lt_spec in E. destruct (IH x) as [Hx Hl].
      split; [lra | constructor; assumption].
    + apply lt_false in E. destruct (IH acc) as [Hacc Hl].
      split; [exact Hacc | constructor; [lra | exact Hl]].
Qed.

Lemma fold_max_ge (acc : Q) (l : list Q) :
  let m := foldl (fun m y => if Py.lt m y then y else m) acc l in
  (acc <= m)%Q /\ Forall (fun y => (y <= m)%Q) l.
Proof.
  revert acc. induction l as [| x l IH]; intros acc; simpl.
  - split; [lra | constructor].
  - destruct (Py.lt acc x) eqn:E.
    + apply lt_spec in E. destruct (IH x) as [Hx Hl].
      split; [lra | constructor; assumption].
    + apply lt_false in E. destruct (IH acc) as [Hacc Hl].
      split; [exact Hacc | constructor; [lra | exact Hl]].
Qed.

Lemma min_max_bound (l : list Q) :
  Forall (fun x => (Np.min l <= x)%Q /\ (x <= Np.max l)%Q) l.
Proof.
  destruct l as [| x l]; [constructor |].
  unfold Np.min, Np.max.
  destruct (fold_min_le x l) as [Hmin Hmins].
  destruct (fold_max_ge x l) as [Hmax Hmaxs].
  constructor; [split; assumption |].
  apply Forall_forall. intros y Hy.
  rewrite Forall_forall in Hmins, Hmaxs. split; auto.
Qed.

(** ** Baselines: refresh, load and lookup *)

Lemma load_rows_lookup (rows : list BaselineRow.t) (metric context : string) :
  foldl Analyzer.load_row ∅ rows !! (metric, context)
  = row_baseline <$> row_for rows metric context.
Proof.
  unfold row_for.
  induction rows as [| row rows IH] using rev_ind; [reflexivity |].
  rewrite foldl_app, filter_app, filter_cons, filter_nil. cbn [foldl].
  unfold Analyzer.load_row at 1.
  destruct (decide ((BaselineRow.metric_name row, BaselineRow.context row)
                    = (metric, context))) as [Heq | Hne].
  - rewrite Heq, lookup_insert_eq, last_snoc. reflexivity.
  - rewrite lookup_insert_ne by exact Hne. rewrite app_nil_r. exact IH.
Qed.

(** X11.  What [get_baseline] returns on a new analyzer is what the
    [baselines] table held: for each (metric, context) the last row listed
    with that pair, field for field, and nothing for a pair without a row.
    When the table cannot be read the analyzer starts with no baseline. *)
Theorem load_then_get (config : Analyzer.Config) (db : Db.t) (metric context : string) :
  Analyzer.get_baseline (Analyzer.init config db) metric context =
  match Db.get_all_baselines db with
  | Py.Ok rows => row_baseline <$> row_for rows metric context
  | Py.Raise _ => None
  end.
Proof.
  unfold Analyzer.get_baseline, Analyzer.init, Analyzer._load_baselines_from_db.
  destruct (Db.get_all_baselines db) as [rows | e]; simpl.
  - apply load_rows_lookup.
  - apply lookup_empty.
Qed.

Section BaselineStore.
Context `{Numpy}.

Lemma compute_stats_well_formed (values : list Q) :
  (10 <= length values)%nat -> well_formed (Analyzer.compute_stats values).
Proof.
  intros Hlen. unfold well_formed.
  split_and!.
  - simpl. lia.
  - apply compute_stats_floor.
  - destruct values as [| x values]; [simpl in Hlen; lia |].
    pose proof (min_max_bound (x :: values)) as Hb.
    apply Forall_cons in Hb as [[Hlo Hhi] _].
    cbn [Analyzer.compute_stats Baseline.min Baseline.max]. lra.
Qed.

Lemma refreshed_well_formed (db : Db.t) (days : Z) (metric context : string)
    (stats : Baseline.t) :
  refreshed db days metric context = Some stats -> well_formed stats.
Proof.
  unfold refreshed.
  destruct (Db.get_metric_values_for_context db metric context days)
    as [values | e]; [| discriminate].
  destruct (Z.of_nat (length values) <? 10) eqn:E; [discriminate |].
  apply Z.ltb_ge in E.
  destruct (Db.update_baseline db metric context _); [| discriminate].
  intros [= <-]. apply compute_stats_well_formed. lia.
Qed.

(** X12.  Refresh, then get: after a refresh that is due, a monitored
    (metric, context) pair whose history has at least 10 values, and whose
    write the database accepts, reads back as the statistics of exactly
    those values: their mean, minimum, maximum and count, and their
    standard deviation raised to 0.01 if it is below. *)
Theorem refresh_then_get (now : Z) (force : bool) (db : Db.t) (a : Analyzer.t)
    (metric context : string) (values : list Q) :
  refresh_due now force a ->
  metric ∈ Analyzer.MONITORED_METRICS ->
  context ∈ Analyzer.contexts ->
  Db.get_metric_values_for_context db metric context
    (Analyzer.baseline_history_days a) = Py.Ok values ->
  (10 <= length values)%nat ->
  Db.update_baseline db metric context (Analyzer.compute_stats values) = Py.Ok () ->
  exists b,
    Analyzer.get_baseline (Analyzer.update_baselines now force db a) metric context
      = Some b /\
    Baseline.mean b = Np.mean values /\
    Baseline.min b = Np.min values /\
    Baseline.max b = Np.max values /\
    Baseline.count b = Z.of_nat (length values) /\
    (0.01 <= Baseline.std_dev b)%Q /\
    ((0.01 <= Np.std values)%Q -> Baseline.std_dev b = Np.std values).
Proof.
  intros Hdue Hm Hc Hq Hlen Hw.
  exists (Analyzer.compute_stats values).
  split.
  - unfold Analyzer.get_baseline.
    rewrite update_baselines_cache.
    apply too_soon_false in Hdue. rewrite Hdue.
    rewrite refresh_all_lookup. cbn [fst snd].
    unfold refreshed. rewrite Hq.
    replace (Z.of_nat (length values) <? 10) with false
      by (symmetry; apply Z.ltb_ge; lia).
    rewrite Hw.
    rewrite bool_decide_eq_true_2 by (split; assumption). reflexivity.
  - split_and!; try reflexivity.
    + apply compute_stats_floor.
    + intros Hstd. unfold Analyzer.compute_stats. simpl.
      destruct (Py.lt (Np.std values) 0.01) eqn:E; [| reflexivity].
      apply lt_spec in E. lra.
Qed.

(** X13.  Whatever a refresh changes in the cache is a well-formed
    baseline: an entry that differs from the one held before comes from at
    least 10 samples, has a [std_dev] of at least 0.01 and a minimum that is
    not above its maximum. *)
Theorem refresh_writes_well_formed (now : Z) (force : bool) (db : Db.t)
    (a : Analyzer.t) (key : string * string) (b : Baseline.t) :
  Analyzer.baselines_cache (Analyzer.update_baselines now force db a) !! key = Some b ->
  Analyzer.baselines_cache a !! key <> Some b ->
  well_formed b.
Proof.
  rewrite update_baselines_cache.
  destruct (Analyzer.too_soon now force a); [congruence |].
  rewrite refresh_all_lookup.
  destruct (refreshed db (Analyzer.baseline_history_days a) key.1 key.2)
    as [stats |] eqn:Er; [| congruence].
  destruct (bool_decide _); [| congruence].
  intros [= <-] _. eapply refreshed_well_formed, Er.
Qed.

(** X14.  A refresh never forgets: a pair that had a baseline still has one
    afterwards, and a key that is not a monitored metric with one of the six
    contexts keeps the very entry it had. *)
Theorem refresh_keeps_entries (now : Z) (force : bool) (db : Db.t)
    (a : Analyzer.t) (key : string * string) (b : Baseline.t) :
  Analyzer.baselines_cache a !! key = Some b ->
  let cache' := Analyzer.baselines_cache (Analyzer.update_baselines now force db a) in
  is_Some (cache' !! key) /\
  (~ (key.1 ∈ Analyzer.MONITORED_METRICS /\ key.2 ∈ Analyzer.contexts) ->
   cache' !! key = Some b).
Proof.
  intros Hb cache'. subst cache'. rewrite update_baselines_cache.
  destruct (Analyzer.too_soon now force a); [rewrite Hb; eauto |].
  rewrite refresh_all_lookup.
  destruct (refreshed db (Analyzer.baseline_history_days a) key.1 key.2)
    as [stats |]; [| rewrite Hb; eauto].
  destruct (decide (key.1 ∈ Analyzer.MONITORED_METRICS /\ key.2 ∈ Analyzer.contexts))
    as [Hin | Hout].
  - rewrite bool_decide_eq_true_2 by exact Hin. split; [eauto | contradiction].
  - rewrite bool_decide_eq_false_2 by exact Hout. rewrite Hb. eauto.
Qed.

Section Reachable.
Context `{FloatText}.

(** X15.  The floor is an invariant of a run.  Starting from a database
    whose rows all have [std_dev >= 0.01], and through any sequence of
    refreshes and samples, every cached baseline keeps a [std_dev] of at
    least 0.01; hence feeding a sample to such an analyzer never raises. *)
Theorem reachable_keeps_floor (a : Analyzer.t) :
  reachable a ->
  floor_ok (Analyzer.baselines_cache a) /\
  forall clock timestamp system_metrics,
    exists out a',
      Analyzer.analyze clock a timestamp system_metrics = Py.Ok (out, a').
Proof.
  intros Hreach.
  assert (Hfloor : floor_ok (Analyzer.baselines_cache a)).
  { induction Hreach as [config db Hrows | now force db a _ IH
                        | clock timestamp system_metrics a out a' _ IH Han].
    - unfold Analyzer.init, Analyzer._load_baselines_from_db.
      unfold floored_rows in Hrows.
      destruct (Db.get_all_baselines db) as [rows | e]; simpl.
      + apply load_rows_floor; [| exact Hrows].
        intros key b Hb. rewrite lookup_empty in Hb. discriminate.
      + intros key b Hb. rewrite lookup_empty in Hb. discriminate.
    - apply update_baselines_floor, IH.
    - rewrite (analyze_keeps_cache _ _ _ _ _ _ Han). exact IH. }
  split; [exact Hfloor |].
  intros clock timestamp system_metrics.
  unfold Analyzer.analyze, mbind, result_bind, Py.bind.
  destruct (zscore_anomalies_outcome a timestamp system_metrics
              Analyzer.MONITORED_METRICS) as [(zs & Hzs & _) | (_ & Hbad)].
  - rewrite Hzs.
    destruct (Analyzer._detect_trends clock a timestamp system_metrics).
    eexists. eexists. reflexivity.
  - destruct Hbad as (m & v & b & _ & _ & Hb & Hz).
    specialize (Hfloor _ _ Hb). lra.
Qed.

End Reachable.
End BaselineStore.

(** ** Trend detectors: what a report implies *)

Lemma count_swap_changes_band (lo : Q) (history : list (Z * Q)) :
  within_band lo history -> Analyzer.count_swap_changes history = 0.
Proof.
  unfold within_band.
  induction history as [| [t1 prev] rest IH]; intros Hband; [reflexivity |].
  destruct rest as [| [t2 cur] rest']; [reflexivity |].
  apply Forall_cons in Hband as [Hprev Hrest].
  specialize (IH Hrest).
  apply Forall_cons in Hrest as [Hcur _].
  change (Analyzer.count_swap_changes ((t1, prev) :: (t2, cur) :: rest'))
    with ((if Py.gt (Qabs (cur - prev)) Analyzer.swap_threshold then 1 else 0)
          + Analyzer.count_swap_changes ((t2, cur) :: rest')).
  rewrite IH.
  assert (Hle : (Qabs (cur - prev) <= Analyzer.swap_threshold)%Q).
  { apply Qabs_Qle_condition. simpl in Hprev, Hcur. split; lra. }
  apply gt_false in Hle. rewrite Hle. reflexivity.
Qed.

(** X16.  Swap that stays inside a band of 100 MB never counts as
    thrashing, however long the buffer is. *)
Theorem swap_band_never_thrashes (a : Analyzer.t) (timestamp : Z) (lo : Q) :
  within_band lo (Analyzer.swap_history a) ->
  Analyzer._detect_swap_thrashing a timestamp = None.
Proof.
  intros Hband. unfold Analyzer._detect_swap_thrashing.
  rewrite (count_swap_changes_band lo _ Hband).
  destruct (_ <? 20); [reflexivity |].
  destruct (_ <? 10); [reflexivity |].
  assert (Hle : (inject_Z 0 / inject_Z (Z.of_nat (length (Analyzer.swap_history a)) - 1)
                 <= 0.15)%Q).
  { unfold Qdiv. change (inject_Z 0) with 0%Q. rewrite Qmult_0_l. lra. }
  apply gt_false in Hle. rewrite Hle. reflexivity.
Qed.

(** X17.  A thrashing report needs at least 20 samples in the buffer and at
    least 3 changes of more than 100 MB between consecutive samples. *)
Theorem thrashing_needs_three_changes (a : Analyzer.t) (timestamp : Z)
    (an : Anomaly.t) :
  Analyzer._detect_swap_thrashing a timestamp = Some an ->
  (20 <= length (Analyzer.swap_history a))%nat /\
  3 <= Analyzer.count_swap_changes (Analyzer.swap_history a).
Proof.
  unfold Analyzer._detect_swap_thrashing.
  destruct (_ <? 20) eqn:E1; [discriminate |].
  destruct (_ <? 10) eqn:E2; [discriminate |].
  destruct (Py.gt _ _) eqn:E3; [| discriminate].
  intros _. apply Z.ltb_ge in E1. split; [lia |].
  apply gt_spec in E3.
  set (c := Analyzer.count_swap_changes (Analyzer.swap_history a)) in *.
  set (n := Z.of_nat (length (Analyzer.swap_history a)) - 1) in *.
  destruct (Z_lt_le_dec c 3) as [Hlt | Hge]; [exfalso | exact Hge].
  assert (Hc : (inject_Z c <= 2)%Q)
    by (change 2%Q with (inject_Z 2); rewrite <- Zle_Qle; lia).
  assert (Hn : (19 <= inject_Z n)%Q)
    by (change 19%Q with (inject_Z 19); rewrite <- Zle_Qle; lia).
  assert (Hle : (inject_Z c / inject_Z n <= 0.15)%Q)
    by (apply Qle_shift_div_r; lra).
  lra.
Qed.

Lemma lt_div_mult (b p c : Q) : (0 < c)%Q -> (b < p / c)%Q -> (b * c < p)%Q.
Proof.
  intros Hc Hlt. apply (Qmult_lt_r _ _ c Hc) in Hlt.
  assert (E : (p / c * c == p)%Q) by (field; lra).
  rewrite E in Hlt. exact Hlt.
Qed.

Lemma mul_fraction_le (d r : Q) :
  (0 < r)%Q -> (r <= 1)%Q -> (0 < d)%Q -> (d * r <= d)%Q.
Proof.
  intros. assert (E : (d - d * r == d * (1 - r))%Q) by ring.
  assert (0 <= d * (1 - r))%Q by (apply Qmult_le_0_compat; lra). lra.
Qed.

Lemma mul_fraction_neg (d r : Q) : (0 < r)%Q -> (d <= 0)%Q -> (d * r <= 0)%Q.
Proof.
  intros. assert (E : (d * r == - ((- d) * r))%Q) by ring.
  assert (0 <= (- d) * r)%Q by (apply Qmult_le_0_compat; lra). lra.
Qed.

(** With six slices or more the extrapolation factor [3600 / (n * 600)] is
    at most 1, so the rate per hour is a lower bound of the net growth. *)
Lemma net_growth_bound (averages : list Q) (bound : Q) :
  (6 <= length averages)%nat -> (0 <= bound)%Q ->
  (bound < Analyzer.growth_mb_per_hour averages)%Q ->
  (bound * 1024 * 1024 < List.last averages 0 - hd 0 averages)%Q.
Proof.
  unfold Analyzer.growth_mb_per_hour. intros Hlen Hb Hg.
  set (d := (List.last averages 0 - hd 0 averages)%Q) in *.
  set (N := inject_Z (Z.of_nat (length averages))) in *.
  assert (HN : (6 <= N)%Q)
    by (subst N; change 6%Q with (inject_Z 6); rewrite <- Zle_Qle; lia).
  clearbody N d.
  set (r := (3600 / (N * 600))%Q) in *.
  assert (Hr0 : (0 < r)%Q) by (subst r; apply Qlt_shift_div_l; lra).
  assert (Hr1 : (r <= 1)%Q) by (subst r; apply Qle_shift_div_r; lra).
  clearbody r.
  apply lt_div_mult in Hg; [| lra].
  destruct (Qlt_le_dec 0 d) as [Hpos | Hnonpos].
  - pose proof (mul_fraction_le d r Hr0 Hr1 Hpos). lra.
  - pose proof (mul_fraction_neg d r Hr0 Hnonpos). lra.
Qed.

Section LeakReports.
Context `{FloatText}.

(** X18.  A leak report states a real net growth: the newest slice average
    ([metric_value]) exceeds the oldest ([baseline_mean]) by more than
    50 MB, and by more than 100 MB when the severity is high; the severity
    is never anything but medium or high. *)
Theorem leak_report_net_growth (now : Z) (a : Analyzer.t) (timestamp : Z)
    (an : Anomaly.t) :
  Analyzer._detect_memory_leak now a timestamp = Some an ->
  (50 * 1024 * 1024 < Anomaly.metric_value an - Anomaly.baseline_mean an)%Q /\
  (Anomaly.severity an = High \/ Anomaly.severity an = Medium) /\
  (Anomaly.severity an = High ->
   (100 * 1024 * 1024 < Anomaly.metric_value an - Anomaly.baseline_mean an)%Q).
Proof.
  unfold Analyzer._detect_memory_leak.
  destruct (_ <? 60); [discriminate |].
  set (averages := Analyzer.bucket_averages _).
  destruct (_ <? 6) eqn:E6; [discriminate |].
  destruct (_ <? 5); [discriminate |].
  destruct (Py.ge _ _); [| discriminate].
  destruct (Py.gt _ 50) eqn:E50; [| discriminate].
  intros [= <-]. cbn [Anomaly.metric_value Anomaly.baseline_mean Anomaly.severity].
  apply Z.ltb_ge in E6. apply gt_spec in E50.
  assert (Hlen : (6 <= length averages)%nat) by lia.
  split; [| split].
  - apply net_growth_bound; [exact Hlen | lra | exact E50].
  - destruct (Py.gt _ 100); auto.
  - destruct (Py.gt _ 100) eqn:E100; [| discriminate].
    intros _. apply gt_spec in E100.
    apply net_growth_bound; [exact Hlen | lra | exact E100].
Qed.

Lemma bucket_averages_length (buckets : list (list Q)) :
  (length (Analyzer.bucket_averages buckets) <= length buckets)%nat.
Proof.
  unfold Analyzer.bucket_averages.
  induction buckets as [| bucket buckets IH]; [reflexivity |].
  cbn [flat_map]. rewrite length_app. destruct bucket; simpl in *; lia.
Qed.

Lemma bucket_averages_empty (n : nat) (buckets : list (list Q)) :
  Analyzer.bucket_averages (replicate n [] ++ buckets)
  = Analyzer.bucket_averages buckets.
Proof.
  unfold Analyzer.bucket_averages.
  induction n as [| n IH]; [reflexivity | exact IH].
Qed.

Lemma bucket_of_young (now ts : Z) (i : nat) :
  now - ts < Utils.minutes 50 -> bucket_of now ts = Some i -> (7 <= i)%nat.
Proof.
  unfold bucket_of, Analyzer.bucket_count, Analyzer.bucket_duration, Utils.minutes,
    Utils.us_per_second.
  intros Hage.
  assert (Hq : Z.quot (now - ts) (10 * 60 * 1000000) <= 4).
  { destruct (Z_lt_le_dec (now - ts) 0) as [Hneg | Hpos].
    - pose proof (Z.quot_opp_l (now - ts) (10 * 60 * 1000000) ltac:(lia)) as Ho.
      pose proof (Z.quot_pos (- (now - ts)) (10 * 60 * 1000000) ltac:(lia) ltac:(lia)).
      lia.
    - rewrite Z.quot_div_nonneg by lia.
      apply Z.lt_succ_r. apply Z.div_lt_upper_bound; lia. }
  destruct (_ && _); [| discriminate].
  intros [= <-]. lia.
Qed.

Lemma young_slices_empty (now : Z) (history : list (Z * Q)) (i : nat) :
  younger_than now (Utils.minutes 50) history -> (i < 7)%nat ->
  filter (fun e : Z * Q => bucket_of now e.1 = Some i) history = [].
Proof.
  unfold younger_than. intros Hyoung Hi.
  induction Hyoung as [| e history He _ IH]; [reflexivity |].
  rewrite filter_cons_False; [exact IH |].
  intros Hb. pose proof (bucket_of_young _ _ _ He Hb). lia.
Qed.

(** X19.  A buffer whose entries are all less than 50 minutes old fills at
    most five of the ten-minute slices, so no leak is reported from it,
    whatever its values and however many entries it has. *)
Theorem leak_needs_fifty_minutes (now : Z) (a : Analyzer.t) (timestamp : Z) :
  younger_than now (Utils.minutes 50) (Analyzer.memory_history a) ->
  Analyzer._detect_memory_leak now a timestamp = None.
Proof.
  intros Hyoung. unfold Analyzer._detect_memory_leak.
  destruct (_ <? 60); [reflexivity |].
  set (buckets := Analyzer.fill_buckets now (Analyzer.memory_history a)).
  assert (Hlen : length buckets = 12%nat) by apply fill_buckets_length.
  assert (Hhead : take 7 buckets = replicate 7 []).
  { apply list_eq. intros i.
    destruct (decide (i < 7)%nat) as [Hi | Hi].
    - rewrite lookup_take_lt by exact Hi.
      rewrite lookup_replicate_2 by exact Hi.
      subst buckets. rewrite fill_buckets_lookup by lia. f_equal.
      rewrite (young_slices_empty _ _ _ Hyoung Hi). reflexivity.
    - rewrite lookup_take_ge by lia.
      symmetry. apply lookup_replicate_None. lia. }
  assert (Hfew : (length (Analyzer.bucket_averages buckets) <= 5)%nat).
  { rewrite <- (take_drop 7 buckets), Hhead, bucket_averages_empty.
    etransitivity; [apply bucket_averages_length |].
    rewrite length_drop. lia. }
  destruct (_ <? 6) eqn:E6; [reflexivity |].
  apply Z.ltb_ge in E6. lia.
Qed.

End LeakReports.

(** ** From detection to explanation *)

Section Explanation.
Context `{FloatText}.

Lemma check_zscore_type (a : Analyzer.t) (timestamp : Z) (metric : string)
    (value : Q) (baseline : Baseline.t) (context : string) (an : Anomaly.t) :
  Analyzer._check_zscore a timestamp metric value baseline context = Py.Ok (Some an) ->
  Anomaly.metric_name an = metric /\
  Anomaly.anomaly_type an = Analyzer._get_anomaly_type metric (Anomaly.z_score an).
Proof.
  unfold Analyzer._check_zscore.
  destruct (Qeq_bool _ _); [discriminate |].
  destruct (Analyzer._classify_severity _ _); intros [= <-]; split; reflexivity.
Qed.

Lemma zscore_anomalies_reports (a : Analyzer.t) (timestamp : Z)
    (system_metrics : gmap string Q) (context : string) (metrics : list string) :
  forall out,
    Analyzer.zscore_anomalies a timestamp system_metrics context metrics = Py.Ok out ->
    Forall (fun an =>
              Anomaly.metric_name an ∈ metrics /\
              Anomaly.anomaly_type an =
                Analyzer._get_anomaly_type (Anomaly.metric_name an)
                  (Anomaly.z_score an)) out.
Proof.
  induction metrics as [| metric rest IH]; intros out; cbn [Analyzer.zscore_anomalies].
  - intros [= <-]. constructor.
  - assert (Hlift : forall l,
              Forall (fun an =>
                        Anomaly.metric_name an ∈ rest /\
                        Anomaly.anomaly_type an =
                          Analyzer._get_anomaly_type (Anomaly.metric_name an)
                            (Anomaly.z_score an)) l ->
              Forall (fun an =>
                        Anomaly.metric_name an ∈ metric :: rest /\
                        Anomaly.anomaly_type an =
                          Analyzer._get_anomaly_type (Anomaly.metric_name an)
                            (Anomaly.z_score an)) l).
    { intros l Hl. eapply Forall_impl; [exact Hl |].
      intros an [Hin Hty]. split; [right; exact Hin | exact Hty]. }
    destruct (system_metrics !! metric) as [value |]; [| intros E; apply Hlift, IH, E].
    destruct (Analyzer.get_baseline a metric context) as [baseline |];
      [| intros E; apply Hlift, IH, E].
    unfold mbind, result_bind, Py.bind.
    destruct (Analyzer._check_zscore a timestamp metric value baseline context)
      as [anomaly | e] eqn:Ez; [| discriminate].
    destruct (Analyzer.zscore_anomalies a timestamp system_metrics context rest)
      as [others | e]; [| discriminate].
    specialize (IH others eq_refl). apply Hlift in IH.
    destruct anomaly as [an |]; intros [= <-]; [| exact IH].
    constructor; [| exact IH].
    destruct (check_zscore_type _ _ _ _ _ _ _ Ez) as [Hname Hty].
    split; [rewrite Hname; left | rewrite Hname at 1; exact Hty].
Qed.

Lemma memory_leak_names (now : Z) (a : Analyzer.t) (timestamp : Z) (an : Anomaly.t) :
  Analyzer._detect_memory_leak now a timestamp = Some an ->
  Anomaly.metric_name an = "memory_used" /\ Anomaly.anomaly_type an = "memory_leak".
Proof.
  unfold Analyzer._detect_memory_leak.
  repeat match goal with
         | |- context [if ?b then _ else _] => destruct b; try discriminate
         end.
  all: intros [= <-]; split; reflexivity.
Qed.

Lemma swap_thrashing_names (a : Analyzer.t) (timestamp : Z) (an : Anomaly.t) :
  Analyzer._detect_swap_thrashing a timestamp = Some an ->
  Anomaly.metric_name an = "swap_used" /\ Anomaly.anomaly_type an = "swap_thrashing".
Proof.
  unfold Analyzer._detect_swap_thrashing.
  repeat match goal with
         | |- context [if ?b then _ else _] => destruct b; try discriminate
         end.
  intros [= <-]; split; reflexivity.
Qed.

Lemma analyze_reports (clock : Analyzer.Clock) (a : Analyzer.t) (timestamp : Z)
    (system_metrics : gmap string Q) (out : list Anomaly.t) (a' : Analyzer.t) :
  Analyzer.analyze clock a timestamp system_metrics = Py.Ok (out, a') ->
  Forall detector_report out.
Proof.
  unfold Analyzer.analyze, mbind, result_bind, Py.bind.
  destruct (Analyzer.zscore_anomalies a timestamp system_metrics
              (Utils.get_time_context timestamp) Analyzer.MONITORED_METRICS)
    as [zscores | e] eqn:Ez; [| discriminate].
  destruct (Analyzer._detect_trends clock a timestamp system_metrics)
    as [trends a''] eqn:Et.
  intros [= <- <-].
  apply Forall_app. split.
  - eapply Forall_impl; [exact (zscore_anomalies_reports _ _ _ _ _ _ Ez) |].
    intros an Han. left. exact Han.
  - unfold Analyzer._detect_trends in Et. injection Et as <- _.
    apply Forall_app. split.
    + destruct (Analyzer._detect_memory_leak _ _ _) as [an |] eqn:El;
        [| constructor].
      apply List.Forall_cons; [| apply List.Forall_nil].
      right. left. exact (memory_leak_names _ _ _ _ El).
    + destruct (Analyzer._detect_swap_thrashing _ _) as [an |] eqn:Es;
        [| constructor].
      apply List.Forall_cons; [| apply List.Forall_nil].
      right. right. exact (swap_thrashing_names _ _ _ Es).
Qed.

(** The type of a report and the key its processes are ranked by. *)
Lemma detector_report_types (an : Anomaly.t) :
  detector_report an ->
  Anomaly.anomaly_type an <> "io_bottleneck" /\
  RootCauseAnalyzer.choose_sort_key (Anomaly.anomaly_type an)
  = if String.eqb (Anomaly.metric_name an) "cpu_percent"
    then KeyCpuPercent else KeyMemoryRss.
Proof.
  intros [[Hin Hty] | [[Hname Hty] | [Hname Hty]]]; rewrite Hty.
  - unfold Analyzer.MONITORED_METRICS in Hin.
    repeat (apply elem_of_cons in Hin as [-> | Hin]).
    4: apply elem_of_nil in Hin; contradiction.
    all: unfold Analyzer._get_anomaly_type; cbn [String.eqb Ascii.eqb Bool.eqb];
      destruct (Py.gt _ 0); (split; [discriminate | reflexivity]).
  - rewrite Hname. split; [discriminate | reflexivity].
  - rewrite Hname. split; [discriminate | reflexivity].
Qed.

(** X20.  The ranking key of a reported anomaly.  For every anomaly that
    [Analyzer.analyze] returns, the root-cause analysis ranks the processes
    by CPU exactly when the anomaly is about [cpu_percent], and by resident
    memory otherwise (memory and swap anomalies, both trends). *)
Theorem reported_anomaly_ranking_key (clock : Analyzer.Clock) (a : Analyzer.t)
    (timestamp : Z) (system_metrics : gmap string Q)
    (out : list Anomaly.t) (a' : Analyzer.t) (an : Anomaly.t) :
  Analyzer.analyze clock a timestamp system_metrics = Py.Ok (out, a') ->
  an ∈ out ->
  RootCauseAnalyzer.choose_sort_key (Anomaly.anomaly_type an)
  = if String.eqb (Anomaly.metric_name an) "cpu_percent"
    then KeyCpuPercent else KeyMemoryRss.
Proof.
  intros Han Hin.
  pose proof (analyze_reports _ _ _ _ _ _ Han) as Hall.
  rewrite Forall_forall in Hall.
  exact (proj2 (detector_report_types an (Hall an Hin))).
Qed.

Lemma contribution_steps_io (db : Db.t) (anomaly : Anomaly.t)
    (current_processes : list Process.t) (root_cause : RootCause.t) :
  RootCause.io_analysis
    (RootCauseAnalyzer.contribution_steps db anomaly current_processes root_cause).1
  = RootCause.io_analysis root_cause.
Proof.
  unfold RootCauseAnalyzer.contribution_steps.
  destruct current_processes as [| p rest]; [reflexivity |].
  destruct (RootCauseAnalyzer._analyze_process_contributions _ _ _ _)
    as [contributors | e]; [| reflexivity].
  destruct contributors as [| top more]; [reflexivity |].
  destruct (Contributor.pid top) as [top_pid |]; [| reflexivity].
  destruct (RootCauseAnalyzer.truthy_pid (Some top_pid)); reflexivity.
Qed.

(** The I/O step runs for the two I/O types only, and needs a snapshot. *)
Lemma explain_io_analysis (db : Db.t) (anomaly : Anomaly.t)
    (current_processes : list Process.t) (rc : RootCause.t) :
  Anomaly.root_cause (RootCauseAnalyzer.analyze db anomaly current_processes)
    = Some rc ->
  is_Some (RootCause.io_analysis rc) ->
  (Anomaly.anomaly_type anomaly = "io_bottleneck" \/
   Anomaly.anomaly_type anomaly = "swap_thrashing") /\
  current_processes <> [] /\
  explain_failure db anomaly current_processes = None.
Proof.
  unfold explain_failure, RootCauseAnalyzer.analyze, RootCauseAnalyzer.try_body.
  pose proof (contribution_steps_io db anomaly current_processes
                (RootCauseAnalyzer.with_timeline RootCauseAnalyzer.empty_root_cause
                   (RootCauseAnalyzer._reconstruct_timeline db
                      (Anomaly.timestamp anomaly) (Anomaly.metric_name anomaly))))
    as Hio.
  destruct (RootCauseAnalyzer.contribution_steps _ _ _ _) as [rc1 [e |]].
  - cbn. intros [= <-]. cbn in *. rewrite Hio. intros [io [=]].
  - cbn in Hio.
    destruct (String.eqb (Anomaly.anomaly_type anomaly) "io_bottleneck"
              || String.eqb (Anomaly.anomaly_type anomaly) "swap_thrashing")
      eqn:Ety.
    + destruct (RootCauseAnalyzer._analyze_io _ _) as [io | e] eqn:Eio.
      * cbn. intros [= <-]. cbn. intros Hsome.
        split_and!; [| | reflexivity].
        -- apply orb_true_iff in Ety as [E | E]; apply String.eqb_eq in E; auto.
        -- intros ->. cbn in Eio. injection Eio as <-.
           destruct Hsome as [? [=]].
      * cbn. intros [= <-]. cbn. rewrite Hio. intros [io [=]].
    + cbn. intros [= <-]. cbn. rewrite Hio. intros [io [=]].
Qed.

(** X21.  Among the anomalies that [Analyzer.analyze] returns, only a swap
    thrashing report can get an I/O analysis, and only when a process
    snapshot is given and no step of the explanation has failed: the other
    I/O type, io_bottleneck, is never reported by the analyzer. *)
Theorem io_analysis_only_for_swap_thrashing (clock : Analyzer.Clock)
    (a : Analyzer.t) (timestamp : Z) (system_metrics : gmap string Q)
    (out : list Anomaly.t) (a' : Analyzer.t) (an : Anomaly.t)
    (db : Db.t) (current_processes : list Process.t) (rc : RootCause.t) :
  Analyzer.analyze clock a timestamp system_metrics = Py.Ok (out, a') ->
  an ∈ out ->
  Anomaly.root_cause (RootCauseAnalyzer.analyze db an current_processes) = Some rc ->
  is_Some (RootCause.io_analysis rc) ->
  Anomaly.anomaly_type an = "swap_thrashing" /\
  current_processes <> [] /\
  explain_failure db an current_processes = None.
Proof.
  intros Han Hin Hrc Hio.
  pose proof (analyze_reports _ _ _ _ _ _ Han) as Hall.
  rewrite Forall_forall in Hall.
  destruct (detector_report_types an (Hall an Hin)) as [Hnot _].
  destruct (explain_io_analysis _ _ _ _ Hrc Hio) as ([Hty | Hty] & Hne & Hok).
  - contradiction.
  - auto.
Qed.

(** X22.  Without a process snapshot the explanation cannot fail, whatever
    the database does: the root cause holds the timeline and nothing else,
    and its summary is the single line "[SEVERITY] description". *)
Theorem explain_without_snapshot (db : Db.t) (anomaly : Anomaly.t) :
  exists rc,
    RootCauseAnalyzer.analyze db anomaly [] =
      RootCauseAnalyzer.with_root_cause anomaly rc /\
    RootCause.timeline rc =
      RootCauseAnalyzer._reconstruct_timeline db (Anomaly.timestamp anomaly)
        (Anomaly.metric_name anomaly) /\
    RootCause.top_contributors rc = [] /\
    RootCause.process_tree rc = None /\
    RootCause.io_analysis rc = None /\
    RootCause.summary rc =
      "[" +:+ Py.upper (severity_name (Anomaly.severity anomaly)) +:+ "] " +:+
      Anomaly.description anomaly.
Proof.
  unfold RootCauseAnalyzer.analyze, RootCauseAnalyzer.try_body,
    RootCauseAnalyzer.contribution_steps.
  destruct (String.eqb (Anomaly.anomaly_type anomaly) "io_bottleneck"
            || String.eqb (Anomaly.anomaly_type anomaly) "swap_thrashing");
    cbn; eexists; split_and!; reflexivity.
Qed.

(** X23.  The "Process chain" line of a summary is dead: a tree that
    [_build_process_tree] built never has more than one node, so the
    summary of a root cause is the same with that tree as without a tree. *)
Theorem summary_ignores_built_tree (anomaly : Anomaly.t) (root_cause : RootCause.t)
    (target_pid : Z) (current_processes : list Process.t) :
  RootCauseAnalyzer._generate_summary anomaly
    (RootCauseAnalyzer.with_process_tree root_cause
       (Some (RootCauseAnalyzer._build_process_tree target_pid current_processes)))
  = RootCauseAnalyzer._generate_summary anomaly
      (RootCauseAnalyzer.with_process_tree root_cause None).
Proof.
  pose proof (build_process_tree_at_most_one target_pid current_processes) as Hlen.
  unfold RootCauseAnalyzer._generate_summary.
  cbn [RootCause.process_tree RootCause.top_contributors RootCause.io_analysis
       RootCauseAnalyzer.with_process_tree].
  destruct (1 <? length _)%nat eqn:E; [| reflexivity].
  apply Nat.ltb_lt in E. lia.
Qed.

End Explanation.

(** ** I/O analysis *)

Lemma or_zero_Some (v : Q) : (Py.or_zero (Some v) == v)%Q.
Proof.
  unfold Py.or_zero. destruct (Qeq_bool v 0) eqn:E; [| reflexivity].
  apply Qeq_bool_iff in E. rewrite E. reflexivity.
Qed.

Lemma io_procs_of_records (current_processes : list Process.t) :
  Forall2 io_record (filter has_io_counters current_processes)
    (RootCauseAnalyzer.io_procs_of current_processes).
Proof.
  unfold RootCauseAnalyzer.io_procs_of.
  induction current_processes as [| proc rest IH]; [constructor |].
  cbn [flat_map].
  destruct (Py.get (Process.io_read_bytes proc)) as [read_bytes |] eqn:Er.
  - destruct (Py.get (Process.io_write_bytes proc)) as [write_bytes |] eqn:Ew.
    + rewrite filter_cons_True
        by (unfold has_io_counters; rewrite Er, Ew; split; eauto).
      constructor; [| exact IH].
      unfold io_record.
      cbn [IoProc.io_read_bytes IoProc.io_write_bytes IoProc.pid IoProc.name
           IoProc.total_io].
      split_and!; try reflexivity; try assumption.
      rewrite !or_zero_Some. reflexivity.
    + rewrite filter_cons_False; [exact IH |].
      unfold has_io_counters. rewrite Ew. intros [_ [? [=]]].
  - rewrite filter_cons_False; [exact IH |].
    unfold has_io_counters. rewrite Er. intros [[? [=]] _].
Qed.

Lemma classify_io_raises (proc : IoProc.t) :
  (exists e, RootCauseAnalyzer.classify_io proc = Py.Raise e) <->
  unreadable_name proc.
Proof.
  unfold RootCauseAnalyzer.classify_io, unreadable_name.
  destruct (Py.gt _ 0) eqn:Egt.
  - apply gt_spec in Egt.
    destruct (IoProc.name proc) as [raw_name |].
    + split; [| intros [_ [=]]].
      intros [e He]. exfalso.
      repeat match type of He with
             | context [if ?b then _ else _] => destruct b
             end; discriminate He.
    + split; [intros _; split; [exact Egt | reflexivity] | eauto].
  - apply gt_false in Egt. split; [intros [e [=]] | intros [Hpos _]; lra].
Qed.

Lemma classify_io_pattern (proc : IoProc.t) (pat : Pattern.t) :
  RootCauseAnalyzer.classify_io proc = Py.Ok (Some pat) -> flags_small_reads pat.
Proof.
  unfold RootCauseAnalyzer.classify_io, flags_small_reads.
  destruct (Py.gt _ 0); [| discriminate].
  destruct (IoProc.name proc) as [raw_name |]; [| discriminate].
  destruct (Py.lt _ (32 * 1024)) eqn:Elt.
  - apply lt_spec in Elt.
    destruct (RootCauseAnalyzer.any_in _ _);
      [| destruct (RootCauseAnalyzer.any_in _ _)];
      intros [= <-]; cbn [Pattern.likely_issue Pattern.avg_read_size];
      (split; [split; eauto | discriminate]).
  - apply lt_false in Elt.
    destruct (Py.gt _ (1024 * 1024)); intros [= <-];
      cbn [Pattern.likely_issue Pattern.avg_read_size];
      (split; [split; [intros [? [=]] | intros Hlt; apply Qlt_not_le in Hlt;
                                          contradiction]
              | discriminate]).
Qed.

Lemma classify_all_raises (procs : list IoProc.t) :
  (exists e, RootCauseAnalyzer.classify_all procs = Py.Raise e) <->
  Exists unreadable_name procs.
Proof.
  induction procs as [| proc rest IH]; cbn [RootCauseAnalyzer.classify_all].
  - split; [intros [e [=]] | intros Hex; inversion Hex].
  - unfold mbind, result_bind, Py.bind.
    destruct (RootCauseAnalyzer.classify_io proc) as [pattern | e] eqn:Ec.
    + assert (Hok : ~ unreadable_name proc).
      { intros Hbad. apply classify_io_raises in Hbad as [e He]. congruence. }
      destruct (RootCauseAnalyzer.classify_all rest) as [patterns | e] eqn:Er.
      * split; [intros [e [=]] |].
        intros Hex. apply Exists_cons in Hex as [Hbad | Hbad]; [contradiction |].
        apply IH in Hbad as [e [=]].
      * split; [| eauto]. intros _. apply Exists_cons_tl, IH. eauto.
    + split; [| eauto]. intros _. apply Exists_cons_hd, classify_io_raises. eauto.
Qed.

Lemma classify_all_patterns (procs : list IoProc.t) (patterns : list Pattern.t) :
  RootCauseAnalyzer.classify_all procs = Py.Ok patterns ->
  (length patterns <= length procs)%nat /\ Forall flags_small_reads patterns.
Proof.
  revert patterns.
  induction procs as [| proc rest IH]; intros patterns;
    cbn [RootCauseAnalyzer.classify_all].
  - intros [= <-]. split; [reflexivity | constructor].
  - unfold mbind, result_bind, Py.bind.
    destruct (RootCauseAnalyzer.classify_io proc) as [pattern | e] eqn:Ec;
      [| discriminate].
    destruct (RootCauseAnalyzer.classify_all rest) as [others | e]; [| discriminate].
    destruct (IH others eq_refl) as [Hlen Hall].
    intros [= <-]. destruct pattern as [pat |].
    + change (option_list (Some pat) ++ others) with (pat :: others).
      split; [rewrite !length_cons; lia |].
      constructor; [exact (classify_io_pattern _ _ Ec) | exact Hall].
    + change (option_list None ++ others) with others.
      split; [rewrite length_cons; lia | exact Hall].
Qed.

(** X24.  The ranking of an I/O analysis.  One record is built for every
    process whose read and write byte counters are both present, its total
    the sum of the two; the records are ranked by total, largest first, and
    the first 10 are returned: nothing that is left out has a larger total
    than a record that is kept.  At most 5 patterns are returned, and a
    pattern names an issue exactly when its reads average under 32 KB. *)
Theorem io_analysis_ranking (timestamp : Z) (current_processes : list Process.t)
    (io : IoAnalysis.t) :
  RootCauseAnalyzer._analyze_io timestamp current_processes = Py.Ok (Some io) ->
  let top := IoAnalysis.top_io_processes io in
  exists recs rest,
    Forall2 io_record (filter has_io_counters current_processes) recs /\
    recs ≡ₚ top ++ rest /\
    StronglySorted (ranked_before IoProc.total_io) top /\
    Forall (fun r => Forall (fun o => ranked_before IoProc.total_io o r) top) rest /\
    length top = Nat.min 10 (length recs) /\
    (length (IoAnalysis.patterns io) <= 5)%nat /\
    Forall flags_small_reads (IoAnalysis.patterns io).
Proof.
  unfold RootCauseAnalyzer._analyze_io.
  destruct current_processes as [| proc procs]; [discriminate |].
  set (recs := RootCauseAnalyzer.io_procs_of (proc :: procs)).
  set (ranked := sort_desc IoProc.total_io recs).
  unfold mbind, result_bind, Py.bind.
  destruct (RootCauseAnalyzer.classify_all (take 5 ranked)) as [patterns | e] eqn:Ep;
    [| discriminate].
  intros [= <-]. cbv zeta. cbn [IoAnalysis.top_io_processes IoAnalysis.patterns].
  exists recs, (drop 10 ranked).
  pose proof (sort_desc_sorted IoProc.total_io recs) as Hsorted.
  fold ranked in Hsorted.
  destruct (classify_all_patterns _ _ Ep) as [Hlen Hflags].
  split_and!.
  - apply io_procs_of_records.
  - rewrite take_drop. subst ranked. symmetry. apply sort_desc_perm.
  - rewrite <- (take_drop 10 ranked) in Hsorted.
    exact (StronglySorted_app_1_l _ _ _ Hsorted).
  - apply ranked_take_drop, Hsorted.
  - rewrite length_take. subst ranked. rewrite sort_desc_length. reflexivity.
  - rewrite length_take in Hlen. lia.
  - exact Hflags.
Qed.

(** X25.  When an I/O analysis fails.  [_analyze_io] raises exactly when
    one of the five records with the largest totals has a positive read
    count and a name that is [None]; an empty snapshot gives no analysis
    instead. *)
Theorem io_analysis_fails_exactly (timestamp : Z)
    (current_processes : list Process.t) :
  ((exists e, RootCauseAnalyzer._analyze_io timestamp current_processes = Py.Raise e)
   <->
   Exists unreadable_name
     (take 5 (sort_desc IoProc.total_io
                (RootCauseAnalyzer.io_procs_of current_processes)))) /\
  (RootCauseAnalyzer._analyze_io timestamp current_processes = Py.Ok None <->
   current_processes = []).
Proof.
  unfold RootCauseAnalyzer._analyze_io.
  destruct current_processes as [| proc procs].
  - split; [| split; reflexivity].
    split; [intros [e [=]] | intros Hex; inversion Hex].
  - rewrite <- classify_all_raises.
    unfold mbind, result_bind, Py.bind.
    destruct (RootCauseAnalyzer.classify_all _) as [patterns | e].
    + split; [split; intros [e [=]] | split; intros [=]].
    + split; [split; eauto | split; intros [=]].
Qed.

(** ** [format_bytes] *)

Lemma kilo_power_succ (k : nat) : (kilo_power (S k) == 1024 * kilo_power k)%Q.
Proof.
  unfold kilo_power.
  rewrite Nat2Z.inj_succ, Z.pow_succ_r by lia.
  rewrite inject_Z_mult. reflexivity.
Qed.

Lemma kilo_power_pos (k : nat) : (1 <= kilo_power k)%Q.
Proof.
  unfold kilo_power. change 1%Q with (inject_Z 1). rewrite <- Zle_Qle.
  pose proof (Z.pow_pos_nonneg 1024 (Z.of_nat k) ltac:(lia) ltac:(lia)). lia.
Qed.

Lemma Qabs_kilo (b : Q) : (Qabs (b / 1024) == Qabs b * (1 # 1024))%Q.
Proof. unfold Qdiv. rewrite Qabs_Qmult. reflexivity. Qed.

Lemma scaled_succ (b : Q) (k : nat) : scaled (b / 1024) k = scaled b (S k).
Proof.
  unfold scaled.
  exact (eq_sym (Nat.iter_succ_r k (fun x => (x / 1024)%Q) b)).
Qed.

Section FormatBytes.
Context `{FloatText}.

Lemma format_bytes_loop_unit (k : nat) :
  forall (us : list string) (b : Q) (unit : string),
    us !! k = Some unit ->
    ((0 < k)%nat -> (kilo_power k <= Qabs b)%Q) ->
    (Qabs b < kilo_power (S k))%Q ->
    Utils.format_bytes_loop us b = fmt_fixed 1 (scaled b k) +:+ " " +:+ unit.
Proof.
  induction k as [| k IH]; intros us b unit Hunit Hlow Hhigh;
    destruct us as [| u us']; try discriminate Hunit;
    cbn [Utils.format_bytes_loop].
  - injection Hunit as <-.
    assert (Hlt : (Qabs b < 1024)%Q) by (rewrite kilo_power_succ in Hhigh;
                                         change (kilo_power 0) with 1%Q in Hhigh; lra).
    apply lt_spec in Hlt. rewrite Hlt. reflexivity.
  - specialize (Hlow ltac:(lia)).
    pose proof (kilo_power_succ k) as Hk. pose proof (kilo_power_pos k) as Hpos.
    pose proof (kilo_power_succ (S k)) as HSk.
    assert (Hge : (1024 <= Qabs b)%Q) by lra.
    apply lt_false in Hge. rewrite Hge.
    rewrite <- scaled_succ.
    apply IH; [exact Hunit | intros _ | ]; rewrite Qabs_kilo; lra.
Qed.

Lemma format_bytes_loop_overflow (us : list string) :
  forall b : Q,
    ((0 < length us)%nat -> (kilo_power (length us) <= Qabs b)%Q) ->
    Utils.format_bytes_loop us b = fmt_fixed 1 (scaled b (length us)) +:+ " PB".
Proof.
  induction us as [| u us' IH]; intros b Hlow; cbn [Utils.format_bytes_loop].
  - reflexivity.
  - rewrite length_cons in *. specialize (Hlow ltac:(lia)).
    pose proof (kilo_power_succ (length us')) as Hk.
    pose proof (kilo_power_pos (length us')) as Hpos.
    assert (Hge : (1024 <= Qabs b)%Q) by lra.
    apply lt_false in Hge. rewrite Hge.
    rewrite <- scaled_succ.
    apply IH. intros _. rewrite Qabs_kilo. lra.
Qed.

(** X26.  The unit of [format_bytes].  The unit is chosen by the magnitude
    of the count, negative counts included: below 1024 the count is printed
    in B; between 1024^k and 1024^(k+1) it is divided [k] times by 1024 and
    printed in the [k]-th unit of B, KB, MB, GB, TB; from 1024^5 on it is
    divided 5 times and printed in PB, whatever its size. *)
Theorem format_bytes_unit (b : Q) (k : nat) :
  (k <= 5)%nat ->
  ((0 < k)%nat -> (kilo_power k <= Qabs b)%Q) ->
  ((k < 5)%nat -> (Qabs b < kilo_power (S k))%Q) ->
  Utils.format_bytes (Some b)
  = fmt_fixed 1 (scaled b k) +:+ " " +:+ nth k (Utils.units ++ ["PB"]) "".
Proof.
  intros Hk Hlow Hhigh. cbn [Utils.format_bytes].
  destruct (decide (k = 5%nat)) as [-> | Hne].
  - apply (format_bytes_loop_overflow Utils.units). exact Hlow.
  - assert (Hlt : (k < 5)%nat) by lia.
    apply format_bytes_loop_unit; [| exact Hlow | exact (Hhigh Hlt)].
    do 5 (destruct k as [| k]; [reflexivity |]). lia.
Qed.

End FormatBytes.

(** ** Examples of the properties above *)

(** A CPU reading of 85 against the seeded baseline of mean 50 and std_dev
    10, on a Monday morning. *)
Lemma analyze_output_order_witness :
  exists out a',
    Analyzer.analyze (H := decimal_text) (Example.clock_at Example.monday_9am)
      Cases.seeded_analyzer Example.monday_9am Cases.busy_sample = Py.Ok (out, a') /\
    exists zscores trends,
      out = zscores ++ trends /\
      (Anomaly.metric_name <$> zscores) `sublist_of` Analyzer.MONITORED_METRICS /\
      Forall (fun an => Anomaly.severity an <> Normal /\ Anomaly.severity an <> Low)
             zscores /\
      (Anomaly.anomaly_type <$> trends) `sublist_of` ["memory_leak"; "swap_thrashing"] /\
      Forall (fun an => Anomaly.timestamp an = Example.monday_9am) out.
Proof.
  destruct (Analyzer.analyze (H := decimal_text) (Example.clock_at Example.monday_9am)
              Cases.seeded_analyzer Example.monday_9am Cases.busy_sample)
    as [[out a'] | e] eqn:E; [| vm_compute in E; discriminate E].
  exists out, a'. split; [reflexivity |].
  exact (analyze_output_order (H := decimal_text) _ _ _ _ _ _ E).
Defined.


(** A forced refresh over the ten samples around 50. *)
Lemma refresh_then_get_witness :
  exists b,
    Analyzer.get_baseline Example.learned_analyzer "cpu_percent" "weekday_morning"
      = Some b /\
    Baseline.mean b = Np.mean Cases.old_values /\
    Baseline.count b = 10.
Proof.
  destruct (refresh_then_get (H := sqrt_6_decimals) 0 true Example.old_history_db
              Example.fresh_analyzer "cpu_percent" "weekday_morning" Cases.old_values)
    as (b & Hb & Hmean & _ & _ & Hcount & _).
  - left. reflexivity.
  - vm_compute. repeat constructor.
  - vm_compute. repeat constructor.
  - reflexivity.
  - simpl. lia.
  - reflexivity.
  - exists b. split; [exact Hb |]. split; [exact Hmean | exact Hcount].
Defined.

(** The entry that the forced refresh wrote for CPU on weekday mornings. *)
Lemma refresh_writes_well_formed_witness :
  well_formed (Analyzer.compute_stats (H := sqrt_6_decimals) Cases.old_values).
Proof.
  apply (refresh_writes_well_formed (H := sqrt_6_decimals) 0 true
           Example.old_history_db Example.fresh_analyzer
           ("cpu_percent", "weekday_morning")).
  - vm_compute. reflexivity.
  - vm_compute. discriminate.
Defined.

(** The seeded baseline survives a refresh over a history of nine values. *)
Lemma refresh_keeps_entries_witness :
  is_Some (Analyzer.baselines_cache
             (Analyzer.update_baselines (H := sqrt_6_decimals) 0 true
                Example.short_history_db Cases.seeded_analyzer)
           !! ("cpu_percent", "weekday_morning")).
Proof.
  apply (refresh_keeps_entries (H := sqrt_6_decimals) 0 true
           Example.short_history_db Cases.seeded_analyzer
           ("cpu_percent", "weekday_morning") Example.cpu_baseline).
  vm_compute. reflexivity.
Defined.

(** The analyzer that learned from the old history. *)
Lemma reachable_keeps_floor_witness :
  floor_ok (Analyzer.baselines_cache Example.learned_analyzer).
Proof.
  apply (reachable_keeps_floor (H := sqrt_6_decimals) (H0 := decimal_text)
           Example.learned_analyzer).
  unfold Example.learned_analyzer. apply reach_refresh.
  apply (reach_init (H := sqrt_6_decimals) (H0 := decimal_text)
           Example.default_config Example.empty_db).
  unfold floored_rows. simpl. constructor.
Defined.


(** Twenty swap samples that alternate between 500 MB and 550 MB. *)
Lemma swap_band_never_thrashes_witness :
  Analyzer._detect_swap_thrashing
    (Example.with_buffers [] (Example.swap_series 500 550)) 0 = None.
Proof.
  apply (swap_band_never_thrashes _ 0 (inject_Z (500 * 1048576))).
  unfold within_band.
  change (Analyzer.swap_history (Example.with_buffers [] (Example.swap_series 500 550)))
    with (Example.swap_series 500 550).
  unfold Example.swap_series. cbn [fmap list_fmap].
  repeat (apply List.Forall_cons; [split; vm_compute; discriminate |]).
  apply List.Forall_nil.
Defined.

(** Twenty swap samples that alternate between 0 and 200 MB: 19 large
    changes. *)
Lemma thrashing_needs_three_changes_witness :
  3 <= Analyzer.count_swap_changes (Example.swap_series 0 200).
Proof.
  destruct (Analyzer._detect_swap_thrashing
              (Example.with_buffers [] (Example.swap_series 0 200)) 0)
    as [an |] eqn:E; [| vm_compute in E; discriminate E].
  exact (proj2 (thrashing_needs_three_changes _ _ _ E)).
Defined.

(** Two hours of memory samples that gain 20 MB from one slice to the next:
    220 MB between the oldest and the newest slice. *)
Lemma leak_report_net_growth_witness :
  exists an,
    Analyzer._detect_memory_leak (H := decimal_text) (Utils.hours 2)
      (Example.with_buffers (Example.memory_series 20) []) 0 = Some an /\
    (50 * 1024 * 1024 < Anomaly.metric_value an - Anomaly.baseline_mean an)%Q.
Proof.
  destruct (Analyzer._detect_memory_leak (H := decimal_text) (Utils.hours 2)
              (Example.with_buffers (Example.memory_series 20) []) 0)
    as [an |] eqn:E; [| vm_compute in E; discriminate E].
  exists an. split; [reflexivity |].
  exact (proj1 (leak_report_net_growth (H := decimal_text) _ _ _ _ E)).
Defined.

(** Sixty samples that grow by 100 MB each, all within the last 40 minutes. *)
Lemma leak_needs_fifty_minutes_witness :
  Analyzer._detect_memory_leak (H := decimal_text) (Utils.hours 2)
    (Example.with_buffers Cases.recent_memory []) 0 = None.
Proof.
  apply (leak_needs_fifty_minutes (H := decimal_text)).
  unfold younger_than.
  change (Analyzer.memory_history (Example.with_buffers Cases.recent_memory []))
    with Cases.recent_memory.
  unfold Cases.recent_memory. apply Forall_fmap, Forall_seqZ.
  intros j Hj. cbn [compose fst].
  unfold Utils.hours, Utils.minutes, Utils.seconds, Utils.us_per_hour,
    Utils.us_per_second.
  lia.
Defined.


(** The CPU anomaly of the busy sample is ranked by CPU. *)
Lemma reported_anomaly_ranking_key_witness :
  exists out a' an,
    Analyzer.analyze (H := decimal_text) (Example.clock_at Example.monday_9am)
      Cases.seeded_analyzer Example.monday_9am Cases.busy_sample = Py.Ok (out, a') /\
    an ∈ out /\
    RootCauseAnalyzer.choose_sort_key (Anomaly.anomaly_type an)
    = if String.eqb (Anomaly.metric_name an) "cpu_percent"
      then KeyCpuPercent else KeyMemoryRss.
Proof.
  destruct (Analyzer.analyze (H := decimal_text) (Example.clock_at Example.monday_9am)
              Cases.seeded_analyzer Example.monday_9am Cases.busy_sample)
    as [[out a'] | e] eqn:E; [| vm_compute in E; discriminate E].
  destruct out as [| an rest]; [vm_compute in E; discriminate E |].
  exists (an :: rest), a', an.
  split; [reflexivity |]. split; [left |].
  exact (reported_anomaly_ranking_key (H := decimal_text) _ _ _ _ _ _ an E
           (list_elem_of_here an rest)).
Defined.

(** A buffer of swap samples that alternate between 0 and 200 MB is
    reported as thrashing; explained over the snapshot, the report gets an
    I/O analysis. *)
Lemma io_analysis_only_for_swap_thrashing_witness :
  exists out a' an rc,
    Analyzer.analyze (H := decimal_text) (Example.clock_at Example.monday_9am)
      (Example.with_buffers [] (Example.swap_series 0 200)) Example.monday_9am ∅
      = Py.Ok (out, a') /\
    an ∈ out /\
    Anomaly.root_cause
      (RootCauseAnalyzer.analyze (H := decimal_text) Example.history_db an
         Example.snapshot) = Some rc /\
    is_Some (RootCause.io_analysis rc) /\
    Anomaly.anomaly_type an = "swap_thrashing".
Proof.
  destruct (Analyzer.analyze (H := decimal_text) (Example.clock_at Example.monday_9am)
              (Example.with_buffers [] (Example.swap_series 0 200))
              Example.monday_9am ∅)
    as [[out a'] | e] eqn:E; [| vm_compute in E; discriminate E].
  destruct out as [| an rest]; [vm_compute in E; discriminate E |].
  destruct (Anomaly.root_cause
              (RootCauseAnalyzer.analyze (H := decimal_text) Example.history_db an
                 Example.snapshot)) as [rc |] eqn:Erc.
  2: { unfold RootCauseAnalyzer.analyze in Erc.
       destruct (RootCauseAnalyzer.try_body _ _ _ _) as [rc0 exc].
       discriminate Erc. }
  assert (Hio : is_Some (RootCause.io_analysis rc)).
  { pose proof E as E'. vm_compute in E'. injection E' as Ean _ _.
    pose proof Erc as Erc'. rewrite <- Ean in Erc'. vm_compute in Erc'.
    injection Erc' as <-. eexists. reflexivity. }
  exists (an :: rest), a', an, rc.
  split; [reflexivity |]. split; [left |]. split; [exact Erc |].
  split; [exact Hio |].
  exact (proj1 (io_analysis_only_for_swap_thrashing (H := decimal_text)
                  _ _ _ _ _ _ an _ _ rc E (list_elem_of_here an rest) Erc Hio)).
Defined.


(** A snapshot of three processes, two of them with I/O counters. *)
Lemma io_analysis_ranking_witness :
  exists io,
    RootCauseAnalyzer._analyze_io 0 Cases.io_snapshot = Py.Ok (Some io) /\
    StronglySorted (ranked_before IoProc.total_io) (IoAnalysis.top_io_processes io) /\
    Forall flags_small_reads (IoAnalysis.patterns io).
Proof.
  destruct (RootCauseAnalyzer._analyze_io 0 Cases.io_snapshot)
    as [[io |] | e] eqn:E; try (vm_compute in E; discriminate E).
  exists io. split; [reflexivity |].
  destruct (io_analysis_ranking _ _ _ E)
    as (recs & rest & _ & _ & Hsorted & _ & _ & _ & Hflags).
  split; [exact Hsorted | exact Hflags].
Defined.

(** One and a half megabytes. *)
Lemma format_bytes_unit_witness :
  Utils.format_bytes (H := decimal_text) (Some 1572864%Q) = "1.5 MB".
Proof.
  rewrite (format_bytes_unit (H := decimal_text) 1572864%Q 2).
  - vm_compute. reflexivity.
  - lia.
  - intros _. vm_compute. discriminate.
  - intros _. vm_compute. reflexivity.
Defined.
